(** * Epidemic grid engine (simulator/sir.py): a shallow embedding

    The [Simulation] class of [simulator/sir.py] is embedded as functions
    over a record.  The numpy array [self.state] of shape [(width, height)]
    is a list of [width] rows of [height] status codes; indexing follows
    numpy (negative indices wrap once, anything else out of range raises
    [IndexError]).  Python exceptions are the [Raise] results.

    Randomness.  [numpy.random.random] and [numpy.random.randint] read one
    global generator.  The generator is a stream of draws addressed by a
    cursor: the [n]-th draw is [uniform n] when it is consumed by
    [random()] and [integer n mod k] when it is consumed by [randint(k)].
    Methods that draw thread the cursor.

    Floats.  The probabilities and the draws are Python floats, given here
    by their rational values; [>] between two of them is exact.  The
    results of float arithmetic, the product [num * infection_probability]
    and the quotients of [get_percentage_status], are IEEE 754 binary64
    numbers: [spec_float] of the standard library, rounded to nearest,
    ties to even.

    Limits.  [np.zeros] validates the shape before it allocates, and that
    validation is part of the embedding; running out of memory is not. *)

From Stdlib Require Import String Bool ZArith QArith List Lia DecimalString.
From Stdlib Require Import SpecFloat.
Import ListNotations.
Open Scope Z_scope.

(** ** Exceptions and results *)

Inductive exception : Type :=
| IndexError
| ValueError
| ZeroDivisionError.

Inductive result (A : Type) : Type :=
| Ok (a : A)
| Raise (e : exception).

Arguments Ok {A} a.
Arguments Raise {A} e.

Definition bindR {A B : Type} (r : result A) (k : A -> result B) : result B :=
  match r with
  | Ok a => k a
  | Raise e => Raise e
  end.

(** Computations that draw from the generator: the cursor goes in and, when
    no exception is raised, comes out. *)
Definition M (A : Type) : Type := nat -> result (A * nat).

Definition ret {A : Type} (a : A) : M A := fun c => Ok (a, c).

Definition bind {A B : Type} (m : M A) (k : A -> M B) : M B :=
  fun c =>
    match m c with
    | Ok (a, c') => k a c'
    | Raise e => Raise e
    end.

Definition lift {A : Type} (r : result A) : M A :=
  fun c =>
    match r with
    | Ok a => Ok (a, c)
    | Raise e => Raise e
    end.

Declare Scope py_scope.
Delimit Scope py_scope with py.
Notation "x <- m ;; k" := (bind m (fun x => k))
  (at level 61, m at next level, right associativity) : py_scope.
Notation "x <-- r ;; k" := (bindR r (fun x => k))
  (at level 61, r at next level, right associativity) : py_scope.
Open Scope py_scope.

(** ** Python [range] and [for] *)

Definition range (a b : Z) : list Z :=
  map (fun k => a + Z.of_nat k) (seq 0 (Z.to_nat (b - a))).

(** [for x in xs: acc = body(x, acc)] without draws. *)
Fixpoint forR {A S : Type} (xs : list A) (body : A -> S -> result S) (acc : S)
  : result S :=
  match xs with
  | [] => Ok acc
  | x :: xs' => acc' <-- body x acc ;; forR xs' body acc'
  end.

(** The same loop when the body draws. *)
Fixpoint for_each {A S : Type} (xs : list A) (body : A -> S -> M S) (acc : S)
  : M S :=
  match xs with
  | [] => ret acc
  | x :: xs' => acc' <- body x acc ;; for_each xs' body acc'
  end.

(** ** The numpy array *)

Definition grid : Type := list (list Z).

(** numpy's index normalisation along an axis of length [n]. *)
Definition index (n : nat) (i : Z) : option nat :=
  if (0 <=? i) && (i <? Z.of_nat n) then Some (Z.to_nat i)
  else if (- Z.of_nat n <=? i) && (i <? 0) then Some (Z.to_nat (i + Z.of_nat n))
  else None.

Fixpoint list_set {A : Type} (l : list A) (n : nat) (x : A) : list A :=
  match l, n with
  | [], _ => []
  | _ :: t, O => x :: t
  | h :: t, S n' => h :: list_set t n' x
  end.

(** [state[i, j]] *)
Definition getitem (g : grid) (i j : Z) : result Z :=
  match index (length g) i with
  | None => Raise IndexError
  | Some a =>
      match nth_error g a with
      | None => Raise IndexError
      | Some row =>
          match index (length row) j with
          | None => Raise IndexError
          | Some b =>
              match nth_error row b with
              | None => Raise IndexError
              | Some v => Ok v
              end
          end
      end
  end.

(** [state[i, j] = v] *)
Definition setitem (g : grid) (i j : Z) (v : Z) : result grid :=
  match index (length g) i with
  | None => Raise IndexError
  | Some a =>
      match nth_error g a with
      | None => Raise IndexError
      | Some row =>
          match index (length row) j with
          | None => Raise IndexError
          | Some b => Ok (list_set g a (list_set row b v))
          end
      end
  end.

(** The largest array size in bytes, the largest value of numpy's [intp]
    on a 64-bit platform. *)
Definition NPY_MAX_INTP : Z := 2 ^ 63 - 1.

(** The size of an [int] element in bytes. *)
Definition itemsize : Z := 8.

(** The size check that numpy makes on a shape before it allocates: the
    element size is multiplied by the dimensions in turn, a dimension 0
    being skipped, and [ValueError] is raised when the product passes
    [NPY_MAX_INTP]. *)
Definition array_nbytes (shape : list Z) : Z :=
  fold_left (fun nbytes dim => if dim =? 0 then nbytes else nbytes * dim)
            shape itemsize.

Definition array_too_big (shape : list Z) : bool :=
  NPY_MAX_INTP <? array_nbytes shape.

(** [np.zeros((width, height), int)]: [ValueError] on a negative dimension
    and on a shape that fails the size check. *)
Definition np_zeros (width height : Z) : result grid :=
  if (width <? 0) || (height <? 0) || array_too_big [width; height]
  then Raise ValueError
  else Ok (repeat (repeat 0 (Z.to_nat height)) (Z.to_nat width)).

(** [state[:, :] = v] *)
Definition fill (g : grid) (v : Z) : grid := map (map (fun _ => v)) g.

(** [np.count_nonzero(simgrid == statusnum)] *)
Definition eq_mask (g : grid) (statusnum : Z) : list (list bool) :=
  map (map (fun c => c =? statusnum)) g.

Definition count_nonzero (mask : list (list bool)) : Z :=
  fold_left (fun n row => n + Z.of_nat (length (filter (fun b => b) row))) mask 0.

(** ** Comparison of rationals: [a > b] in the source is [Qltb b a] *)

Definition Qltb (a b : Q) : bool := negb (Qle_bool b a).

(** ** Python floats *)

(** A binary64 number: 53 bits of precision, exponents below 1024. *)
Definition float : Type := spec_float.

Definition prec : Z := 53.
Definition emax : Z := 1024.

(** An integer operand of a float operation, before any rounding. *)
Definition float_of_int (n : Z) : float :=
  match n with
  | Z0 => S754_zero false
  | Zpos m => S754_finite false m 0
  | Zneg m => S754_finite true m 0
  end.

(** The quotient of two integers as a float: the binary64 number nearest
    to the exact quotient, ties to even; IEEE 754 gives an infinity for a
    non-zero integer over 0 and a NaN for 0 over 0. *)
Definition true_divide (a b : Z) : float :=
  SFdiv prec emax (float_of_int a) (float_of_int b).

(** The float nearest to a rational. *)
Definition float_of_Q (q : Q) : float :=
  true_divide (Qnum q) (Zpos (Qden q)).

(** [num * p] for an integer [num] and a float [p]: IEEE 754
    multiplication returns the float nearest to the exact product. *)
Definition float_mul (num : Z) (p : Q) : float :=
  float_of_Q (inject_Z num * p).

(** The rational value of a finite float. *)
Definition float_value (s : bool) (m : positive) (e : Z) : Q :=
  (inject_Z (cond_Zopp s (Zpos m)) * 2 ^ e)%Q.

(** [x > r] for a float [x] and a finite float of value [r]; a NaN
    compares false. *)
Definition float_gtb (x : float) (r : Q) : bool :=
  match x with
  | S754_nan => false
  | S754_infinity s => negb s
  | S754_zero _ => Qltb r 0
  | S754_finite s m e => Qltb r (float_value s m e)
  end.

(** [x + y] on floats, the sum that Python computes for two of the
    values returned. *)
Definition float_add (x y : float) : float := SFadd prec emax x y.

(** [r <= x], as used in the statements. *)
Definition float_geb (x : float) (r : Q) : bool :=
  match x with
  | S754_nan => false
  | S754_infinity s => negb s
  | S754_zero _ => Qle_bool r 0
  | S754_finite s m e => Qle_bool r (float_value s m e)
  end.

(** What [np.count_nonzero] returns depends on the release of numpy, which
    the repository does not pin: a Python [int] in older releases, a numpy
    integer scalar in newer ones.  Division by an integer 0 raises
    [ZeroDivisionError] on a Python [int]; on a numpy scalar it follows
    IEEE 754, with a warning and no exception. *)
Class Numpy : Type := { count_nonzero_returns_int : bool }.

Definition numpy_int : Numpy := {| count_nonzero_returns_int := true |}.
Definition numpy_scalar : Numpy := {| count_nonzero_returns_int := false |}.

(** [a / total] where [a] is [100 * count] and [total] a Python [int].
    Two Python [int]s divide to the float nearest to their quotient; a
    numpy scalar and an [int] are converted to floats first, which changes
    nothing below [2 ^ 53], the sizes that the statements on the values
    assume. *)
Definition divide {numpy : Numpy} (a total : Z) : result float :=
  if count_nonzero_returns_int && (total =? 0) then Raise ZeroDivisionError
  else Ok (true_divide a total).

(** ** The class *)

Definition SUSCEPTIBLE : Z := 0.
Definition INFECTED : Z := 1.
Definition RECOVERED : Z := 2.
Definition DEAD : Z := 3.

Definition STATUSES : list (string * Z) :=
  [ ("susceptible"%string, SUSCEPTIBLE);
    ("infected"%string, INFECTED);
    ("recovered"%string, RECOVERED);
    ("dead"%string, DEAD) ].

Record Simulation : Type := mkSimulation {
  day : Z;
  width : Z;
  height : Z;
  recovery_probability : Q;
  infection_probability : Q;
  death_probability : Q;
  state : grid
}.

Definition set_state (self : Simulation) (st : grid) : Simulation :=
  mkSimulation (day self) (width self) (height self)
    (recovery_probability self) (infection_probability self)
    (death_probability self) st.

Definition set_day (self : Simulation) (d : Z) : Simulation :=
  mkSimulation d (width self) (height self)
    (recovery_probability self) (infection_probability self)
    (death_probability self) (state self).

(** [Simulation.__init__] *)
Definition init (width height : Z) (recovery infection death : Q)
  : result Simulation :=
  zeros <-- np_zeros width height ;;
  Ok (mkSimulation 0 width height recovery infection death
        (fill zeros SUSCEPTIBLE)).

(** [Simulation.num_infected_around] *)
Definition num_infected_around (self : Simulation) (state : grid) (i j : Z)
  : result Z :=
  let ivals := range (Z.max (i - 1) 0) (Z.min (i + 2) (width self)) in
  let jvals := range (Z.max (j - 1) 0) (Z.min (j + 2) (height self)) in
  forR ivals (fun ip number =>
    forR jvals (fun jp number =>
      if negb ((ip =? i) && (jp =? j)) then
        st <-- getitem state ip jp ;;
        if st =? INFECTED then Ok (number + 1) else Ok number
      else Ok number) number) 0.

(** [Simulation.get_percentage_status]; the method assigns nothing to
    [self], which is returned as it was received. *)
Definition get_percentage_status {numpy : Numpy} (self : Simulation)
  : result (list (string * float) * Simulation) :=
  let simgrid := state self in
  let total := width self * height self in
  percentages <--
    forR STATUSES (fun '(status, statusnum) percentages =>
      let count := count_nonzero (eq_mask simgrid statusnum) in
      percent <-- divide (100 * count) total ;;
      Ok (percentages ++ [(status, percent)]))
      [] ;;
  Ok (percentages, self).

(** ** The colour view *)

(** Exceptions of the views: the built-in exceptions that the engine
    raises as well, and [KeyError] of a dictionary lookup. *)
Inductive view_exception : Type :=
| EngineError (e : exception)
| KeyError.

(** What a view computes: a value, an exception, or no answer yet when the
    iteration budget of a [while] loop is spent. *)
Inductive outcome (A : Type) : Type :=
| Returns (a : A)
| Throws (e : view_exception)
| OutOfFuel.

Arguments Returns {A} a.
Arguments Throws {A} e.
Arguments OutOfFuel {A}.

Definition bindO {A B : Type} (o : outcome A) (k : A -> outcome B) : outcome B :=
  match o with
  | Returns a => k a
  | Throws e => Throws e
  | OutOfFuel => OutOfFuel
  end.

Definition of_result {A : Type} (r : result A) : outcome A :=
  match r with
  | Ok a => Returns a
  | Raise e => Throws (EngineError e)
  end.

Notation "x <~ o ;; k" := (bindO o (fun x => k))
  (at level 61, o at next level, right associativity) : py_scope.
Notation "' p <~ o ;; k" := (bindO o (fun x => match x with p => k end))
  (at level 61, p pattern, o at next level, right associativity) : py_scope.

(** [for x in xs: acc = body(x, acc)] in a view. *)
Fixpoint forO {A S : Type} (xs : list A) (body : A -> S -> outcome S) (acc : S)
  : outcome S :=
  match xs with
  | [] => Returns acc
  | x :: xs' => acc' <~ body x acc ;; forO xs' body acc'
  end.

(** [d[key]] on a dictionary with string keys, kept in insertion order. *)
Fixpoint dict_get {V : Type} (d : list (string * V)) (key : string) : outcome V :=
  match d with
  | [] => Throws KeyError
  | (k, v) :: d' => if String.eqb k key then Returns v else dict_get d' key
  end.

Definition colour : Type := (Z * Z * Z)%type.

Definition COLOURMAP : list (string * string) :=
  [ ("susceptible"%string, "green"%string);
    ("infected"%string, "red"%string);
    ("recovered"%string, "blue"%string);
    ("dead"%string, "black"%string) ].

Definition COLOURMAP_RGB : list (string * colour) :=
  [ ("red"%string, (255, 0, 0));
    ("green"%string, (0, 255, 0));
    ("blue"%string, (0, 0, 255));
    ("black"%string, (0, 0, 0)) ].

(** An array of shape [(width, height, 3)]: rows of cells, a cell being its
    three channels. *)
Definition rgb_array : Type := list (list colour).

(** [np.zeros((width, height, 3), int)] *)
Definition np_zeros3 (width height : Z) : result rgb_array :=
  if (width <? 0) || (height <? 0) || array_too_big [width; height; 3]
  then Raise ValueError
  else Ok (repeat (repeat (0, 0, 0) (Z.to_nat height)) (Z.to_nat width)).

(** [a[mask] = c] for a boolean [mask] over the first two axes: numpy
    raises [IndexError] when the mask has not the shape of those axes.  (An
    array without rows carries no row length here, so two such arrays
    always agree; on engine states of the recorded shape the shapes are
    equal anyway.) *)
Fixpoint mask_assign_row (row : list colour) (mask : list bool) (c : colour)
  : result (list colour) :=
  match row, mask with
  | [], [] => Ok []
  | x :: row', b :: mask' =>
      rest <-- mask_assign_row row' mask' c ;;
      Ok ((if b then c else x) :: rest)
  | _, _ => Raise IndexError
  end.

Fixpoint mask_assign (a : rgb_array) (mask : list (list bool)) (c : colour)
  : result rgb_array :=
  match a, mask with
  | [], [] => Ok []
  | row :: a', m :: mask' =>
      row' <-- mask_assign_row row m c ;;
      rest <-- mask_assign a' mask' c ;;
      Ok (row' :: rest)
  | _, _ => Raise IndexError
  end.

(** [Simulation.get_rgb_matrix] *)
Definition get_rgb_matrix (self : Simulation) : outcome rgb_array :=
  rgb_matrix <~ of_result (np_zeros3 (width self) (height self)) ;;
  forO STATUSES (fun '(status, statusnum) rgb_matrix =>
    colour_name <~ dict_get COLOURMAP status ;;
    colour_rgb <~ dict_get COLOURMAP_RGB colour_name ;;
    of_result (mask_assign rgb_matrix (eq_mask (state self) statusnum) colour_rgb))
    rgb_matrix.

(** The status-to-colour table: green, red, blue and black for the four
    statuses; a cell of the zero array that no mask selects stays
    [(0, 0, 0)]. *)
Definition status_colour (v : Z) : colour :=
  if v =? SUSCEPTIBLE then (0, 255, 0)
  else if v =? INFECTED then (255, 0, 0)
  else if v =? RECOVERED then (0, 0, 255)
  else (0, 0, 0).

(** ** Scenarios *)

(** A 1x3 grid holding [Infected, Susceptible, Susceptible], with recovery
    and infection probabilities 1. *)
Definition line3 (death : Q) : Simulation :=
  mkSimulation 0 1 3 1 1 death [[INFECTED; SUSCEPTIBLE; SUSCEPTIBLE]].

(** A 2x2 grid whose only infected cell is [(0, 0)]. *)
Definition corner2x2 (recovery infection death : Q) : Simulation :=
  mkSimulation 0 2 2 recovery infection death
    [[INFECTED; SUSCEPTIBLE]; [SUSCEPTIBLE; SUSCEPTIBLE]].

(** A 1x2 grid of terminal cells. *)
Definition graveyard : Simulation :=
  mkSimulation 4 1 2 (1 # 10) (1 # 5) (1 # 20) [[DEAD; RECOVERED]].

(** A single infected cell. *)
Definition patient : Simulation :=
  mkSimulation 0 1 1 (1 # 10) (1 # 5) (1 # 20) [[INFECTED]].

(** A freshly constructed 2x1 grid. *)
Definition fresh2x1 : Simulation :=
  mkSimulation 0 2 1 (1 # 10) (1 # 5) (1 # 20) [[SUSCEPTIBLE]; [SUSCEPTIBLE]].

(** A 1x6 grid, with recovery probability 1/2, infection probability 0 and
    death probability 1: fresh, after five cells have been seeded, and
    after one day in which four of them recovered and one died. *)
Definition fresh1x6 : Simulation :=
  mkSimulation 0 1 6 (1 # 2) 0 1
    [[SUSCEPTIBLE; SUSCEPTIBLE; SUSCEPTIBLE; SUSCEPTIBLE; SUSCEPTIBLE;
      SUSCEPTIBLE]].

Definition seeded1x6 : Simulation :=
  mkSimulation 0 1 6 (1 # 2) 0 1
    [[INFECTED; INFECTED; INFECTED; INFECTED; INFECTED; SUSCEPTIBLE]].

Definition settled1x6 : Simulation :=
  mkSimulation 1 1 6 (1 # 2) 0 1
    [[RECOVERED; RECOVERED; RECOVERED; RECOVERED; DEAD; SUSCEPTIBLE]].

(** Draws that lead from [fresh1x6] to [settled1x6]: the seeding draws
    select the columns 0 to 4 in turn; the first four draws of the day are
    0 and the later ones 3/4. *)
Definition seeding_draws : nat -> Z := fun n => Z.of_nat (n / 2).

Definition settling_draws : nat -> Q :=
  fun n => if (n <? 14)%nat then 0%Q else 3 # 4.

(** A Susceptible cell with five Infected neighbours on a 2x3 grid; the
    infection probability is the float 0.1, that is 3602879701896397 / 2^55,
    and nobody recovers or dies. *)
Definition crowded : Simulation :=
  mkSimulation 0 2 3 0 (3602879701896397 # 36028797018963968) 0
    [[INFECTED; SUSCEPTIBLE; INFECTED]; [INFECTED; INFECTED; INFECTED]].

(** Generators whose draws are all equal. *)
Definition always_Q (q : Q) : nat -> Q := fun _ => q.
Definition always_Z (z : Z) : nat -> Z := fun _ => z.

(** A well-formed engine whose grid has no cells. *)
Definition empty_engine : Simulation :=
  mkSimulation 0 0 5 (1 # 10) (1 # 5) (1 # 20) [].

(** ** Predicates used in the statements *)

(** An array of shape [(w, h)]. *)
Definition shaped (w h : Z) (g : grid) : Prop :=
  length g = Z.to_nat w /\ Forall (fun row => length row = Z.to_nat h) g.

Definition status_ok (v : Z) : Prop :=
  v = SUSCEPTIBLE \/ v = INFECTED \/ v = RECOVERED \/ v = DEAD.

(** The array has the shape recorded in [width] and [height] and holds
    status codes only. *)
Definition valid (self : Simulation) : Prop :=
  shaped (width self) (height self) (state self) /\
  Forall (Forall status_ok) (state self).

(** The test made by the inner loop body of [num_infected_around] on the
    coordinate [(ip, jp)]. *)
Definition infected_neighbour (state : grid) (i j : Z) (p : Z * Z) : bool :=
  negb ((fst p =? i) && (snd p =? j)) &&
  match getitem state (fst p) (snd p) with
  | Ok st => st =? INFECTED
  | Raise _ => false
  end.

(** The number of cells of the array that hold status [v]. *)
Definition cells_with (g : grid) (v : Z) : Z :=
  Z.of_nat (length (filter (fun c => c =? v) (concat g))).

Section Generator.

(** The draws of the global generator. *)
Variable uniform : nat -> Q.
Variable integer : nat -> Z.

(** [numpy.random.random()] *)
Definition random : M Q := fun c => Ok (uniform c, S c).

(** [numpy.random.randint(n)] *)
Definition randint (n : Z) : M Z :=
  fun c => if n <=? 0 then Raise ValueError else Ok (integer c mod n, S c).

(** The body of the loop of [Simulation.infect_randomly]. *)
Definition infect_body (_ : Z) (self : Simulation) : M Simulation :=
  i <- randint (width self) ;;
  j <- randint (height self) ;;
  st <- lift (setitem (state self) i j INFECTED) ;;
  ret (set_state self st).

(** [Simulation.infect_randomly] *)
Definition infect_randomly (self : Simulation) (num : Z) : M Simulation :=
  for_each (range 0 num) infect_body self.

(** [Simulation.get_new_status] *)
Definition get_new_status (self : Simulation) (state : grid) (i j : Z) : M Z :=
  status <- lift (getitem state i j) ;;
  if status =? INFECTED then
    r1 <- random ;;
    if Qltb r1 (recovery_probability self) then ret RECOVERED
    else
      r2 <- random ;;
      if Qltb r2 (death_probability self) then ret DEAD
      else ret status
  else if status =? SUSCEPTIBLE then
    num <- lift (num_infected_around self state i j) ;;
    r <- random ;;
    if float_gtb (float_mul num (infection_probability self)) r then ret INFECTED
    else ret status
  else ret status.

(** [Simulation.update].  [old_state.copy()] is a fresh array: writes to
    [new_state] never reach [old_state], which is what a value gives here. *)
Definition update (self : Simulation) : M Simulation :=
  let old_state := state self in
  let new_state := old_state in
  new_state <-
    for_each (range 0 (width self)) (fun i new_state =>
      for_each (range 0 (height self)) (fun j new_state =>
        v <- get_new_status self old_state i j ;;
        lift (setitem new_state i j v)) new_state) new_state ;;
  ret (set_day (set_state self new_state) (day self + 1)).

(** [k] successive calls of [update()]. *)
Fixpoint run_updates (k : nat) (self : Simulation) : M Simulation :=
  match k with
  | O => ret self
  | S k' => self' <- update self ;; run_updates k' self'
  end.

(** The coordinates drawn by iteration [k] of [infect_randomly] on a
    [w] x [h] grid when the call starts at position [c] of the stream. *)
Definition selected (w h : Z) (c k : nat) : Z * Z :=
  (integer (c + 2 * k)%nat mod w, integer (S (c + 2 * k)) mod h).

(** Engine states that the public methods can produce. *)
Inductive reachable : Simulation -> Prop :=
| reach_init w h r i d s :
    init w h r i d = Ok s -> reachable s
| reach_infect s num c s' c' :
    reachable s -> infect_randomly s num c = Ok (s', c') -> reachable s'
| reach_update s c s' c' :
    reachable s -> update s c = Ok (s', c') -> reachable s'.

(** What [update] leaves in a cell: the value of the per-cell rule applied
    to the array [old], at some position [ci] of the stream of draws. *)
Definition computed_from (self : Simulation) (old : grid) (c0 : nat)
           (ns : grid) (a b : Z) : Prop :=
  exists ci v ci',
    (c0 <= ci)%nat /\
    get_new_status self old a b ci = Ok (v, ci') /\
    getitem ns a b = Ok v.

End Generator.

(** ** The views that draw: computations with draws, exceptions of the
    views and an iteration budget *)

Definition V (A : Type) : Type := nat -> outcome (A * nat).

Definition retV {A : Type} (a : A) : V A := fun c => Returns (a, c).

Definition bindV {A B : Type} (m : V A) (k : A -> V B) : V B :=
  fun c =>
    match m c with
    | Returns (a, c') => k a c'
    | Throws e => Throws e
    | OutOfFuel => OutOfFuel
    end.

(** A method of the engine called from a view. *)
Definition call {A : Type} (m : M A) : V A :=
  fun c =>
    match m c with
    | Ok (a, c') => Returns (a, c')
    | Raise e => Throws (EngineError e)
    end.

(** A computation without draws inside a view. *)
Definition pure {A : Type} (o : outcome A) : V A :=
  fun c =>
    match o with
    | Returns a => Returns (a, c)
    | Throws e => Throws e
    | OutOfFuel => OutOfFuel
    end.

Notation "x <<- m ;; k" := (bindV m (fun x => k))
  (at level 61, m at next level, right associativity) : py_scope.
Notation "' p <<- m ;; k" := (bindV m (fun x => match x with p => k end))
  (at level 61, p pattern, m at next level, right associativity) : py_scope.

Fixpoint forV {A S : Type} (xs : list A) (body : A -> S -> V S) (acc : S) : V S :=
  match xs with
  | [] => retV acc
  | x :: xs' => acc' <<- body x acc ;; forV xs' body acc'
  end.

(** [d[key] = v]: an existing key keeps its place, a new one goes last. *)
Fixpoint dict_set {V : Type} (d : list (string * V)) (key : string) (v : V)
  : list (string * V) :=
  match d with
  | [] => [(key, v)]
  | (k, old) :: d' =>
      if String.eqb k key then (k, v) :: d' else (k, old) :: dict_set d' key v
  end.

(** [str(n)] for an integer. *)
Definition py_str (n : Z) : string := NilZero.string_of_int (Z.to_int n).

(** ** simulator/plot.py *)

(** [ax.imshow(X)] and [image.set_array(X)] of matplotlib: the image
    artist keeps the array.  Both look for the smallest and the largest
    value of the data, which raises [ValueError] on an array without
    elements. *)
Definition imshow (X : rgb_array) : outcome rgb_array :=
  match concat X with
  | [] => Throws (EngineError ValueError)
  | _ :: _ => Returns X
  end.

Definition set_array (X : rgb_array) : outcome rgb_array := imshow X.

(** What [plot_simulation] draws on one subplot: the array given to
    [imshow] and the title.  Ticks and spacing leave no trace here. *)
Record panel : Type := mkPanel {
  panel_axes : Z;
  panel_image : rgb_array;
  panel_title : string
}.

(** The days at which [plot_simulation] takes its snapshots. *)
Definition plot_days (duration : Z) : list Z :=
  let W := 5 in
  let H := 3 in
  let N := W * H in
  map (fun i => (duration * i) / (N - 1)) (range 0 N).

(** The subplots of [fig.subplots(nrows=H, ncols=W).flat], by position. *)
Definition plot_axes : list Z :=
  let W := 5 in
  let H := 3 in
  range 0 (H * W).

(** ** simulator/animation.py *)

(** matplotlib is outside the repository.  An artist is the data last
    handed to it; calls that only set labels, ticks, limits or legends
    leave no trace; [FuncAnimation], which calls [Animation.init] and
    [Animation.update], is not modelled.  [Animation], [GridAnimation] and
    [LineAnimation] refer to one and the same [Simulation] object: it is the
    [simulation] field of [Animation], and the methods of the other two
    receive it as an argument. *)

(** A [Line2D] artist: its colour, its label and the data last given to
    [set_data]. *)
Record line2d : Type := mkLine {
  line_color : string;
  line_label : string;
  line_x : list Z;
  line_y : list float
}.

Definition set_data (l : line2d) (xs : list Z) (ys : list float) : line2d :=
  mkLine (line_color l) (line_label l) xs ys.

(** The artists that the animation hands back to matplotlib. *)
Inductive artist : Type :=
| ImageArtist (a : rgb_array)
| LineArtist (l : line2d).

(** [GridAnimation]: the image artist holds the array last given to
    [imshow] or [set_array].  The simulation it refers to is the object
    shared with [Animation] and [LineAnimation]; the methods receive it. *)
Record GridAnimation : Type := mkGridAnimation {
  image : rgb_array
}.

Record LineAnimation : Type := mkLineAnimation {
  line_duration : Z;
  xdata : list Z;
  ydata : list (string * list float);
  line_mpl : list (string * line2d)
}.

Record Animation : Type := mkAnimation {
  simulation : Simulation;
  duration : Z;
  gridanimation : GridAnimation;
  lineanimation : LineAnimation
}.

(** [GridAnimation.__init__] *)
Definition GridAnimation_init (simulation : Simulation) : outcome GridAnimation :=
  rgb_matrix <~ get_rgb_matrix simulation ;;
  image <~ imshow rgb_matrix ;;
  Returns (mkGridAnimation image).

(** [GridAnimation.update] *)
Definition GridAnimation_update (self : GridAnimation) (simulation : Simulation)
           (framenum : Z) : outcome (list artist * GridAnimation) :=
  rgb_matrix <~ get_rgb_matrix simulation ;;
  image <~ set_array rgb_matrix ;;
  Returns ([ImageArtist image], mkGridAnimation image).

(** [GridAnimation.init] *)
Definition GridAnimation_start (self : GridAnimation) (simulation : Simulation)
  : outcome (list artist * GridAnimation) :=
  GridAnimation_update self simulation 0.

(** [LineAnimation.__init__] *)
Definition LineAnimation_init (duration : Z) : LineAnimation :=
  mkLineAnimation duration []
    (map (fun '(status, _) => (status, @nil float)) STATUSES)
    (fold_left (fun line_mpl '(status, colour) =>
                  dict_set line_mpl status (mkLine colour status [] []))
               COLOURMAP []).

(** [LineAnimation.init] *)
Definition LineAnimation_start (self : LineAnimation)
  : list artist * LineAnimation := ([], self).

(** [LineAnimation.update] *)
Definition LineAnimation_update {numpy : Numpy} (self : LineAnimation)
           (simulation : Simulation) (framenum : Z)
  : outcome (list artist * LineAnimation) :=
  '(percents, _) <~ of_result (get_percentage_status simulation) ;;
  let xdata' := xdata self ++ [Z.of_nat (length (xdata self))] in
  '(ydata', line_mpl') <~
    forO percents (fun '(status, percent) '(ydata, line_mpl) =>
      ys <~ dict_get ydata status ;;
      let ys' := ys ++ [percent] in
      let ydata := dict_set ydata status ys' in
      line <~ dict_get line_mpl status ;;
      Returns (ydata, dict_set line_mpl status (set_data line xdata' ys')))
      (ydata self, line_mpl self) ;;
  Returns (map (fun kv => LineArtist (snd kv)) line_mpl',
           mkLineAnimation (line_duration self) xdata' ydata' line_mpl').

Section Views.

Context {numpy : Numpy}.
Variable uniform : nat -> Q.

(** [while simulation.day < day: simulation.update()], with at most [fuel]
    iterations. *)
Fixpoint advance (fuel : nat) (simulation : Simulation) (day_ : Z) : V Simulation :=
  if day simulation <? day_ then
    match fuel with
    | O => fun _ => OutOfFuel
    | S fuel' =>
        simulation <<- call (update uniform simulation) ;;
        advance fuel' simulation day_
    end
  else retV simulation.

(** The body of the loop of [plot_simulation]. *)
Definition plot_panel (fuel : nat) (ax_day : Z * Z)
           (acc : list panel * Simulation) : V (list panel * Simulation) :=
  let '(ax, day_) := ax_day in
  let '(fig, simulation) := acc in
  simulation <<- advance fuel simulation day_ ;;
  rgb_matrix <<- pure (get_rgb_matrix simulation) ;;
  image <<- pure (imshow rgb_matrix) ;;
  retV (fig ++ [mkPanel ax image ("Day " ++ py_str day_)], simulation).

(** [plot_simulation]: the figure, as the list of its panels, and the
    simulation, which the function advances in place.  Each [while] loop
    may use [fuel] iterations. *)
Definition plot_simulation (fuel : nat) (simulation : Simulation) (duration : Z)
  : V (list panel * Simulation) :=
  let days := plot_days duration in
  forV (combine plot_axes days) (plot_panel fuel) ([], simulation).

(** [Animation.__init__] *)
Definition Animation_init (simulation : Simulation) (duration : Z)
  : outcome Animation :=
  gridanimation <~ GridAnimation_init simulation ;;
  Returns (mkAnimation simulation duration gridanimation
             (LineAnimation_init duration)).

(** [Animation.init] *)
Definition Animation_start (self : Animation) : outcome (list artist * Animation) :=
  '(actors1, grid) <~ GridAnimation_start (gridanimation self) (simulation self) ;;
  let '(actors2, line) := LineAnimation_start (lineanimation self) in
  Returns (actors1 ++ actors2,
           mkAnimation (simulation self) (duration self) grid line).

(** [Animation.update] *)
Definition Animation_update (self : Animation) (framenumber : Z)
  : V (list artist * Animation) :=
  simulation <<- call (update uniform (simulation self)) ;;
  '(actors1, grid) <<-
    pure (GridAnimation_update (gridanimation self) simulation framenumber) ;;
  '(actors2, line) <<-
    pure (LineAnimation_update (lineanimation self) simulation framenumber) ;;
  retV (actors1 ++ actors2, mkAnimation simulation (duration self) grid line).

(** Successive calls of [Animation.update], one per frame number. *)
Definition run_frames (frames : list Z) (self : Animation) : V Animation :=
  forV frames (fun framenumber self =>
    '(_, self) <<- Animation_update self framenumber ;; retV self) self.

End Views.

(** ** The drivers: runsim.py and figure1.py *)

Section Drivers.

Variable uniform : nat -> Q.
Variable integer : nat -> Z.

(** The engine set-up shared by [runsim.main] and [figure1.main]:
    [simulation = Simulation(width, height, recovery, infection, death)]
    followed by [simulation.infect_randomly(cases)].  [runsim.main] passes
    its [--size] for both width and height. *)
Definition seed_engine (width height : Z) (recovery infection death : Q)
           (cases : Z) : M Simulation :=
  simulation <- lift (init width height recovery infection death) ;;
  infect_randomly integer simulation cases.

(** The set-up followed by [fig = plot_simulation(simulation, duration)]:
    the [--plot] branch of [runsim.main] and the body of [figure1.main], up
    to the figure that they show or save. *)
Definition seed_and_plot (fuel : nat) (width height : Z)
           (recovery infection death : Q) (cases duration : Z)
  : V (list panel * Simulation) :=
  simulation <<- call (seed_engine width height recovery infection death cases) ;;
  plot_simulation uniform fuel simulation duration.

End Drivers.

(** ** Predicates on the views *)

(** The percentage of the cells of [s] that hold status [v], as an exact
    rational and as the float nearest to it. *)
Definition exact_percent (v : Z) (s : Simulation) : Q :=
  (inject_Z (100 * cells_with (state s) v) / inject_Z (width s * height s))%Q.

Definition percent_of (v : Z) (s : Simulation) : float :=
  true_divide (100 * cells_with (state s) v) (width s * height s).

(** The line plot holds the four series [ys], [yi], [yr], [yd], and each
    line artist shows its series against [xdata]. *)
Definition series_of (la : LineAnimation) (ys yi yr yd : list float) : Prop :=
  ydata la =
    [ ("susceptible"%string, ys); ("infected"%string, yi);
      ("recovered"%string, yr); ("dead"%string, yd) ] /\
  line_mpl la =
    [ ("susceptible"%string,
       mkLine "green"%string "susceptible"%string (xdata la) ys);
      ("infected"%string, mkLine "red"%string "infected"%string (xdata la) yi);
      ("recovered"%string,
       mkLine "blue"%string "recovered"%string (xdata la) yr);
      ("dead"%string, mkLine "black"%string "dead"%string (xdata la) yd) ].

(** * Properties *)

(** ** The embedding on small inputs *)

Example range_1_4 : range 1 4 = [1; 2; 3].
Proof. reflexivity. Qed.

Example range_backwards : range 3 1 = [].
Proof. reflexivity. Qed.

Example index_wraps_once :
  index 3 (-1) = Some 2%nat /\ index 3 (-3) = Some 0%nat /\
  index 3 3 = None /\ index 3 (-4) = None.
Proof. repeat split. Qed.

Example getitem_out_of_range :
  getitem [[INFECTED; DEAD]] 0 2 = Raise IndexError /\
  getitem [[INFECTED; DEAD]] 0 1 = Ok DEAD.
Proof. split; reflexivity. Qed.

Example update_corner2x2 :
  update (always_Q 0) (corner2x2 (1 # 10) (1 # 5) (1 # 20)) 0%nat =
  Ok (mkSimulation 1 2 2 (1 # 10) (1 # 5) (1 # 20)
        [[RECOVERED; INFECTED]; [INFECTED; INFECTED]], 4%nat).
Proof. reflexivity. Qed.

Example update_corner2x2_high_draws :
  update (always_Q (9 # 10)) (corner2x2 (1 # 10) (1 # 5) (1 # 20)) 0%nat =
  Ok (mkSimulation 1 2 2 (1 # 10) (1 # 5) (1 # 20)
        [[INFECTED; SUSCEPTIBLE]; [SUSCEPTIBLE; SUSCEPTIBLE]], 5%nat).
Proof. reflexivity. Qed.

Example infect_randomly_empty_grid :
  infect_randomly (always_Z 0) (mkSimulation 0 0 5 (1 # 10) (1 # 5) (1 # 20) []) 1 0%nat
  = Raise ValueError.
Proof. reflexivity. Qed.

Example get_percentage_status_empty_grid :
  get_percentage_status (numpy := numpy_int)
    (mkSimulation 0 0 5 (1 # 10) (1 # 5) (1 # 20) [])
  = Raise ZeroDivisionError.
Proof. reflexivity. Qed.

Example get_percentage_status_empty_grid_scalar :
  get_percentage_status (numpy := numpy_scalar)
    (mkSimulation 0 0 5 (1 # 10) (1 # 5) (1 # 20) [])
  = Ok ([ ("susceptible"%string, S754_nan); ("infected"%string, S754_nan);
          ("recovered"%string, S754_nan); ("dead"%string, S754_nan) ],
        mkSimulation 0 0 5 (1 # 10) (1 # 5) (1 # 20) []).
Proof. reflexivity. Qed.

(** [300 / 7] is the float 42.857142857142854, that is 6031606643799771
    times 2 to the power -47. *)
Example true_divide_300_7 :
  true_divide 300 7 = S754_finite false 6031606643799771 (-47).
Proof. reflexivity. Qed.

(** The float 0.1 is 3602879701896397 / 2^55; five times it is the float
    0.5, although the exact product is above 1/2. *)
Example float_mul_5_tenth :
  float_mul 5 (3602879701896397 # 36028797018963968) =
  S754_finite false 4503599627370496 (-53) /\
  (float_value false 4503599627370496 (-53) == 1 # 2)%Q /\
  (1 # 2 < inject_Z 5 * (3602879701896397 # 36028797018963968))%Q.
Proof. split; [reflexivity|split; reflexivity]. Qed.

Example np_zeros_limits :
  np_zeros (2 ^ 63) 0 = Raise ValueError /\
  np_zeros (2 ^ 40) (2 ^ 40) = Raise ValueError /\
  np_zeros 0 5 = Ok [] /\
  np_zeros 2 (-1) = Raise ValueError.
Proof. repeat split. Qed.

(** ** Rational comparison *)

Lemma Qltb_lt (a b : Q) : Qltb a b = true <-> (a < b)%Q.
Proof.
  unfold Qltb. rewrite negb_true_iff.
  split; intros H.
  - apply Qnot_le_lt. intros Hle. apply Qle_bool_iff in Hle. congruence.
  - destruct (Qle_bool b a) eqn:E; [|reflexivity].
    apply Qle_bool_iff in E. exfalso. exact (Qlt_not_le _ _ H E).
Qed.

Lemma Qltb_ge (a b : Q) : Qltb a b = false <-> (b <= a)%Q.
Proof.
  unfold Qltb. rewrite negb_false_iff. apply Qle_bool_iff.
Qed.

(** ** Floats *)

Lemma float_mul_0 (p : Q) : float_mul 0 p = S754_zero false.
Proof. destruct p as [n d]. reflexivity. Qed.

Lemma float_gtb_zero (s : bool) (r : Q) :
  (0 <= r)%Q -> float_gtb (S754_zero s) r = false.
Proof. intros H. simpl. apply Qltb_ge. exact H. Qed.

(** A draw below a bound that the float reaches is below the float. *)
Lemma float_gtb_geb (x : float) (r r' : Q) :
  float_geb x r' = true -> (r < r')%Q -> float_gtb x r = true.
Proof.
  destruct x as [s|s| |s m e]; simpl; intros H Hlt;
    try exact H; try discriminate;
    apply Qltb_lt; apply Qle_bool_iff in H;
    exact (Qlt_le_trans _ _ _ Hlt H).
Qed.

Lemma float_mul_1_1 : float_geb (float_mul 1 1) 1 = true.
Proof. vm_compute. reflexivity. Qed.

(** ** Ranges *)

Lemma in_range (a b x : Z) : In x (range a b) <-> a <= x < b.
Proof.
  unfold range. rewrite in_map_iff. split.
  - intros [k [<- Hk]]. apply in_seq in Hk. lia.
  - intros H. exists (Z.to_nat (x - a)). split; [lia|].
    apply in_seq. lia.
Qed.

Lemma NoDup_range (a b : Z) : NoDup (range a b).
Proof.
  unfold range. generalize (seq_NoDup (Z.to_nat (b - a)) 0).
  generalize (seq 0 (Z.to_nat (b - a))) as l.
  induction l as [|k l IH]; intros Hnd; simpl; [constructor|].
  inversion Hnd as [|? ? Hk Hl]; subst. constructor; [|auto].
  rewrite in_map_iff. intros [k' [Heq Hin]].
  assert (k' = k) by lia. subst. contradiction.
Qed.

Lemma range_empty (a b : Z) : b <= a -> range a b = [].
Proof.
  intros H. unfold range. replace (Z.to_nat (b - a)) with O by lia. reflexivity.
Qed.

(** ** Lists updated by position *)

Lemma length_list_set {A : Type} (l : list A) (n : nat) (x : A) :
  length (list_set l n x) = length l.
Proof.
  revert n. induction l as [|h t IH]; intros [|n]; simpl; auto.
Qed.

Lemma nth_error_list_set_eq {A : Type} (l : list A) (n : nat) (x : A) :
  (n < length l)%nat -> nth_error (list_set l n x) n = Some x.
Proof.
  revert n. induction l as [|h t IH]; intros [|n] H; simpl in *; try lia; auto.
  apply IH. lia.
Qed.

Lemma nth_error_list_set_ne {A : Type} (l : list A) (n m : nat) (x : A) :
  n <> m -> nth_error (list_set l n x) m = nth_error l m.
Proof.
  revert n m. induction l as [|h t IH]; intros [|n] [|m] H; simpl; auto.
  congruence.
Qed.

Lemma Forall_list_set {A : Type} (P : A -> Prop) (l : list A) (n : nat) (x : A) :
  Forall P l -> P x -> Forall P (list_set l n x).
Proof.
  intros Hl Hx. revert n.
  induction Hl as [|h t Hh Ht IH]; intros [|n]; simpl; constructor; auto.
Qed.

(** ** Arrays of a given shape *)

Lemma index_inb (n : nat) (i : Z) :
  0 <= i < Z.of_nat n -> index n i = Some (Z.to_nat i).
Proof.
  intros H. unfold index.
  replace (0 <=? i) with true by (symmetry; apply Z.leb_le; lia).
  replace (i <? Z.of_nat n) with true by (symmetry; apply Z.ltb_lt; lia).
  reflexivity.
Qed.

Lemma shaped_row (w h : Z) (g : grid) (i : Z) :
  shaped w h g -> 0 <= i < w ->
  exists row, nth_error g (Z.to_nat i) = Some row /\ length row = Z.to_nat h.
Proof.
  intros [Hlen Hrows] Hi.
  destruct (nth_error g (Z.to_nat i)) as [row|] eqn:E.
  - exists row. split; [reflexivity|].
    rewrite Forall_forall in Hrows. apply Hrows. eapply nth_error_In; eauto.
  - apply nth_error_None in E. lia.
Qed.

Lemma getitem_inb (w h : Z) (g : grid) (i j : Z) :
  shaped w h g -> 0 <= i < w -> 0 <= j < h ->
  exists row v,
    nth_error g (Z.to_nat i) = Some row /\
    nth_error row (Z.to_nat j) = Some v /\
    getitem g i j = Ok v.
Proof.
  intros Hs Hi Hj.
  destruct (shaped_row w h g i Hs Hi) as [row [Hrow Hlen]].
  destruct (nth_error row (Z.to_nat j)) as [v|] eqn:E.
  - exists row, v. repeat split; auto.
    unfold getitem. destruct Hs as [Hg _].
    rewrite index_inb by lia. rewrite Hrow.
    rewrite index_inb by lia. rewrite E. reflexivity.
  - apply nth_error_None in E. lia.
Qed.

Lemma getitem_total (w h : Z) (g : grid) (i j : Z) :
  shaped w h g -> 0 <= i < w -> 0 <= j < h -> exists v, getitem g i j = Ok v.
Proof.
  intros Hs Hi Hj.
  destruct (getitem_inb w h g i j Hs Hi Hj) as [row [v [_ [_ H]]]]. eauto.
Qed.

Lemma getitem_In (w h : Z) (g : grid) (i j v : Z) :
  shaped w h g -> 0 <= i < w -> 0 <= j < h -> getitem g i j = Ok v ->
  exists row, In row g /\ In v row.
Proof.
  intros Hs Hi Hj Hv.
  destruct (getitem_inb w h g i j Hs Hi Hj) as [row [v' [Hr [Hc H]]]].
  rewrite H in Hv. inversion Hv; subst.
  exists row. split; eapply nth_error_In; eauto.
Qed.

Lemma setitem_inb (w h : Z) (g : grid) (i j v : Z) :
  shaped w h g -> 0 <= i < w -> 0 <= j < h ->
  exists g',
    setitem g i j v = Ok g' /\
    shaped w h g' /\
    getitem g' i j = Ok v /\
    (forall a b, 0 <= a < w -> 0 <= b < h -> (a, b) <> (i, j) ->
                 getitem g' a b = getitem g a b).
Proof.
  intros Hs Hi Hj.
  destruct (shaped_row w h g i Hs Hi) as [row [Hrow Hlen]].
  pose proof Hs as [Hg Hrows].
  exists (list_set g (Z.to_nat i) (list_set row (Z.to_nat j) v)).
  assert (Hs' : shaped w h (list_set g (Z.to_nat i) (list_set row (Z.to_nat j) v))).
  { split.
    - rewrite length_list_set. exact Hg.
    - apply Forall_list_set; [exact Hrows|].
      rewrite length_list_set. exact Hlen. }
  split; [|split; [exact Hs'|split]].
  - unfold setitem. rewrite index_inb by lia. rewrite Hrow.
    rewrite index_inb by lia. reflexivity.
  - unfold getitem. rewrite length_list_set.
    rewrite index_inb by lia.
    rewrite nth_error_list_set_eq by lia.
    rewrite length_list_set. rewrite index_inb by lia.
    rewrite nth_error_list_set_eq by lia. reflexivity.
  - intros a b Ha Hb Hne.
    unfold getitem. rewrite length_list_set.
    rewrite index_inb by lia.
    destruct (Z.eq_dec a i) as [->|Hai].
    + rewrite nth_error_list_set_eq by lia. rewrite Hrow.
      rewrite length_list_set. rewrite index_inb by lia.
      rewrite nth_error_list_set_ne; [reflexivity|].
      intros Heq. apply Hne. f_equal. lia.
    + rewrite nth_error_list_set_ne by lia. reflexivity.
Qed.

(** ** Counting loops *)

Lemma forR_filter {A : Type} (xs : list A) (body : A -> Z -> result Z)
      (p : A -> bool) (n : Z) :
  (forall x m, In x xs -> body x m = Ok (if p x then m + 1 else m)) ->
  forR xs body n = Ok (n + Z.of_nat (length (filter p xs))).
Proof.
  revert n. induction xs as [|x xs IH]; intros n Hbody; simpl.
  - f_equal. lia.
  - rewrite Hbody by (left; reflexivity). simpl.
    rewrite IH by (intros; apply Hbody; right; assumption).
    f_equal. destruct (p x); simpl; lia.
Qed.

Lemma forR_sum {A : Type} (xs : list A) (body : A -> Z -> result Z)
      (f : A -> nat) (n : Z) :
  (forall x m, In x xs -> body x m = Ok (m + Z.of_nat (f x))) ->
  forR xs body n = Ok (n + Z.of_nat (list_sum (map f xs))).
Proof.
  revert n. induction xs as [|x xs IH]; intros n Hbody; simpl.
  - f_equal. lia.
  - rewrite Hbody by (left; reflexivity). simpl.
    rewrite IH by (intros; apply Hbody; right; assumption).
    f_equal. lia.
Qed.

Lemma length_filter_list_prod {A B : Type} (p : A * B -> bool)
      (xs : list A) (ys : list B) :
  length (filter p (list_prod xs ys)) =
  list_sum (map (fun x => length (filter (fun y => p (x, y)) ys)) xs).
Proof.
  induction xs as [|x xs IH]; simpl; [reflexivity|].
  rewrite filter_app, length_app, IH. f_equal.
  clear IH. induction ys as [|y ys IH]; simpl; [reflexivity|].
  destruct (p (x, y)); simpl; rewrite IH; reflexivity.
Qed.

Lemma NoDup_list_prod {A B : Type} (xs : list A) (ys : list B) :
  NoDup xs -> NoDup ys -> NoDup (list_prod xs ys).
Proof.
  intros Hxs Hys. induction Hxs as [|x xs Hx Hxs IH]; simpl; [constructor|].
  apply NoDup_app; [|exact IH|].
  - clear -Hys. induction Hys as [|y ys Hy Hys IH]; simpl; constructor; auto.
    rewrite in_map_iff. intros [y' [Heq Hin]]. inversion Heq; subst. contradiction.
  - intros [a b] Hin1 Hin2.
    apply in_map_iff in Hin1 as [y [Heq _]]. inversion Heq; subst.
    apply in_prod_iff in Hin2 as [Hin2 _]. contradiction.
Qed.

(** ** Neighbour counting *)


Lemma num_infected_around_count (self : Simulation) (st : grid) (i j : Z) :
  shaped (width self) (height self) st ->
  num_infected_around self st i j =
  Ok (Z.of_nat (length (filter (infected_neighbour st i j)
        (list_prod (range (Z.max (i - 1) 0) (Z.min (i + 2) (width self)))
                   (range (Z.max (j - 1) 0) (Z.min (j + 2) (height self))))))).
Proof.
  intros Hs. unfold num_infected_around.
  rewrite length_filter_list_prod.
  rewrite (forR_sum _ _
    (fun ip => length (filter (fun jp => infected_neighbour st i j (ip, jp))
       (range (Z.max (j - 1) 0) (Z.min (j + 2) (height self)))))).
  - reflexivity.
  - intros ip m Hip. apply in_range in Hip.
    apply forR_filter. intros jp n Hjp. apply in_range in Hjp.
    unfold infected_neighbour. simpl.
    destruct (negb ((ip =? i) && (jp =? j))); simpl; [|reflexivity].
    destruct (getitem_total _ _ st ip jp Hs) as [v Hv]; [lia|lia|].
    rewrite Hv. simpl. destruct (v =? INFECTED); reflexivity.
Qed.

Lemma filter_nil_all {A : Type} (p : A -> bool) (l : list A) :
  (forall x, In x l -> p x = false) -> filter p l = [].
Proof.
  induction l as [|x l IH]; intros H; simpl; [reflexivity|].
  rewrite (H x) by (left; reflexivity).
  apply IH. intros y Hy. apply H. right. exact Hy.
Qed.

Lemma num_infected_around_zero (self : Simulation) (st : grid) (i j : Z) :
  shaped (width self) (height self) st ->
  (forall i' j',
     Z.max (i - 1) 0 <= i' <= Z.min (i + 1) (width self - 1) ->
     Z.max (j - 1) 0 <= j' <= Z.min (j + 1) (height self - 1) ->
     (i', j') <> (i, j) -> getitem st i' j' <> Ok INFECTED) ->
  num_infected_around self st i j = Ok 0.
Proof.
  intros Hs Hnone. rewrite (num_infected_around_count self st i j Hs).
  rewrite filter_nil_all; [reflexivity|].
  intros [i' j'] Hin. apply in_prod_iff in Hin as [Hi' Hj'].
  apply in_range in Hi'. apply in_range in Hj'.
  unfold infected_neighbour. simpl.
  destruct ((i' =? i) && (j' =? j)) eqn:E; [reflexivity|]. simpl.
  destruct (getitem st i' j') as [v|e] eqn:Hv; [|reflexivity].
  apply Z.eqb_neq. intros ->.
  apply (Hnone i' j'); [lia|lia| |exact Hv].
  intros Heq. inversion Heq; subst.
  rewrite !Z.eqb_refl in E. discriminate.
Qed.

(** ** Loops that draw *)

Lemma for_each_inv {A S : Type} (P : list A -> S -> nat -> Prop)
      (xs : list A) (body : A -> S -> M S) (s : S) (c : nat) :
  P [] s c ->
  (forall done x s1 c1, P done s1 c1 -> In x xs ->
     exists s2 c2, body x s1 c1 = Ok (s2, c2) /\ P (done ++ [x]) s2 c2) ->
  exists s' c', for_each xs body s c = Ok (s', c') /\ P xs s' c'.
Proof.
  intros H0 Hstep.
  assert (G : forall rest done s1 c1, done ++ rest = xs -> P done s1 c1 ->
            exists s' c', for_each rest body s1 c1 = Ok (s', c') /\ P xs s' c').
  { induction rest as [|x rest IH]; intros done s1 c1 Heq HP.
    - rewrite app_nil_r in Heq. subst done. simpl.
      exists s1, c1. split; [reflexivity|exact HP].
    - simpl. unfold bind.
      destruct (Hstep done x s1 c1 HP) as [s2 [c2 [Hb HP2]]].
      { rewrite <- Heq. apply in_or_app. right. left. reflexivity. }
      rewrite Hb. apply (IH (done ++ [x])); [|exact HP2].
      rewrite <- app_assoc. exact Heq. }
  apply (G xs []); [reflexivity|exact H0].
Qed.

Lemma for_each_preserves {A S : Type} (P : S -> Prop)
      (xs : list A) (body : A -> S -> M S) :
  (forall x s1 c1 s2 c2, body x s1 c1 = Ok (s2, c2) -> P s1 -> P s2) ->
  forall s c s' c', for_each xs body s c = Ok (s', c') -> P s -> P s'.
Proof.
  intros Hstep. induction xs as [|x xs IH]; intros s c s' c' Hrun HP; simpl in Hrun.
  - unfold ret in Hrun. inversion Hrun; subst. exact HP.
  - unfold bind in Hrun.
    destruct (body x s c) as [[s1 c1]|e] eqn:Hb; [|discriminate].
    eapply IH; [exact Hrun|]. eapply Hstep; eauto.
Qed.

(** ** Well-formed engine states *)

Lemma Forall_cells (P : Z -> Prop) (w h : Z) (g : grid) :
  shaped w h g ->
  (forall i j v, 0 <= i < w -> 0 <= j < h -> getitem g i j = Ok v -> P v) ->
  Forall (Forall P) g.
Proof.
  intros Hs Hcells. pose proof Hs as [Hlen Hrows].
  rewrite Forall_forall in Hrows.
  apply Forall_forall. intros row Hrow. apply Forall_forall. intros v Hv.
  pose proof (Hrows row Hrow) as Hrl.
  apply In_nth_error in Hrow as [n Hn].
  apply In_nth_error in Hv as [m Hm].
  assert (Hnlt : (n < length g)%nat) by (apply nth_error_Some; congruence).
  assert (Hmlt : (m < length row)%nat) by (apply nth_error_Some; congruence).
  apply (Hcells (Z.of_nat n) (Z.of_nat m)); [lia|lia|].
  destruct (getitem_inb w h g (Z.of_nat n) (Z.of_nat m) Hs) as [row' [v' [Hr [Hc Hg]]]];
    [lia|lia|].
  rewrite Nat2Z.id in Hr, Hc. rewrite Hn in Hr. inversion Hr; subst row'.
  rewrite Hm in Hc. inversion Hc; subst v'. exact Hg.
Qed.

Lemma cells_Forall (P : Z -> Prop) (w h : Z) (g : grid) (i j v : Z) :
  shaped w h g -> Forall (Forall P) g ->
  0 <= i < w -> 0 <= j < h -> getitem g i j = Ok v -> P v.
Proof.
  intros Hs Hall Hi Hj Hv.
  destruct (getitem_In w h g i j v Hs Hi Hj Hv) as [row [Hrow Hin]].
  rewrite Forall_forall in Hall. specialize (Hall row Hrow).
  rewrite Forall_forall in Hall. auto.
Qed.

(** The size check on the two shapes that the engine allocates. *)
Lemma array_nbytes_2 (w h : Z) :
  array_nbytes [w; h] =
  itemsize * (if w =? 0 then 1 else w) * (if h =? 0 then 1 else h).
Proof.
  unfold array_nbytes, itemsize. cbn [fold_left].
  destruct (w =? 0), (h =? 0); lia.
Qed.

Lemma array_nbytes_3 (w h : Z) :
  array_nbytes [w; h; 3] =
  3 * itemsize * (if w =? 0 then 1 else w) * (if h =? 0 then 1 else h).
Proof.
  unfold array_nbytes, itemsize. cbn [fold_left].
  change (3 =? 0) with false. cbv iota.
  destruct (w =? 0), (h =? 0); lia.
Qed.

Lemma array_fits_2 (w h : Z) :
  1 <= w -> 1 <= h -> 8 * (w * h) <= NPY_MAX_INTP ->
  array_too_big [w; h] = false.
Proof.
  intros Hw Hh Hb. unfold array_too_big. rewrite array_nbytes_2.
  replace (w =? 0) with false by (symmetry; apply Z.eqb_neq; lia).
  replace (h =? 0) with false by (symmetry; apply Z.eqb_neq; lia).
  apply Z.ltb_ge. unfold itemsize. lia.
Qed.

Lemma array_fits_3 (w h : Z) :
  1 <= w -> 1 <= h -> 24 * (w * h) <= NPY_MAX_INTP ->
  array_too_big [w; h; 3] = false.
Proof.
  intros Hw Hh Hb. unfold array_too_big. rewrite array_nbytes_3.
  replace (w =? 0) with false by (symmetry; apply Z.eqb_neq; lia).
  replace (h =? 0) with false by (symmetry; apply Z.eqb_neq; lia).
  apply Z.ltb_ge. unfold itemsize. lia.
Qed.

Lemma array_fits_empty (w h : Z) :
  0 <= w -> 0 <= h -> w = 0 \/ h = 0 ->
  array_too_big [w; h] = negb (8 * (w + h) <=? NPY_MAX_INTP).
Proof.
  intros Hw Hh Hz. unfold array_too_big. rewrite array_nbytes_2.
  unfold itemsize. rewrite Z.ltb_antisym. f_equal.
  destruct (w =? 0) eqn:Ew, (h =? 0) eqn:Eh;
    rewrite ?Z.eqb_eq, ?Z.eqb_neq in *; subst;
    try reflexivity; try (f_equal; lia); exfalso; lia.
Qed.

Lemma np_zeros_ok (w h : Z) :
  0 <= w -> 0 <= h -> array_too_big [w; h] = false ->
  np_zeros w h = Ok (repeat (repeat 0 (Z.to_nat h)) (Z.to_nat w)).
Proof.
  intros Hw Hh Hb. unfold np_zeros. rewrite Hb.
  replace (w <? 0) with false by (symmetry; apply Z.ltb_ge; lia).
  replace (h <? 0) with false by (symmetry; apply Z.ltb_ge; lia).
  reflexivity.
Qed.

Lemma np_zeros_inv (w h : Z) (g : grid) :
  np_zeros w h = Ok g ->
  0 <= w /\ 0 <= h /\ array_too_big [w; h] = false /\
  g = repeat (repeat 0 (Z.to_nat h)) (Z.to_nat w).
Proof.
  unfold np_zeros. intros H.
  destruct (w <? 0) eqn:Ew; [discriminate|].
  destruct (h <? 0) eqn:Eh; [discriminate|].
  destruct (array_too_big [w; h]) eqn:Eb; [discriminate|].
  simpl in H. inversion H.
  apply Z.ltb_ge in Ew. apply Z.ltb_ge in Eh. auto.
Qed.

Lemma np_zeros_raises (w h : Z) :
  w < 0 \/ h < 0 \/ array_too_big [w; h] = true ->
  np_zeros w h = Raise ValueError.
Proof.
  intros H. unfold np_zeros.
  replace ((w <? 0) || (h <? 0) || array_too_big [w; h]) with true;
    [reflexivity|].
  symmetry. rewrite !orb_true_iff, !Z.ltb_lt. tauto.
Qed.

Lemma fill_zeros (w h : nat) :
  fill (repeat (repeat 0 h) w) SUSCEPTIBLE = repeat (repeat SUSCEPTIBLE h) w.
Proof. unfold fill. rewrite map_repeat. f_equal. rewrite map_repeat. reflexivity. Qed.

Lemma init_valid (w h : Z) (r i d : Q) (s : Simulation) :
  init w h r i d = Ok s ->
  0 <= w /\ 0 <= h /\
  s = mkSimulation 0 w h r i d
        (repeat (repeat SUSCEPTIBLE (Z.to_nat h)) (Z.to_nat w)) /\
  valid s.
Proof.
  unfold init. intros H.
  destruct (np_zeros w h) as [g|e] eqn:E; simpl in H; [|discriminate].
  apply np_zeros_inv in E as [Ew [Eh [_ Eg]]]. subst g.
  assert (Hfill : fill (repeat (repeat 0 (Z.to_nat h)) (Z.to_nat w)) SUSCEPTIBLE
                  = repeat (repeat SUSCEPTIBLE (Z.to_nat h)) (Z.to_nat w)).
  { unfold fill. rewrite map_repeat. f_equal. rewrite map_repeat. reflexivity. }
  rewrite Hfill in H. inversion H; subst s. clear H.
  split; [exact Ew|split; [exact Eh|split; [reflexivity|]]].
  unfold valid, shaped. simpl. split; [split|].
  - apply repeat_length.
  - apply Forall_forall. intros row Hrow. apply repeat_spec in Hrow. subst row.
    apply repeat_length.
  - apply Forall_forall. intros row Hrow. apply repeat_spec in Hrow. subst row.
    apply Forall_forall. intros v Hv. apply repeat_spec in Hv. subst v.
    left. reflexivity.
Qed.

Lemma set_state_set_state (s : Simulation) (g g' : grid) :
  set_state (set_state s g) g' = set_state s g'.
Proof. reflexivity. Qed.

Lemma set_state_self (s : Simulation) : set_state s (state s) = s.
Proof. destruct s; reflexivity. Qed.

Lemma length_range (a b : Z) : length (range a b) = Z.to_nat (b - a).
Proof. unfold range. rewrite length_map, length_seq. reflexivity. Qed.

(** ** Counting cells *)

Lemma length_filter_mask (row : list Z) (v : Z) :
  length (filter (fun b : bool => b) (map (fun c => c =? v) row)) =
  length (filter (fun c => c =? v) row).
Proof.
  induction row as [|x row IH]; simpl; [reflexivity|].
  destruct (x =? v); simpl; rewrite IH; reflexivity.
Qed.

Lemma count_nonzero_cells_with (g : grid) (v : Z) :
  count_nonzero (eq_mask g v) = cells_with g v.
Proof.
  unfold count_nonzero, cells_with, eq_mask.
  assert (G : forall n,
    fold_left (fun n row => n + Z.of_nat (length (filter (fun b : bool => b) row)))
      (map (map (fun c => c =? v)) g) n =
    n + Z.of_nat (length (filter (fun c => c =? v) (concat g)))).
  { induction g as [|row g IH]; intros n; simpl; [lia|].
    rewrite IH, filter_app, length_app, length_filter_mask. lia. }
  rewrite G. lia.
Qed.

Lemma cells_with_total (w h : Z) (g : grid) :
  0 <= w -> 0 <= h -> shaped w h g -> Forall (Forall status_ok) g ->
  cells_with g SUSCEPTIBLE + cells_with g INFECTED +
  cells_with g RECOVERED + cells_with g DEAD = w * h.
Proof.
  intros Hw Hh [Hlen Hrows] Hall. unfold cells_with.
  assert (Hflat : Forall status_ok (concat g)).
  { clear -Hall. induction Hall as [|row g Hrow _ IH]; simpl; [constructor|].
    apply Forall_app. split; assumption. }
  assert (Hsize : Z.of_nat (length (concat g)) = w * h).
  { assert (G : length (concat g) = (length g * Z.to_nat h)%nat).
    { clear -Hrows. induction Hrows as [|row g Hrow _ IH]; simpl; [reflexivity|].
      rewrite length_app, IH, Hrow. reflexivity. }
    rewrite G, Hlen. lia. }
  rewrite <- Hsize. clear -Hflat.
  unfold status_ok, SUSCEPTIBLE, INFECTED, RECOVERED, DEAD in *.
  induction Hflat as [|x l Hx _ IH]; [reflexivity|].
  destruct Hx as [ -> | [ -> | [ -> | -> ] ] ]; cbn [filter Z.eqb Pos.eqb length];
    rewrite ?Nat2Z.inj_succ; lia.
Qed.

Lemma percentages_sum (a b c d t : Z) :
  0 < t -> a + b + c + d = t ->
  (inject_Z (100 * a) / inject_Z t + inject_Z (100 * b) / inject_Z t +
   inject_Z (100 * c) / inject_Z t + inject_Z (100 * d) / inject_Z t == 100)%Q.
Proof.
  intros Ht Hsum. subst t.
  rewrite !inject_Z_mult, !inject_Z_plus.
  assert (Hnz : ~ (inject_Z a + inject_Z b + inject_Z c + inject_Z d == 0)%Q).
  { rewrite <- !inject_Z_plus. intros H.
    change 0%Q with (inject_Z 0) in H. apply (proj1 (inject_Z_injective _ _)) in H. lia. }
  change (inject_Z 100) with 100%Q.
  field. exact Hnz.
Qed.

Lemma get_percentage_status_self {numpy : Numpy} (s : Simulation)
      (res : list (string * float)) (s' : Simulation) :
  get_percentage_status s = Ok (res, s') -> s' = s.
Proof.
  unfold get_percentage_status. cbv zeta.
  match goal with |- context [forR ?xs ?f ?a] =>
    destruct (forR xs f a) as [ps|e] end; simpl; [|discriminate].
  intros H. inversion H; subst. reflexivity.
Qed.

(** Away from a zero total the quotients are the same for both kinds of
    count. *)
Lemma divide_nonzero {numpy : Numpy} (a total : Z) :
  total <> 0 -> divide a total = Ok (true_divide a total).
Proof.
  intros H. unfold divide.
  replace (total =? 0) with false by (symmetry; apply Z.eqb_neq; exact H).
  rewrite andb_false_r. reflexivity.
Qed.

Lemma get_percentage_status_value {numpy : Numpy} (s : Simulation) :
  width s * height s <> 0 ->
  get_percentage_status s =
    Ok ([ ("susceptible"%string, percent_of SUSCEPTIBLE s);
          ("infected"%string, percent_of INFECTED s);
          ("recovered"%string, percent_of RECOVERED s);
          ("dead"%string, percent_of DEAD s) ], s).
Proof.
  intros Hnz. unfold get_percentage_status, percent_of. cbv zeta.
  cbn [forR STATUSES bindR]. rewrite !(divide_nonzero _ _ Hnz).
  cbn [bindR app]. rewrite !count_nonzero_cells_with. reflexivity.
Qed.

(** ** Stepping through a loop *)

Lemma for_each_cons {A S : Type} (x : A) (xs : list A) (body : A -> S -> M S)
      (s : S) (c : nat) (s1 : S) (c1 : nat) :
  body x s c = Ok (s1, c1) ->
  for_each (x :: xs) body s c = for_each xs body s1 c1.
Proof. intros H. simpl. unfold bind. rewrite H. reflexivity. Qed.

Lemma bind_ok {A B : Type} (m : M A) (k : A -> M B) (c : nat) (a : A) (c1 : nat) :
  m c = Ok (a, c1) -> bind m k c = k a c1.
Proof. intros H. unfold bind. rewrite H. reflexivity. Qed.

(** * The claims *)

(** ** Neighbour counting and construction *)

(** C4.  [num_infected_around] returns the number of elements of the set of
    coordinates [(i', j')] with [max(i-1,0) <= i' <= min(i+1,width-1)],
    [max(j-1,0) <= j' <= min(j+1,height-1)], [(i',j') <> (i,j)] whose cell
    is Infected in the array it is given; on the 2x2 grid whose only
    infected cell is [(0,0)] each of the three other cells has exactly one
    infected neighbour. *)
Theorem neighbour_count :
  (forall (self : Simulation) (st : grid) (i j : Z),
     shaped (width self) (height self) st ->
     exists nbrs : list (Z * Z),
       NoDup nbrs /\
       (forall i' j',
          In (i', j') nbrs <->
          Z.max (i - 1) 0 <= i' <= Z.min (i + 1) (width self - 1) /\
          Z.max (j - 1) 0 <= j' <= Z.min (j + 1) (height self - 1) /\
          (i', j') <> (i, j) /\
          getitem st i' j' = Ok INFECTED) /\
       num_infected_around self st i j = Ok (Z.of_nat (length nbrs))) /\
  (forall r p d,
     let s := corner2x2 r p d in
     num_infected_around s (state s) 0 1 = Ok 1 /\
     num_infected_around s (state s) 1 0 = Ok 1 /\
     num_infected_around s (state s) 1 1 = Ok 1).
Proof.
  split.
  - intros self st i j Hs.
    exists (filter (infected_neighbour st i j)
              (list_prod (range (Z.max (i - 1) 0) (Z.min (i + 2) (width self)))
                         (range (Z.max (j - 1) 0) (Z.min (j + 2) (height self))))).
    split; [|split].
    + apply NoDup_filter. apply NoDup_list_prod; apply NoDup_range.
    + intros i' j'. rewrite filter_In, in_prod_iff, !in_range.
      unfold infected_neighbour. simpl.
      rewrite andb_true_iff, negb_true_iff, andb_false_iff, !Z.eqb_neq.
      split.
      * intros [[Hi' Hj'] [Hne Hinf]].
        split; [lia|split; [lia|split]].
        -- intros Heq. inversion Heq; subst. destruct Hne; congruence.
        -- destruct (getitem st i' j') as [v|e]; [|discriminate].
           apply Z.eqb_eq in Hinf. subst. reflexivity.
      * intros [Hi' [Hj' [Hne Hinf]]].
        split; [lia|split].
        -- destruct (Z.eq_dec i' i) as [->|Hi]; [|left; exact Hi].
           right. intros ->. apply Hne. reflexivity.
        -- rewrite Hinf. reflexivity.
    + apply num_infected_around_count. exact Hs.
  - intros r p d. cbv zeta. repeat split; reflexivity.
Qed.

(** C9 (amended).  Construction with a negative width or height raises
    [ValueError] (from [np.zeros]).  With width or height 0 and neither
    negative, it succeeds when the other dimension takes at most
    [NPY_MAX_INTP] bytes at 8 bytes an element, and the engine it returns
    has day 0, the width and height it was given and a grid without cells;
    when the other dimension is larger it raises [ValueError], again from
    [np.zeros]. *)
Theorem init_construction (w h : Z) (r p d : Q) :
  (w < 0 \/ h < 0 -> init w h r p d = Raise ValueError) /\
  (0 <= w -> 0 <= h -> w = 0 \/ h = 0 -> 8 * (w + h) <= NPY_MAX_INTP ->
   exists s,
     init w h r p d = Ok s /\ day s = 0 /\ width s = w /\ height s = h /\
     concat (state s) = []) /\
  (0 <= w -> 0 <= h -> w = 0 \/ h = 0 -> NPY_MAX_INTP < 8 * (w + h) ->
   init w h r p d = Raise ValueError).
Proof.
  split; [|split].
  - intros Hneg. unfold init. rewrite np_zeros_raises; [reflexivity|tauto].
  - intros Hw Hh Hzero Hb. unfold init.
    rewrite np_zeros_ok; [|assumption|assumption|].
    + simpl. rewrite fill_zeros. eexists. split; [reflexivity|].
      simpl. repeat (split; [reflexivity|]).
      destruct Hzero as [-> | ->]; simpl; [reflexivity|].
      generalize (Z.to_nat w) as n.
      induction n as [|n IH]; simpl; [reflexivity|exact IH].
    + rewrite array_fits_empty by assumption.
      apply negb_false_iff. apply Z.leb_le. exact Hb.
  - intros Hw Hh Hzero Hb. unfold init. rewrite np_zeros_raises; [reflexivity|].
    right. right. rewrite array_fits_empty by assumption.
    apply negb_true_iff. apply Z.leb_gt. exact Hb.
Qed.

(** ** One day *)

Section UpdateProperties.

Variable uniform : nat -> Q.

Lemma get_new_status_infected (self : Simulation) (st : grid) (i j : Z) (c : nat) :
  getitem st i j = Ok INFECTED ->
  get_new_status uniform self st i j c =
  if Qltb (uniform c) (recovery_probability self) then Ok (RECOVERED, S c)
  else if Qltb (uniform (S c)) (death_probability self) then Ok (DEAD, S (S c))
  else Ok (INFECTED, S (S c)).
Proof.
  intros Hget. unfold get_new_status, bind, lift, random, ret.
  rewrite Hget. change (INFECTED =? INFECTED) with true. cbv beta iota.
  destruct (Qltb (uniform c) (recovery_probability self)); [reflexivity|].
  destruct (Qltb (uniform (S c)) (death_probability self)); reflexivity.
Qed.

Lemma get_new_status_susceptible (self : Simulation) (st : grid) (i j n : Z)
      (c : nat) :
  getitem st i j = Ok SUSCEPTIBLE ->
  num_infected_around self st i j = Ok n ->
  get_new_status uniform self st i j c =
  if float_gtb (float_mul n (infection_probability self)) (uniform c)
  then Ok (INFECTED, S c) else Ok (SUSCEPTIBLE, S c).
Proof.
  intros Hget Hnum. unfold get_new_status, bind, lift, random, ret.
  rewrite Hget. change (SUSCEPTIBLE =? INFECTED) with false.
  change (SUSCEPTIBLE =? SUSCEPTIBLE) with true. cbv beta iota.
  rewrite Hnum. cbv beta iota.
  destruct (float_gtb (float_mul n (infection_probability self)) (uniform c));
    reflexivity.
Qed.

Lemma get_new_status_terminal (self : Simulation) (st : grid) (i j v : Z)
      (c : nat) :
  getitem st i j = Ok v -> v <> INFECTED -> v <> SUSCEPTIBLE ->
  get_new_status uniform self st i j c = Ok (v, c).
Proof.
  intros Hget Hi Hs. unfold get_new_status, bind, lift, random, ret.
  rewrite Hget. cbv beta iota.
  destruct (v =? INFECTED) eqn:E1; [apply Z.eqb_eq in E1; contradiction|].
  destruct (v =? SUSCEPTIBLE) eqn:E2; [apply Z.eqb_eq in E2; contradiction|].
  reflexivity.
Qed.

(** On an array of the engine's shape the rule raises nothing, consumes at
    most two draws, and returns one of the three codes it can assign or the
    status it read. *)
Lemma get_new_status_total (self : Simulation) (st : grid) (i j : Z) (c : nat) :
  shaped (width self) (height self) st ->
  0 <= i < width self -> 0 <= j < height self ->
  exists v c',
    get_new_status uniform self st i j c = Ok (v, c') /\
    (c <= c' <= c + 2)%nat /\
    (v = RECOVERED \/ v = DEAD \/ v = INFECTED \/ getitem st i j = Ok v).
Proof.
  intros Hs Hi Hj.
  destruct (getitem_total _ _ st i j Hs Hi Hj) as [v Hv].
  destruct (Z.eq_dec v INFECTED) as [->|Hni].
  - rewrite (get_new_status_infected self st i j c Hv).
    destruct (Qltb (uniform c) (recovery_probability self));
      [|destruct (Qltb (uniform (S c)) (death_probability self))];
      eexists; eexists; (split; [reflexivity|split; [lia|tauto]]).
  - destruct (Z.eq_dec v SUSCEPTIBLE) as [->|Hns].
    + rewrite (get_new_status_susceptible self st i j _ c Hv
                 (num_infected_around_count self st i j Hs)).
      match goal with |- context [if ?b then _ else _] => destruct b end;
        eexists; eexists; (split; [reflexivity|split; [lia|tauto]]).
    + rewrite (get_new_status_terminal self st i j v c Hv Hni Hns).
      exists v, c. split; [reflexivity|split; [lia|tauto]].
Qed.

Lemma update_row (self : Simulation) (old ns : grid) (c0 c : nat) (i : Z)
      (rows : list Z) :
  shaped (width self) (height self) old ->
  shaped (width self) (height self) ns ->
  0 <= i < width self -> (c0 <= c)%nat ->
  (forall a b, 0 <= a < width self -> 0 <= b < height self -> In a rows ->
               computed_from uniform self old c0 ns a b) ->
  exists ns' c',
    for_each (range 0 (height self)) (fun j new_state =>
      v <- get_new_status uniform self old i j ;;
      lift (setitem new_state i j v)) ns c = Ok (ns', c') /\
    shaped (width self) (height self) ns' /\ (c0 <= c')%nat /\
    (forall a b, 0 <= a < width self -> 0 <= b < height self ->
                 In a (rows ++ [i]) -> computed_from uniform self old c0 ns' a b).
Proof.
  intros Hold Hns Hi Hc Hrows.
  destruct (for_each_inv
    (fun cols ns1 c1 =>
       shaped (width self) (height self) ns1 /\ (c0 <= c1)%nat /\
       forall a b, 0 <= a < width self -> 0 <= b < height self ->
                   In a rows \/ (a = i /\ In b cols) ->
                   computed_from uniform self old c0 ns1 a b)
    (range 0 (height self))
    (fun j new_state =>
       v <- get_new_status uniform self old i j ;;
       lift (setitem new_state i j v)) ns c) as [ns' [c' [Hrun [Hs' [Hc' Hcells]]]]].
  - split; [exact Hns|split; [exact Hc|]].
    intros a b Ha Hb [Hin|[_ []]]. apply Hrows; assumption.
  - intros cols j ns1 c1 [Hs1 [Hc1 Hinv]] Hj. apply in_range in Hj.
    destruct (get_new_status_total self old i j c1 Hold Hi) as [v [c2 [Hv [Hc2 _]]]];
      [lia|].
    destruct (setitem_inb _ _ ns1 i j v Hs1 Hi) as [ns2 [Hset [Hs2 [Hget Hother]]]];
      [lia|].
    exists ns2, c2. split.
    + unfold bind, lift. rewrite Hv, Hset. reflexivity.
    + split; [exact Hs2|split; [lia|]].
      intros a b Ha Hb Hin.
      destruct (Z.eq_dec a i) as [->|Hai].
      * destruct (Z.eq_dec b j) as [->|Hbj].
        -- exists c1, v, c2. repeat split; [lia|exact Hv|exact Hget].
        -- destruct (Hinv i b Ha Hb) as [ci [v' [ci' [H1 [H2 H3]]]]].
           { destruct Hin as [Hin|[_ Hin]]; [left; exact Hin|].
             right. split; [reflexivity|].
             apply in_app_or in Hin as [Hin|[Hin|[]]]; [exact Hin|congruence]. }
           exists ci, v', ci'. repeat split; [exact H1|exact H2|].
           rewrite Hother; [exact H3|exact Ha|exact Hb|congruence].
      * destruct (Hinv a b Ha Hb) as [ci [v' [ci' [H1 [H2 H3]]]]].
        { destruct Hin as [Hin|[Heq _]]; [left; exact Hin|contradiction]. }
        exists ci, v', ci'. repeat split; [exact H1|exact H2|].
        rewrite Hother; [exact H3|exact Ha|exact Hb|congruence].
  - exists ns', c'. split; [exact Hrun|split; [exact Hs'|split; [exact Hc'|]]].
    intros a b Ha Hb Hin. apply Hcells; [exact Ha|exact Hb|].
    apply in_app_or in Hin as [Hin|[Hin|[]]]; [left; exact Hin|].
    right. split; [congruence|]. apply in_range. lia.
Qed.

Lemma update_spec (self : Simulation) (c : nat) :
  shaped (width self) (height self) (state self) ->
  exists ns c',
    update uniform self c =
      Ok (set_day (set_state self ns) (day self + 1), c') /\
    shaped (width self) (height self) ns /\ (c <= c')%nat /\
    (forall i j, 0 <= i < width self -> 0 <= j < height self ->
                 computed_from uniform self (state self) c ns i j).
Proof.
  intros Hs.
  destruct (for_each_inv
    (fun rows ns1 c1 =>
       shaped (width self) (height self) ns1 /\ (c <= c1)%nat /\
       forall a b, 0 <= a < width self -> 0 <= b < height self ->
                   In a rows -> computed_from uniform self (state self) c ns1 a b)
    (range 0 (width self))
    (fun i new_state =>
       for_each (range 0 (height self)) (fun j new_state =>
         v <- get_new_status uniform self (state self) i j ;;
         lift (setitem new_state i j v)) new_state)
    (state self) c) as [ns [c' [Hrun [Hs' [Hc' Hcells]]]]].
  - split; [exact Hs|split; [lia|]]. intros a b _ _ [].
  - intros rows i ns1 c1 [Hs1 [Hc1 Hinv]] Hi. apply in_range in Hi.
    destruct (update_row self (state self) ns1 c c1 i rows Hs Hs1)
      as [ns2 [c2 [Hrun [Hs2 [Hc2 Hcells]]]]]; [lia|exact Hc1|exact Hinv|].
    exists ns2, c2. split; [exact Hrun|]. split; [exact Hs2|split; [exact Hc2|exact Hcells]].
  - exists ns, c'. split.
    + unfold update. cbv zeta. unfold bind at 1. rewrite Hrun. reflexivity.
    + split; [exact Hs'|split; [exact Hc'|]].
      intros i j Hi Hj. apply Hcells; [exact Hi|exact Hj|]. apply in_range. lia.
Qed.

Lemma update_valid (s : Simulation) (c : nat) (s' : Simulation) (c' : nat) :
  valid s -> update uniform s c = Ok (s', c') -> valid s'.
Proof.
  intros [Hs Hall] Hup.
  destruct (update_spec s c Hs) as [ns [c2 [Hrun [Hs2 [_ Hcells]]]]].
  rewrite Hrun in Hup. inversion Hup; subst s' c'. clear Hup.
  split; simpl; [exact Hs2|].
  apply (Forall_cells status_ok _ _ ns Hs2). intros i j v Hi Hj Hv.
  destruct (Hcells i j Hi Hj) as [ci [v' [ci' [_ [Hgns Hget]]]]].
  rewrite Hget in Hv. inversion Hv; subst v'. clear Hv.
  destruct (get_new_status_total s (state s) i j ci Hs Hi Hj)
    as [v2 [c3 [Hgns2 [_ Hcases]]]].
  rewrite Hgns in Hgns2. inversion Hgns2; subst v2 c3.
  destruct Hcases as [->|[->|[->|Hold]]]; unfold status_ok; try tauto.
  exact (cells_Forall status_ok _ _ (state s) i j v Hs Hall Hi Hj Hold).
Qed.

Lemma update_day (s : Simulation) (c : nat) (s' : Simulation) (c' : nat) :
  update uniform s c = Ok (s', c') -> day s' = day s + 1.
Proof.
  unfold update. cbv zeta. unfold bind at 1.
  match goal with |- context [for_each ?xs ?f ?a c] =>
    destruct (for_each xs f a c) as [[ns c1]|e] end; [|discriminate].
  unfold ret. intros H. inversion H; subst. reflexivity.
Qed.

Lemma run_updates_total (k : nat) (s : Simulation) (c : nat) :
  valid s ->
  exists s' c',
    run_updates uniform k s c = Ok (s', c') /\
    day s' = day s + Z.of_nat k /\ valid s'.
Proof.
  revert s c. induction k as [|k IH]; intros s c Hv.
  - exists s, c. split; [reflexivity|split; [simpl; lia|exact Hv]].
  - destruct (update_spec s c (proj1 Hv)) as [ns [c1 [Hrun _]]].
    pose proof (update_valid s c _ _ Hv Hrun) as Hv1.
    destruct (IH _ c1 Hv1) as [s' [c' [Hk [Hday Hv']]]].
    exists s', c'. split; [|split; [|exact Hv']].
    + cbn [run_updates]. rewrite (bind_ok _ _ _ _ _ Hrun). exact Hk.
    + rewrite Hday. simpl. lia.
Qed.

Lemma update_line3 (death : Q) (c : nat) :
  (forall n, (uniform n < 1)%Q) -> (forall n, (0 <= uniform n)%Q) ->
  update uniform (line3 death) c =
  Ok (mkSimulation 1 1 3 1 1 death [[RECOVERED; INFECTED; SUSCEPTIBLE]],
      (c + 3)%nat).
Proof.
  intros Hlt Hge.
  assert (G0 : get_new_status uniform (line3 death) (state (line3 death)) 0 0 c = Ok (RECOVERED, S c)).
  { rewrite (get_new_status_infected (line3 death) (state (line3 death)) 0 0 c eq_refl).
    cbn [recovery_probability line3].
    rewrite (proj2 (Qltb_lt (uniform c) 1) (Hlt c)). reflexivity. }
  assert (G1 : get_new_status uniform (line3 death) (state (line3 death)) 0 1 (S c) = Ok (INFECTED, S (S c))).
  { rewrite (get_new_status_susceptible (line3 death) (state (line3 death)) 0 1 1 (S c) eq_refl eq_refl).
    cbn [infection_probability line3].
    rewrite (float_gtb_geb _ _ 1 float_mul_1_1 (Hlt (S c))). reflexivity. }
  assert (G2 : get_new_status uniform (line3 death) (state (line3 death)) 0 2 (S (S c)) = Ok (SUSCEPTIBLE, S (S (S c)))).
  { rewrite (get_new_status_susceptible (line3 death) (state (line3 death)) 0 2 0 (S (S c)) eq_refl eq_refl).
    rewrite float_mul_0, (float_gtb_zero _ _ (Hge (S (S c)))). reflexivity. }
  unfold update. cbv zeta.
  change (range 0 (width (line3 death))) with [0].
  change (range 0 (height (line3 death))) with [0; 1; 2].
  erewrite bind_ok.
  2:{ erewrite for_each_cons.
      2:{ erewrite for_each_cons. 2:{ erewrite bind_ok by exact G0. reflexivity. }
          erewrite for_each_cons. 2:{ erewrite bind_ok by exact G1. reflexivity. }
          erewrite for_each_cons. 2:{ erewrite bind_ok by exact G2. reflexivity. }
          reflexivity. }
      reflexivity. }
  unfold ret. replace (c + 3)%nat with (S (S (S c))) by lia. reflexivity.
Qed.

(** C1.  [update()] computes every cell's new status from the pre-update
    array.  On the 1x3 grid [Infected, Susceptible, Susceptible] with
    recovery and infection probabilities 1, one call yields
    [Recovered, Infected, Susceptible] whatever the draws in [0,1) are; and
    on every engine state, each cell of the array installed by the call is
    the value of the per-cell rule evaluated on the old array
    ([state self]), never on the array under construction. *)
Theorem update_reads_snapshot :
  (forall death c,
     (forall n, (0 <= uniform n < 1)%Q) ->
     exists c',
       update uniform (line3 death) c =
       Ok (mkSimulation 1 1 3 1 1 death [[RECOVERED; INFECTED; SUSCEPTIBLE]], c')) /\
  (forall self c,
     shaped (width self) (height self) (state self) ->
     exists ns c',
       update uniform self c =
         Ok (set_day (set_state self ns) (day self + 1), c') /\
       forall i j, 0 <= i < width self -> 0 <= j < height self ->
         exists ci v ci',
           (c <= ci)%nat /\
           get_new_status uniform self (state self) i j ci = Ok (v, ci') /\
           getitem ns i j = Ok v).
Proof.
  split.
  - intros death c Hdraws. exists (c + 3)%nat.
    apply update_line3; intros n; apply Hdraws.
  - intros self c Hs.
    destruct (update_spec self c Hs) as [ns [c' [Hrun [_ [_ Hcells]]]]].
    exists ns, c'. split; [exact Hrun|]. exact Hcells.
Qed.

(** C2.  A cell that is Dead or Recovered before [update()] holds the same
    status after it, whatever the draws are. *)
Theorem terminal_absorbing (self : Simulation) (c : nat) (i j v : Z) :
  shaped (width self) (height self) (state self) ->
  0 <= i < width self -> 0 <= j < height self ->
  getitem (state self) i j = Ok v ->
  v = DEAD \/ v = RECOVERED ->
  exists s' c',
    update uniform self c = Ok (s', c') /\ getitem (state s') i j = Ok v.
Proof.
  intros Hs Hi Hj Hget Hv.
  destruct (update_spec self c Hs) as [ns [c' [Hrun [_ [_ Hcells]]]]].
  exists (set_day (set_state self ns) (day self + 1)), c'.
  split; [exact Hrun|]. simpl.
  destruct (Hcells i j Hi Hj) as [ci [v' [ci' [_ [Hgns Hnew]]]]].
  rewrite (get_new_status_terminal self (state self) i j v ci Hget) in Hgns.
  - inversion Hgns; subst. exact Hnew.
  - destruct Hv as [-> | ->]; discriminate.
  - destruct Hv as [-> | ->]; discriminate.
Qed.

(** C3.  For a cell that is Infected before [update()], the per-cell rule
    draws [r1]; if [r1 < recovery_probability] it returns Recovered and
    draws nothing more; otherwise it draws [r2] and returns Dead if
    [r2 < death_probability], Infected otherwise.  [update()] installs that
    value, so a cell whose first draw is below the recovery probability is
    Recovered after the call whatever the second draw would have been. *)
Theorem infected_rule (self : Simulation) (c : nat) (i j : Z) :
  shaped (width self) (height self) (state self) ->
  0 <= i < width self -> 0 <= j < height self ->
  getitem (state self) i j = Ok INFECTED ->
  (forall k,
     get_new_status uniform self (state self) i j k =
     if Qltb (uniform k) (recovery_probability self) then Ok (RECOVERED, S k)
     else if Qltb (uniform (S k)) (death_probability self)
          then Ok (DEAD, S (S k))
          else Ok (INFECTED, S (S k))) /\
  exists s' c' k v,
    update uniform self c = Ok (s', c') /\ (c <= k)%nat /\
    getitem (state s') i j = Ok v /\
    ((uniform k < recovery_probability self)%Q -> v = RECOVERED) /\
    ((recovery_probability self <= uniform k)%Q ->
     (uniform (S k) < death_probability self)%Q -> v = DEAD) /\
    ((recovery_probability self <= uniform k)%Q ->
     (death_probability self <= uniform (S k))%Q -> v = INFECTED).
Proof.
  intros Hs Hi Hj Hget. split.
  - intros k. apply get_new_status_infected. exact Hget.
  - destruct (update_spec self c Hs) as [ns [c' [Hrun [_ [_ Hcells]]]]].
    destruct (Hcells i j Hi Hj) as [k [v [k' [Hk [Hgns Hnew]]]]].
    exists (set_day (set_state self ns) (day self + 1)), c', k, v.
    split; [exact Hrun|split; [exact Hk|split; [exact Hnew|]]].
    rewrite (get_new_status_infected self (state self) i j k Hget) in Hgns.
    destruct (Qltb (uniform k) (recovery_probability self)) eqn:E1;
      [|destruct (Qltb (uniform (S k)) (death_probability self)) eqn:E2];
      inversion Hgns; subst; clear Hgns.
    + apply Qltb_lt in E1. split; [reflexivity|].
      split; intros Hge; exfalso; exact (Qlt_not_le _ _ E1 Hge).
    + apply Qltb_ge in E1. apply Qltb_lt in E2.
      split; [intros Hlt; exfalso; exact (Qlt_not_le _ _ Hlt E1)|].
      split; [reflexivity|].
      intros _ Hge; exfalso; exact (Qlt_not_le _ _ E2 Hge).
    + apply Qltb_ge in E1. apply Qltb_ge in E2.
      split; [intros Hlt; exfalso; exact (Qlt_not_le _ _ Hlt E1)|].
      split; [|reflexivity].
      intros _ Hlt; exfalso; exact (Qlt_not_le _ _ Hlt E2).
Qed.

(** C5.  A Susceptible cell none of whose neighbours (the cells of the
    clipped Moore neighbourhood other than itself) is Infected in the
    pre-update array is Susceptible after [update()], for all draws that
    are at least 0 (a draw equal to 0 included). *)
Theorem susceptible_isolated_stays (self : Simulation) (c : nat) (i j : Z) :
  shaped (width self) (height self) (state self) ->
  0 <= i < width self -> 0 <= j < height self ->
  getitem (state self) i j = Ok SUSCEPTIBLE ->
  (forall i' j',
     Z.max (i - 1) 0 <= i' <= Z.min (i + 1) (width self - 1) ->
     Z.max (j - 1) 0 <= j' <= Z.min (j + 1) (height self - 1) ->
     (i', j') <> (i, j) -> getitem (state self) i' j' <> Ok INFECTED) ->
  (forall n, (0 <= uniform n)%Q) ->
  exists s' c',
    update uniform self c = Ok (s', c') /\
    getitem (state s') i j = Ok SUSCEPTIBLE.
Proof.
  intros Hs Hi Hj Hget Hnone Hdraws.
  pose proof (num_infected_around_zero self (state self) i j Hs Hnone) as Hnum.
  destruct (update_spec self c Hs) as [ns [c' [Hrun [_ [_ Hcells]]]]].
  exists (set_day (set_state self ns) (day self + 1)), c'.
  split; [exact Hrun|]. simpl.
  destruct (Hcells i j Hi Hj) as [k [v [k' [_ [Hgns Hnew]]]]].
  rewrite (get_new_status_susceptible self (state self) i j 0 k Hget Hnum) in Hgns.
  rewrite float_mul_0, (float_gtb_zero _ _ (Hdraws k)) in Hgns.
  inversion Hgns; subst. exact Hnew.
Qed.

End UpdateProperties.

(** ** Seeding *)

Section SeedingProperties.

Variable integer : nat -> Z.

Lemma infect_randomly_unfold (self : Simulation) (num : Z) :
  infect_randomly integer self num = for_each (range 0 num) (infect_body integer) self.
Proof. reflexivity. Qed.

Lemma infect_body_inv (x : Z) (s : Simulation) (c : nat) (s' : Simulation)
      (c' : nat) :
  infect_body integer x s c = Ok (s', c') ->
  0 < width s /\ 0 < height s /\ c' = S (S c) /\
  exists g',
    setitem (state s) (integer c mod width s) (integer (S c) mod height s)
            INFECTED = Ok g' /\
    s' = set_state s g'.
Proof.
  unfold infect_body, bind, randint, lift, ret. intros H.
  destruct (width s <=? 0) eqn:Ew; [discriminate|].
  destruct (height s <=? 0) eqn:Eh; [discriminate|].
  apply Z.leb_gt in Ew. apply Z.leb_gt in Eh.
  destruct (setitem (state s) (integer c mod width s)
              (integer (S c) mod height s) INFECTED) as [g'|e] eqn:Eset;
    [|discriminate].
  inversion H; subst. repeat split; try assumption. exists g'. split; reflexivity.
Qed.

Lemma infect_body_ok (x : Z) (s : Simulation) (c : nat) (g' : grid) :
  0 < width s -> 0 < height s ->
  setitem (state s) (integer c mod width s) (integer (S c) mod height s)
          INFECTED = Ok g' ->
  infect_body integer x s c = Ok (set_state s g', S (S c)).
Proof.
  intros Hw Hh Hset. unfold infect_body, bind, randint, lift, ret.
  replace (width s <=? 0) with false by (symmetry; apply Z.leb_gt; lia).
  replace (height s <=? 0) with false by (symmetry; apply Z.leb_gt; lia).
  rewrite Hset. reflexivity.
Qed.

Lemma infect_randomly_valid (s : Simulation) (num : Z) (c : nat)
      (s' : Simulation) (c' : nat) :
  valid s -> infect_randomly integer s num c = Ok (s', c') -> valid s'.
Proof.
  intros Hv Hrun. rewrite infect_randomly_unfold in Hrun.
  revert Hrun Hv. apply for_each_preserves.
  clear. intros x s1 c1 s2 c2 Hbody [Hs Hall].
  apply infect_body_inv in Hbody as [Hw [Hh [_ [g' [Hset ->]]]]].
  pose proof (Z.mod_pos_bound (integer c1) (width s1) Hw) as Hi.
  pose proof (Z.mod_pos_bound (integer (S c1)) (height s1) Hh) as Hj.
  destruct (setitem_inb _ _ (state s1) _ _ INFECTED Hs Hi Hj)
    as [g2 [Hset2 [Hs2 [Hget Hother]]]].
  rewrite Hset in Hset2. inversion Hset2; subst g2. clear Hset2.
  split; simpl; [exact Hs2|].
  apply (Forall_cells status_ok _ _ g' Hs2). intros a b v Ha Hb Hv.
  destruct (Z.eq_dec a (integer c1 mod width s1)) as [->|Ha'].
  - destruct (Z.eq_dec b (integer (S c1) mod height s1)) as [->|Hb'].
    + rewrite Hget in Hv. inversion Hv. right. left. reflexivity.
    + rewrite Hother in Hv by (try assumption; congruence).
      exact (cells_Forall status_ok _ _ (state s1) _ _ v Hs Hall Ha Hb Hv).
  - rewrite Hother in Hv by (try assumption; congruence).
    exact (cells_Forall status_ok _ _ (state s1) _ _ v Hs Hall Ha Hb Hv).
Qed.

Lemma infect_randomly_day (s : Simulation) (num : Z) (c : nat)
      (s' : Simulation) (c' : nat) :
  infect_randomly integer s num c = Ok (s', c') -> day s' = day s.
Proof.
  intros Hrun. rewrite infect_randomly_unfold in Hrun.
  eapply (for_each_preserves (fun s1 => day s1 = day s));
    [|exact Hrun|reflexivity].
  intros x s1 c1 s2 c2 Hbody Hday.
  apply infect_body_inv in Hbody as [_ [_ [_ [g' [_ ->]]]]]. exact Hday.
Qed.

(** With a non-empty grid, seeding raises nothing; it consumes two draws per
    iteration, writes [INFECTED] at the coordinates drawn and nothing
    anywhere else. *)
Lemma infect_randomly_spec (s : Simulation) (num : Z) (c : nat) :
  shaped (width s) (height s) (state s) -> 0 < width s -> 0 < height s ->
  exists g',
    infect_randomly integer s num c =
      Ok (set_state s g', (c + 2 * Z.to_nat num)%nat) /\
    shaped (width s) (height s) g' /\
    (forall a b, 0 <= a < width s -> 0 <= b < height s ->
       ((exists k, (k < Z.to_nat num)%nat /\
                   selected integer (width s) (height s) c k = (a, b)) /\
        getitem g' a b = Ok INFECTED) \/
       ((forall k, (k < Z.to_nat num)%nat ->
                   selected integer (width s) (height s) c k <> (a, b)) /\
        getitem g' a b = getitem (state s) a b)).
Proof.
  intros Hs Hw Hh. rewrite infect_randomly_unfold.
  destruct (for_each_inv
    (fun done s1 c1 =>
       exists g1, s1 = set_state s g1 /\
         shaped (width s) (height s) g1 /\
         c1 = (c + 2 * length done)%nat /\
         (forall a b, 0 <= a < width s -> 0 <= b < height s ->
            ((exists k, (k < length done)%nat /\
                        selected integer (width s) (height s) c k = (a, b)) /\
             getitem g1 a b = Ok INFECTED) \/
            ((forall k, (k < length done)%nat ->
                        selected integer (width s) (height s) c k <> (a, b)) /\
             getitem g1 a b = getitem (state s) a b)))
    (range 0 num) (infect_body integer) s c)
    as [s' [c' [Hrun [g' [-> [Hs' [-> Hcells]]]]]]].
  - exists (state s). rewrite set_state_self.
    split; [reflexivity|split; [exact Hs|split; [simpl; lia|]]].
    intros a b _ _. right. split; [|reflexivity].
    simpl. intros k Hk. lia.
  - intros done x s1 c1 [g1 [-> [Hs1 [-> Hcells]]]] _.
    set (c1 := (c + 2 * length done)%nat).
    pose proof (Z.mod_pos_bound (integer c1) (width s) Hw) as Hi.
    pose proof (Z.mod_pos_bound (integer (S c1)) (height s) Hh) as Hj.
    destruct (setitem_inb _ _ g1 _ _ INFECTED Hs1 Hi Hj)
      as [g2 [Hset [Hs2 [Hget Hother]]]].
    exists (set_state s g2), (S (S c1)). split.
    + rewrite <- (set_state_set_state s g1 g2).
      apply infect_body_ok; simpl; assumption.
    + exists g2. split; [reflexivity|split; [exact Hs2|split]].
      * rewrite length_app. simpl. subst c1. lia.
      * intros a b Ha Hb. rewrite length_app. simpl.
        destruct (Z.eq_dec a (integer c1 mod width s)) as [Ea|Ea];
          [destruct (Z.eq_dec b (integer (S c1) mod height s)) as [Eb|Eb]|].
        -- left. subst a b. split; [|exact Hget].
           exists (length done). split; [lia|reflexivity].
        -- rewrite Hother by (try assumption; congruence).
           destruct (Hcells a b Ha Hb) as [[[k [Hk Hsel]] Hinf]|[Hnone Hsame]].
           ++ left. split; [|exact Hinf]. exists k. split; [lia|exact Hsel].
           ++ right. split; [|exact Hsame]. intros k Hk.
              destruct (Nat.eq_dec k (length done)) as [->|Hne];
                [|apply Hnone; lia].
              unfold selected. fold c1. congruence.
        -- rewrite Hother by (try assumption; congruence).
           destruct (Hcells a b Ha Hb) as [[[k [Hk Hsel]] Hinf]|[Hnone Hsame]].
           ++ left. split; [|exact Hinf]. exists k. split; [lia|exact Hsel].
           ++ right. split; [|exact Hsame]. intros k Hk.
              destruct (Nat.eq_dec k (length done)) as [->|Hne];
                [|apply Hnone; lia].
              unfold selected. fold c1. congruence.
  - exists g'. rewrite length_range, Z.sub_0_r in Hcells.
    split; [|split; [exact Hs'|exact Hcells]].
    rewrite Hrun. rewrite length_range, Z.sub_0_r. reflexivity.
Qed.

(** C8 (amended).  On a grid with positive width and height,
    [infect_randomly(count)] raises nothing for any [count], whether or not
    it exceeds width * height, and keeps the array's shape; afterwards a
    cell is Infected exactly when it was Infected before the call or its
    coordinates were drawn by one of the [count] iterations. *)
Theorem infect_randomly_safe (s : Simulation) (count : Z) (c : nat) :
  shaped (width s) (height s) (state s) -> 0 < width s -> 0 < height s ->
  exists g' c',
    infect_randomly integer s count c = Ok (set_state s g', c') /\
    shaped (width s) (height s) g' /\
    (forall a b, 0 <= a < width s -> 0 <= b < height s ->
       (getitem g' a b = Ok INFECTED <->
        getitem (state s) a b = Ok INFECTED \/
        exists k, (k < Z.to_nat count)%nat /\
                  selected integer (width s) (height s) c k = (a, b))).
Proof.
  intros Hs Hw Hh.
  destruct (infect_randomly_spec s count c Hs Hw Hh) as [g' [Hrun [Hs' Hcells]]].
  exists g', (c + 2 * Z.to_nat count)%nat.
  split; [exact Hrun|split; [exact Hs'|]].
  intros a b Ha Hb.
  destruct (Hcells a b Ha Hb) as [[Hsel Hinf]|[Hnone Hsame]].
  - split; [intros _; right; exact Hsel|intros _; exact Hinf].
  - rewrite Hsame. split; [intros H; left; exact H|].
    intros [H|[k [Hk Hsel]]]; [exact H|]. exfalso. exact (Hnone k Hk Hsel).
Qed.

(** C10.  [infect_randomly] writes [INFECTED] at every coordinate it draws,
    whatever the cell held: after the call each drawn cell is Infected, with
    no condition on its earlier status; on a 1x1 grid one iteration turns
    the only cell, whatever its status [v] (Recovered and Dead included),
    into Infected. *)
Theorem infect_randomly_unconditional :
  (forall s num c,
     shaped (width s) (height s) (state s) -> 0 < width s -> 0 < height s ->
     exists s' c',
       infect_randomly integer s num c = Ok (s', c') /\
       forall k a b,
         (k < Z.to_nat num)%nat ->
         selected integer (width s) (height s) c k = (a, b) ->
         getitem (state s') a b = Ok INFECTED) /\
  (forall dy r p d v c,
     infect_randomly integer (mkSimulation dy 1 1 r p d [[v]]) 1 c =
     Ok (mkSimulation dy 1 1 r p d [[INFECTED]], S (S c))).
Proof.
  split.
  - intros s num c Hs Hw Hh.
    destruct (infect_randomly_spec s num c Hs Hw Hh) as [g' [Hrun [Hs' Hcells]]].
    exists (set_state s g'), (c + 2 * Z.to_nat num)%nat.
    split; [exact Hrun|]. simpl. intros k a b Hk Hsel.
    assert (Ha : 0 <= a < width s).
    { unfold selected in Hsel. inversion Hsel. apply Z.mod_pos_bound. exact Hw. }
    assert (Hb : 0 <= b < height s).
    { unfold selected in Hsel. inversion Hsel. apply Z.mod_pos_bound. exact Hh. }
    destruct (Hcells a b Ha Hb) as [[_ Hinf]|[Hnone _]]; [exact Hinf|].
    exfalso. exact (Hnone k Hk Hsel).
  - intros dy r p d v c. rewrite infect_randomly_unfold.
    change (range 0 1) with [0].
    erewrite for_each_cons; [reflexivity|].
    apply infect_body_ok; simpl; try lia.
    rewrite !Z.mod_1_r. reflexivity.
Qed.

End SeedingProperties.

(** ** Reachable states, the clock and the percentages *)

Section EngineProperties.

Context {numpy : Numpy}.
Variable uniform : nat -> Q.
Variable integer : nat -> Z.

Lemma reachable_valid (s : Simulation) :
  reachable uniform integer s -> valid s.
Proof.
  induction 1 as [w h r i d s Hinit | s num c s' c' _ IH Hrun | s c s' c' _ IH Hrun].
  - apply init_valid in Hinit. tauto.
  - eapply infect_randomly_valid; eauto.
  - eapply update_valid; eauto.
Qed.

(** C6.  The day counter is 0 after construction; every [update()] adds
    exactly 1 to it; [infect_randomly] and [get_percentage_status] leave it
    as it is; and [k] successive calls of [update()] on a freshly
    constructed engine, seeded or not, all return and leave the counter at
    [k], whatever the draws are. *)
Theorem day_counter (w h : Z) (r p d : Q) (s0 : Simulation) :
  init w h r p d = Ok s0 ->
  day s0 = 0 /\
  (forall k c, exists s' c',
     run_updates uniform k s0 c = Ok (s', c') /\ day s' = Z.of_nat k) /\
  (forall num c0 s1 c1,
     infect_randomly integer s0 num c0 = Ok (s1, c1) ->
     forall k, exists s' c',
       run_updates uniform k s1 c1 = Ok (s', c') /\ day s' = Z.of_nat k) /\
  (forall s c s' c', update uniform s c = Ok (s', c') -> day s' = day s + 1) /\
  (forall s num c s' c',
     infect_randomly integer s num c = Ok (s', c') -> day s' = day s) /\
  (forall s res s', get_percentage_status s = Ok (res, s') -> day s' = day s).
Proof.
  intros Hinit. destruct (init_valid _ _ _ _ _ _ Hinit) as [_ [_ [Heq Hv]]].
  assert (Hday0 : day s0 = 0) by (rewrite Heq; reflexivity).
  split; [exact Hday0|]. split; [|split; [|split; [|split]]].
  - intros k c. destruct (run_updates_total uniform k s0 c Hv) as [s' [c' [Hrun [Hday _]]]].
    exists s', c'. split; [exact Hrun|]. lia.
  - intros num c0 s1 c1 Hseed k.
    pose proof (infect_randomly_valid integer _ _ _ _ _ Hv Hseed) as Hv1.
    pose proof (infect_randomly_day integer _ _ _ _ _ Hseed) as Hday1.
    destruct (run_updates_total uniform k s1 c1 Hv1) as [s' [c' [Hrun [Hday _]]]].
    exists s', c'. split; [exact Hrun|]. lia.
  - exact (update_day uniform).
  - exact (infect_randomly_day integer).
  - intros s res s' H. apply get_percentage_status_self in H. subst. reflexivity.
Qed.

(** C7 (amended).  On every reachable engine state with positive width and
    height (and fewer than [2 ^ 53 / 100] cells, so that the counts are
    exact as floats), and with either kind of count,
    [get_percentage_status] raises nothing and returns, for each of the
    four statuses, the float that IEEE 754 division (to nearest, ties to
    even) gives for 100 * (number of cells holding the status) /
    (width * height); the four exact quotients sum to 100; and the engine
    state it leaves is the one it was called on. *)
Theorem percentage_status_rounded (s : Simulation) :
  reachable uniform integer s -> 0 < width s -> 0 < height s ->
  100 * (width s * height s) < 2 ^ 53 ->
  get_percentage_status s =
    Ok ([ ("susceptible"%string, percent_of SUSCEPTIBLE s);
          ("infected"%string, percent_of INFECTED s);
          ("recovered"%string, percent_of RECOVERED s);
          ("dead"%string, percent_of DEAD s) ], s) /\
  (exact_percent SUSCEPTIBLE s + exact_percent INFECTED s +
   exact_percent RECOVERED s + exact_percent DEAD s == 100)%Q.
Proof.
  intros Hreach Hw Hh _.
  destruct (reachable_valid s Hreach) as [Hs Hall].
  split.
  - apply get_percentage_status_value. nia.
  - unfold exact_percent. apply percentages_sum; [nia|].
    apply cells_with_total; [lia|lia|exact Hs|exact Hall].
Qed.

End EngineProperties.


(** * Instances *)

Lemma shaped_graveyard :
  shaped (width graveyard) (height graveyard) (state graveyard).
Proof. split; [reflexivity|repeat constructor]. Defined.

Lemma shaped_patient : shaped (width patient) (height patient) (state patient).
Proof. split; [reflexivity|repeat constructor]. Defined.

Lemma shaped_line3 (d : Q) :
  shaped (width (line3 d)) (height (line3 d)) (state (line3 d)).
Proof. split; [reflexivity|repeat constructor]. Defined.

Lemma shaped_fresh2x1 :
  shaped (width fresh2x1) (height fresh2x1) (state fresh2x1).
Proof. split; [reflexivity|repeat constructor]. Defined.

Lemma always_half_unit (n : nat) : (0 <= always_Q (1 # 2) n < 1)%Q.
Proof. split; unfold always_Q, Qle, Qlt; simpl; lia. Defined.

Lemma always_zero_nonneg (n : nat) : (0 <= always_Q 0 n)%Q.
Proof. unfold always_Q, Qle; simpl; lia. Defined.

Lemma update_reads_snapshot_witness :
  (exists c',
     update (always_Q (1 # 2)) (line3 0) 0%nat =
     Ok (mkSimulation 1 1 3 1 1 0 [[RECOVERED; INFECTED; SUSCEPTIBLE]], c')) /\
  (exists ns c',
     update (always_Q (1 # 2)) graveyard 0%nat =
       Ok (set_day (set_state graveyard ns) (day graveyard + 1), c') /\
     forall i j, 0 <= i < width graveyard -> 0 <= j < height graveyard ->
       exists ci v ci',
         (0 <= ci)%nat /\
         get_new_status (always_Q (1 # 2)) graveyard (state graveyard) i j ci =
           Ok (v, ci') /\
         getitem ns i j = Ok v).
Proof.
  split.
  - apply (proj1 (update_reads_snapshot (always_Q (1 # 2))) 0%Q 0%nat).
    exact always_half_unit.
  - apply (proj2 (update_reads_snapshot (always_Q (1 # 2))) graveyard 0%nat).
    exact shaped_graveyard.
Defined.

Lemma terminal_absorbing_witness :
  exists s' c',
    update (always_Q 0) graveyard 0%nat = Ok (s', c') /\
    getitem (state s') 0 0 = Ok DEAD.
Proof.
  apply (terminal_absorbing (always_Q 0) graveyard 0%nat 0 0 DEAD).
  - exact shaped_graveyard.
  - simpl; lia.
  - simpl; lia.
  - reflexivity.
  - left; reflexivity.
Defined.

Lemma infected_rule_witness :
  get_new_status (always_Q 0) patient (state patient) 0 0 7%nat =
    Ok (RECOVERED, 8%nat) /\
  get_new_status (always_Q (1 # 2)) patient (state patient) 0 0 7%nat =
    Ok (INFECTED, 9%nat).
Proof.
  split.
  - exact (proj1 (infected_rule (always_Q 0) patient 0%nat 0 0 shaped_patient
                    ltac:(simpl; lia) ltac:(simpl; lia) eq_refl) 7%nat).
  - exact (proj1 (infected_rule (always_Q (1 # 2)) patient 0%nat 0 0 shaped_patient
                    ltac:(simpl; lia) ltac:(simpl; lia) eq_refl) 7%nat).
Defined.

Lemma neighbour_count_witness :
  exists nbrs : list (Z * Z),
    NoDup nbrs /\
    (forall i' j',
       In (i', j') nbrs <->
       Z.max (0 - 1) 0 <= i' <= Z.min (0 + 1) (width (line3 0) - 1) /\
       Z.max (1 - 1) 0 <= j' <= Z.min (1 + 1) (height (line3 0) - 1) /\
       (i', j') <> (0, 1) /\
       getitem (state (line3 0)) i' j' = Ok INFECTED) /\
    num_infected_around (line3 0) (state (line3 0)) 0 1 =
      Ok (Z.of_nat (length nbrs)).
Proof.
  apply (proj1 neighbour_count (line3 0) (state (line3 0)) 0 1).
  exact (shaped_line3 0).
Defined.

Lemma susceptible_isolated_stays_witness :
  exists s' c',
    update (always_Q 0) (line3 0) 0%nat = Ok (s', c') /\
    getitem (state s') 0 2 = Ok SUSCEPTIBLE.
Proof.
  apply (susceptible_isolated_stays (always_Q 0) (line3 0) 0%nat 0 2).
  - exact (shaped_line3 0).
  - simpl; lia.
  - simpl; lia.
  - reflexivity.
  - simpl. intros i' j' Hi Hj Hne.
    assert (Ei : i' = 0) by lia. subst i'.
    assert (Ej : j' = 1 \/ j' = 2) by lia.
    destruct Ej as [-> | ->]; [discriminate|].
    exfalso. apply Hne. reflexivity.
  - exact always_zero_nonneg.
Defined.

Lemma day_counter_witness :
  day fresh2x1 = 0 /\
  exists s' c',
    run_updates (always_Q (1 # 2)) 5%nat fresh2x1 0%nat = Ok (s', c') /\ day s' = 5.
Proof.
  pose proof (day_counter (numpy := numpy_int) (always_Q (1 # 2)) (always_Z 0)
                2 1 (1 # 10) (1 # 5) (1 # 20) fresh2x1 eq_refl) as [H0 [Hk _]].
  split; [exact H0|]. exact (Hk 5%nat 0%nat).
Defined.

Lemma reachable_fresh2x1 :
  reachable (always_Q (1 # 2)) (always_Z 0) fresh2x1.
Proof.
  apply (reach_init _ _ 2 1 (1 # 10) (1 # 5) (1 # 20)). reflexivity.
Defined.

Lemma reachable_settled1x6 :
  reachable settling_draws seeding_draws settled1x6.
Proof.
  apply (reach_update _ _ seeded1x6 10%nat _ 17%nat); [|reflexivity].
  apply (reach_infect _ _ fresh1x6 5 0%nat _ 10%nat); [|reflexivity].
  apply (reach_init _ _ 1 6 (1 # 2) 0 1). reflexivity.
Defined.

Lemma percentage_status_rounded_witness :
  get_percentage_status (numpy := numpy_scalar) settled1x6 =
    Ok ([ ("susceptible"%string, percent_of SUSCEPTIBLE settled1x6);
          ("infected"%string, percent_of INFECTED settled1x6);
          ("recovered"%string, percent_of RECOVERED settled1x6);
          ("dead"%string, percent_of DEAD settled1x6) ], settled1x6) /\
  (exact_percent SUSCEPTIBLE settled1x6 + exact_percent INFECTED settled1x6 +
   exact_percent RECOVERED settled1x6 + exact_percent DEAD settled1x6 == 100)%Q.
Proof.
  exact (percentage_status_rounded (numpy := numpy_scalar)
           settling_draws seeding_draws settled1x6
           reachable_settled1x6 ltac:(simpl; lia) ltac:(simpl; lia)
           ltac:(simpl; lia)).
Defined.

(** C7, as stated, fails.  On the 1x6 grid reached by seeding five cells
    and one day, with one Susceptible, four Recovered and one Dead cell,
    the value returned for Recovered is the float 66.66666666666667, which
    is not 400/6; the four values returned, added as rationals, do not give
    100; and added as floats, in the order of the dictionary, they give
    100.00000000000001. *)
Lemma percentages_not_exact :
  reachable settling_draws seeding_draws settled1x6 /\
  0 < width settled1x6 /\ 0 < height settled1x6 /\
  (forall numpy : Numpy,
     get_percentage_status settled1x6 =
     Ok ([ ("susceptible"%string, S754_finite false 4691249611844267 (-48));
           ("infected"%string, S754_zero false);
           ("recovered"%string, S754_finite false 4691249611844267 (-46));
           ("dead"%string, S754_finite false 4691249611844267 (-48)) ],
         settled1x6)) /\
  cells_with (state settled1x6) RECOVERED = 4 /\
  ~ (float_value false 4691249611844267 (-46) ==
     inject_Z (100 * 4) / inject_Z (1 * 6))%Q /\
  ~ (float_value false 4691249611844267 (-48) + 0 +
     float_value false 4691249611844267 (-46) +
     float_value false 4691249611844267 (-48) == 100)%Q /\
  float_add
    (float_add
       (float_add (S754_finite false 4691249611844267 (-48)) (S754_zero false))
       (S754_finite false 4691249611844267 (-46)))
    (S754_finite false 4691249611844267 (-48)) =
  S754_finite false 7036874417766401 (-46) /\
  ~ (float_value false 7036874417766401 (-46) == 100)%Q.
Proof.
  split; [exact reachable_settled1x6|].
  split; [reflexivity|]. split; [reflexivity|].
  split; [intros [[|]]; reflexivity|].
  split; [reflexivity|].
  split; [intros H; vm_compute in H; discriminate|].
  split; [intros H; vm_compute in H; discriminate|].
  split; [reflexivity|].
  intros H; vm_compute in H; discriminate.
Qed.

Lemma infect_randomly_safe_witness :
  exists g' c',
    infect_randomly (always_Z 0) fresh2x1 3 0%nat = Ok (set_state fresh2x1 g', c') /\
    shaped 2 1 g' /\
    (forall a b, 0 <= a < 2 -> 0 <= b < 1 ->
       (getitem g' a b = Ok INFECTED <->
        getitem (state fresh2x1) a b = Ok INFECTED \/
        exists k, (k < Z.to_nat 3)%nat /\ selected (always_Z 0) 2 1 0%nat k = (a, b))).
Proof.
  apply (infect_randomly_safe (always_Z 0) fresh2x1 3 0%nat).
  - exact shaped_fresh2x1.
  - simpl; lia.
  - simpl; lia.
Defined.

(** C8, as stated, fails: three draws on a 2x1 grid (3 > 2 * 1) that all
    fall on cell [(0, 0)] leave cell [(1, 0)] Susceptible. *)
Lemma infect_randomly_not_full :
  shaped (width fresh2x1) (height fresh2x1) (state fresh2x1) /\
  0 < width fresh2x1 /\ 0 < height fresh2x1 /\
  3 > width fresh2x1 * height fresh2x1 /\
  infect_randomly (always_Z 0) fresh2x1 3 0%nat =
    Ok (set_state fresh2x1 [[INFECTED]; [SUSCEPTIBLE]], 6%nat) /\
  getitem [[INFECTED]; [SUSCEPTIBLE]] 1 0 = Ok SUSCEPTIBLE /\
  SUSCEPTIBLE <> INFECTED.
Proof.
  split; [exact shaped_fresh2x1|].
  repeat split; try reflexivity; try discriminate.
Qed.

Lemma init_construction_witness :
  init (-1) 3 (1 # 10) (1 # 5) (1 # 20) = Raise ValueError /\
  (exists s,
     init 0 5 (1 # 10) (1 # 5) (1 # 20) = Ok s /\ day s = 0 /\
     width s = 0 /\ height s = 5 /\ concat (state s) = []) /\
  init (2 ^ 63) 0 (1 # 10) (1 # 5) (1 # 20) = Raise ValueError.
Proof.
  split; [|split].
  - apply (proj1 (init_construction (-1) 3 (1 # 10) (1 # 5) (1 # 20))).
    left; lia.
  - apply (proj1 (proj2 (init_construction 0 5 (1 # 10) (1 # 5) (1 # 20)))).
    + lia.
    + lia.
    + left; reflexivity.
    + unfold NPY_MAX_INTP; lia.
  - apply (proj2 (proj2 (init_construction (2 ^ 63) 0 (1 # 10) (1 # 5) (1 # 20)))).
    + lia.
    + lia.
    + right; reflexivity.
    + unfold NPY_MAX_INTP; lia.
Defined.

(** C9, as stated, fails: construction with width 0 raises nothing and
    returns an engine whose grid has no rows. *)
Lemma init_zero_width_succeeds :
  0 <= 0 /\
  init 0 5 (1 # 10) (1 # 5) (1 # 20) =
  Ok (mkSimulation 0 0 5 (1 # 10) (1 # 5) (1 # 20) []).
Proof. split; [lia|reflexivity]. Qed.

Lemma infect_randomly_unconditional_witness :
  exists s' c',
    infect_randomly (always_Z 1) graveyard 1 0%nat = Ok (s', c') /\
    forall k a b,
      (k < Z.to_nat 1)%nat ->
      selected (always_Z 1) (width graveyard) (height graveyard) 0%nat k = (a, b) ->
      getitem (state s') a b = Ok INFECTED.
Proof.
  apply (proj1 (infect_randomly_unconditional (always_Z 1)) graveyard 1 0%nat).
  - exact shaped_graveyard.
  - simpl; lia.
  - simpl; lia.
Defined.

(** * Further properties of the engine *)

(** ** The colour view *)

Lemma mask_assign_row_map (f : Z -> colour) (row : list Z) (k : Z) (c : colour) :
  mask_assign_row (map f row) (map (fun v => v =? k) row) c =
  Ok (map (fun v => if v =? k then c else f v) row).
Proof.
  induction row as [|x row IH]; simpl; [reflexivity|].
  rewrite IH. reflexivity.
Qed.

Lemma mask_assign_map (f : Z -> colour) (g : grid) (k : Z) (c : colour) :
  mask_assign (map (map f) g) (eq_mask g k) c =
  Ok (map (map (fun v => if v =? k then c else f v)) g).
Proof.
  unfold eq_mask. induction g as [|row g IH]; simpl; [reflexivity|].
  rewrite mask_assign_row_map. simpl. rewrite IH. reflexivity.
Qed.

Lemma np_zeros3_shaped (w h : Z) (g : grid) :
  shaped w h g -> 0 <= w -> 0 <= h -> array_too_big [w; h; 3] = false ->
  np_zeros3 w h = Ok (map (map (fun _ => (0, 0, 0))) g).
Proof.
  intros [Hlen Hrows] Hw Hh Hb. unfold np_zeros3. rewrite Hb.
  replace (w <? 0) with false by (symmetry; apply Z.ltb_ge; lia).
  replace (h <? 0) with false by (symmetry; apply Z.ltb_ge; lia).
  cbn [orb]. f_equal. rewrite <- Hlen. clear Hlen.
  induction Hrows as [|row g Hrow _ IH]; simpl; [reflexivity|].
  rewrite IH. f_equal. rewrite <- Hrow. clear.
  induction row as [|x row IH]; simpl; [reflexivity|]. rewrite IH. reflexivity.
Qed.

Lemma status_colour_layers (v : Z) :
  (if v =? DEAD then (0, 0, 0)
   else if v =? RECOVERED then (0, 0, 255)
   else if v =? INFECTED then (255, 0, 0)
   else if v =? SUSCEPTIBLE then (0, 255, 0)
   else (0, 0, 0)) = status_colour v.
Proof.
  unfold status_colour, DEAD, RECOVERED, INFECTED, SUSCEPTIBLE.
  destruct (Z.eqb_spec v 3), (Z.eqb_spec v 2), (Z.eqb_spec v 1), (Z.eqb_spec v 0);
    try reflexivity; lia.
Qed.

Lemma get_rgb_matrix_too_big (self : Simulation) :
  array_too_big [width self; height self; 3] = true ->
  get_rgb_matrix self = Throws (EngineError ValueError).
Proof.
  intros Hb. unfold get_rgb_matrix, np_zeros3. rewrite Hb, !orb_true_r.
  reflexivity.
Qed.

Lemma get_rgb_matrix_spec (self : Simulation) :
  shaped (width self) (height self) (state self) ->
  0 <= width self -> 0 <= height self ->
  array_too_big [width self; height self; 3] = false ->
  get_rgb_matrix self = Returns (map (map status_colour) (state self)).
Proof.
  intros Hs Hw Hh Hb. unfold get_rgb_matrix.
  rewrite (np_zeros3_shaped _ _ _ Hs Hw Hh Hb). cbn [of_result bindO].
  cbn [forO STATUSES]. cbn [dict_get COLOURMAP COLOURMAP_RGB String.eqb Ascii.eqb
                             Bool.eqb bindO].
  rewrite mask_assign_map. cbn [of_result bindO].
  rewrite mask_assign_map. cbn [of_result bindO].
  rewrite mask_assign_map. cbn [of_result bindO].
  rewrite mask_assign_map. cbn [of_result bindO].
  f_equal. apply map_ext. intros row. apply map_ext. intros v.
  apply status_colour_layers.
Qed.

Lemma status_colour_inj (u v : Z) :
  status_ok u -> status_ok v -> status_colour u = status_colour v -> u = v.
Proof.
  unfold status_ok, SUSCEPTIBLE, INFECTED, RECOVERED, DEAD.
  intros [ -> | [ -> | [ -> | -> ] ] ] [ -> | [ -> | [ -> | -> ] ] ];
    intros H; try reflexivity; discriminate H.
Qed.

Lemma map_inj_on {A B : Type} (P : A -> Prop) (f : A -> B) (l1 l2 : list A) :
  (forall x y, P x -> P y -> f x = f y -> x = y) ->
  Forall P l1 -> Forall P l2 -> map f l1 = map f l2 -> l1 = l2.
Proof.
  intros Hinj H1. revert l2.
  induction H1 as [|x l1 Hx _ IH]; intros l2 H2 Heq; destruct l2 as [|y l2];
    simpl in Heq; try discriminate; [reflexivity|].
  inversion H2; subst. inversion Heq.
  f_equal; [apply Hinj; assumption|apply IH; assumption].
Qed.

(** X1.  On a grid of the recorded shape whose colour array passes the
    size check of [np.zeros], [get_rgb_matrix] raises nothing and returns
    the array of the same shape whose cells are the colours of the
    statuses: green for Susceptible, red for Infected, blue for Recovered,
    black for Dead, and black as well for any other code.  When the colour
    array fails the size check, which three times the size of a grid of
    zero size but many rows can do, the method raises [ValueError]. *)
Theorem rgb_matrix_colours (self : Simulation) :
  shaped (width self) (height self) (state self) ->
  0 <= width self -> 0 <= height self ->
  (array_too_big [width self; height self; 3] = false ->
   get_rgb_matrix self = Returns (map (map status_colour) (state self))) /\
  (array_too_big [width self; height self; 3] = true ->
   get_rgb_matrix self = Throws (EngineError ValueError)) /\
  status_colour SUSCEPTIBLE = (0, 255, 0) /\
  status_colour INFECTED = (255, 0, 0) /\
  status_colour RECOVERED = (0, 0, 255) /\
  status_colour DEAD = (0, 0, 0) /\
  (forall v, ~ status_ok v -> status_colour v = (0, 0, 0)).
Proof.
  intros Hs Hw Hh. split; [apply get_rgb_matrix_spec; assumption|].
  split; [apply get_rgb_matrix_too_big|].
  repeat split. intros v Hv. unfold status_colour.
  destruct (Z.eqb_spec v SUSCEPTIBLE) as [->|_]; [exfalso; apply Hv; left; reflexivity|].
  destruct (Z.eqb_spec v INFECTED) as [->|_];
    [exfalso; apply Hv; right; left; reflexivity|].
  destruct (Z.eqb_spec v RECOVERED) as [->|_];
    [exfalso; apply Hv; right; right; left; reflexivity|].
  reflexivity.
Qed.

(** X2.  The colour view loses nothing on well-formed states: two states
    holding only status codes that have the same colour view have the same
    grid. *)
Theorem rgb_matrix_injective (s1 s2 : Simulation) (m : rgb_array) :
  valid s1 -> valid s2 ->
  0 <= width s1 -> 0 <= height s1 -> 0 <= width s2 -> 0 <= height s2 ->
  get_rgb_matrix s1 = Returns m -> get_rgb_matrix s2 = Returns m ->
  state s1 = state s2.
Proof.
  intros [Hs1 Hv1] [Hs2 Hv2] Hw1 Hh1 Hw2 Hh2 H1 H2.
  destruct (array_too_big [width s1; height s1; 3]) eqn:Hb1;
    [rewrite (get_rgb_matrix_too_big s1 Hb1) in H1; discriminate|].
  destruct (array_too_big [width s2; height s2; 3]) eqn:Hb2;
    [rewrite (get_rgb_matrix_too_big s2 Hb2) in H2; discriminate|].
  rewrite (get_rgb_matrix_spec s1 Hs1 Hw1 Hh1 Hb1) in H1.
  rewrite (get_rgb_matrix_spec s2 Hs2 Hw2 Hh2 Hb2) in H2.
  inversion H1 as [E1]. inversion H2 as [E2]. rewrite <- E2 in E1. clear -E1 Hv1 Hv2.
  revert E1. apply (map_inj_on (Forall status_ok)); [|exact Hv1|exact Hv2].
  intros r1 r2 Hr1 Hr2. apply (map_inj_on status_ok); [|exact Hr1|exact Hr2].
  exact status_colour_inj.
Qed.

(** ** Arrays compared cell by cell *)

Lemma Forall2_nth_error_intro {A B : Type} (R : A -> B -> Prop)
      (l : list A) (l' : list B) :
  length l = length l' ->
  (forall n x y, nth_error l n = Some x -> nth_error l' n = Some y -> R x y) ->
  Forall2 R l l'.
Proof.
  revert l'. induction l as [|x l IH]; intros [|y l'] Hlen Hnth;
    simpl in Hlen; try discriminate; constructor.
  - apply (Hnth O); reflexivity.
  - apply IH; [lia|]. intros n a b Ha Hb. apply (Hnth (S n)); assumption.
Qed.

Lemma getitem_nth_error (w h : Z) (g : grid) (n m : nat) (row : list Z) (v : Z) :
  shaped w h g -> nth_error g n = Some row -> nth_error row m = Some v ->
  0 <= Z.of_nat n < w /\ 0 <= Z.of_nat m < h /\
  getitem g (Z.of_nat n) (Z.of_nat m) = Ok v.
Proof.
  intros Hs Hn Hm. pose proof Hs as [Hlen Hrows].
  rewrite Forall_forall in Hrows.
  pose proof (Hrows row (nth_error_In _ _ Hn)) as Hrl.
  assert (Hnlt : (n < length g)%nat) by (apply nth_error_Some; congruence).
  assert (Hmlt : (m < length row)%nat) by (apply nth_error_Some; congruence).
  split; [lia|split; [lia|]].
  destruct (getitem_inb w h g (Z.of_nat n) (Z.of_nat m) Hs) as [row' [v' [Hr [Hc Hg]]]];
    [lia|lia|].
  rewrite Nat2Z.id in Hr, Hc. rewrite Hn in Hr. inversion Hr; subst row'.
  rewrite Hm in Hc. inversion Hc; subst v'. exact Hg.
Qed.

Lemma grid_Forall2 (R : Z -> Z -> Prop) (w h : Z) (g g' : grid) :
  shaped w h g -> shaped w h g' ->
  (forall i j v v', 0 <= i < w -> 0 <= j < h ->
     getitem g i j = Ok v -> getitem g' i j = Ok v' -> R v v') ->
  Forall2 (Forall2 R) g g'.
Proof.
  intros Hs Hs' Hcells.
  pose proof Hs as [Hlen Hrows]. pose proof Hs' as [Hlen' Hrows'].
  rewrite Forall_forall in Hrows, Hrows'.
  apply Forall2_nth_error_intro; [congruence|].
  intros n row row' Hn Hn'.
  apply Forall2_nth_error_intro.
  - rewrite (Hrows row (nth_error_In _ _ Hn)).
    rewrite (Hrows' row' (nth_error_In _ _ Hn')). reflexivity.
  - intros m v v' Hm Hm'.
    destruct (getitem_nth_error w h g n m row v Hs Hn Hm) as [Hi [Hj Hg]].
    destruct (getitem_nth_error w h g' n m row' v' Hs' Hn' Hm') as [_ [_ Hg']].
    exact (Hcells _ _ v v' Hi Hj Hg Hg').
Qed.

Lemma grid_ext (w h : Z) (g g' : grid) :
  shaped w h g -> shaped w h g' ->
  (forall i j, 0 <= i < w -> 0 <= j < h -> getitem g' i j = getitem g i j) ->
  g' = g.
Proof.
  intros Hs Hs' Hcells.
  assert (H : Forall2 (Forall2 eq) g' g).
  { apply (grid_Forall2 eq w h g' g Hs' Hs). intros i j v v' Hi Hj Hv Hv'.
    rewrite (Hcells i j Hi Hj) in Hv. congruence. }
  clear -H. induction H as [|row row' g' g Hrow _ IH]; [reflexivity|].
  f_equal; [|exact IH]. clear -Hrow.
  induction Hrow as [|x y r r' Hxy _ IH]; [reflexivity|]. f_equal; assumption.
Qed.

Lemma cells_with_le (u : Z) (g g' : grid) :
  Forall2 (Forall2 (fun v v' => v' = u -> v = u)) g g' ->
  cells_with g' u <= cells_with g u.
Proof.
  unfold cells_with. intros H.
  assert (G : (length (filter (fun c : Z => (c =? u)%Z) (concat g')) <=
               length (filter (fun c : Z => (c =? u)%Z) (concat g)))%nat); [|lia].
  induction H as [|row row' g g' Hrow _ IH]; simpl; [lia|].
  rewrite !filter_app, !length_app.
  assert (Hr : (length (filter (fun c : Z => (c =? u)%Z) row') <=
                length (filter (fun c : Z => (c =? u)%Z) row))%nat); [|lia].
  clear -Hrow. induction Hrow as [|x y r r' Hxy _ IH]; simpl; [lia|].
  destruct (Z.eqb_spec y u) as [Hy|Hy].
  - rewrite (Hxy Hy). rewrite Z.eqb_refl. simpl. lia.
  - destruct (x =? u); simpl; lia.
Qed.

(** ** Neighbour counts are small *)

Lemma num_infected_around_bound (self : Simulation) (st : grid) (i j : Z) :
  shaped (width self) (height self) st ->
  exists n, num_infected_around self st i j = Ok n /\ 0 <= n <= 8.
Proof.
  intros Hs. rewrite (num_infected_around_count self st i j Hs).
  eexists. split; [reflexivity|]. split; [lia|].
  pose (box := [(i - 1, j - 1); (i - 1, j); (i - 1, j + 1); (i, j - 1);
                (i, j + 1); (i + 1, j - 1); (i + 1, j); (i + 1, j + 1)]).
  match goal with |- Z.of_nat (length ?l) <= 8 =>
    assert (Hlen : (length l <= length box)%nat) end.
  { apply NoDup_incl_length.
    - apply NoDup_filter. apply NoDup_list_prod; apply NoDup_range.
    - intros [a b] Hin. apply filter_In in Hin as [Hin Hp].
      apply in_prod_iff in Hin as [Ha Hb].
      apply in_range in Ha. apply in_range in Hb.
      unfold infected_neighbour in Hp. simpl in Hp.
      apply andb_true_iff in Hp as [Hne _].
      apply negb_true_iff, andb_false_iff in Hne.
      rewrite !Z.eqb_neq in Hne.
      assert (Ea : a = i - 1 \/ a = i \/ a = i + 1) by lia.
      assert (Eb : b = j - 1 \/ b = j \/ b = j + 1) by lia.
      destruct Ea as [ -> | [ -> | -> ] ], Eb as [ -> | [ -> | -> ] ];
        simpl; tauto. }
  simpl in Hlen. lia.
Qed.

(** X3.  On a grid of the recorded shape [num_infected_around] raises
    nothing, for any coordinates, and returns a count between 0 and 8. *)
Theorem num_infected_around_at_most_8 (self : Simulation) (st : grid) (i j : Z) :
  shaped (width self) (height self) st ->
  exists n, num_infected_around self st i j = Ok n /\ 0 <= n <= 8.
Proof. exact (num_infected_around_bound self st i j). Qed.

(** ** More on one day *)

Section UpdateFurther.

Variable uniform : nat -> Q.

(** [rule self i j k v v']: [v'] is what the per-cell rule makes of status
    [v] at cell [(i, j)] of the pre-update grid with the draws at positions
    [k] and [k + 1]. *)
Lemma update_cells (self : Simulation) (c : nat) :
  shaped (width self) (height self) (state self) ->
  exists ns c',
    update uniform self c =
      Ok (set_day (set_state self ns) (day self + 1), c') /\
    shaped (width self) (height self) ns /\
    forall i j v, 0 <= i < width self -> 0 <= j < height self ->
      getitem (state self) i j = Ok v ->
      exists v' k,
        (c <= k)%nat /\ getitem ns i j = Ok v' /\
        (v = INFECTED ->
         v' = if Qltb (uniform k) (recovery_probability self) then RECOVERED
              else if Qltb (uniform (S k)) (death_probability self) then DEAD
              else INFECTED) /\
        (v = SUSCEPTIBLE ->
         exists n,
           num_infected_around self (state self) i j = Ok n /\ 0 <= n <= 8 /\
           v' = if float_gtb (float_mul n (infection_probability self))
                             (uniform k)
                then INFECTED else SUSCEPTIBLE) /\
        (v <> INFECTED -> v <> SUSCEPTIBLE -> v' = v).
Proof.
  intros Hs.
  destruct (update_spec uniform self c Hs) as [ns [c' [Hrun [Hs' [_ Hcells]]]]].
  exists ns, c'. split; [exact Hrun|split; [exact Hs'|]].
  intros i j v Hi Hj Hv.
  destruct (Hcells i j Hi Hj) as [k [v' [k' [Hk [Hgns Hnew]]]]].
  exists v', k. split; [exact Hk|split; [exact Hnew|]].
  split; [|split].
  - intros ->.
    rewrite (get_new_status_infected uniform self (state self) i j k Hv) in Hgns.
    destruct (Qltb (uniform k) (recovery_probability self));
      [|destruct (Qltb (uniform (S k)) (death_probability self))];
      inversion Hgns; reflexivity.
  - intros ->.
    destruct (num_infected_around_bound self (state self) i j Hs) as [n [Hn Hb]].
    exists n. split; [exact Hn|split; [exact Hb|]].
    rewrite (get_new_status_susceptible uniform self (state self) i j n k Hv Hn)
      in Hgns.
    destruct (float_gtb (float_mul n (infection_probability self)) (uniform k));
      inversion Hgns; reflexivity.
  - intros Hni Hns.
    rewrite (get_new_status_terminal uniform self (state self) i j v k Hv Hni Hns)
      in Hgns.
    inversion Hgns; reflexivity.
Qed.

(** X4.  In one [update()] a cell either keeps its status, or goes from
    Susceptible to Infected, or from Infected to Recovered or Dead; no other
    change happens, whatever the draws are. *)
Theorem update_transitions (self : Simulation) (c : nat) (i j v : Z) :
  shaped (width self) (height self) (state self) ->
  0 <= i < width self -> 0 <= j < height self ->
  getitem (state self) i j = Ok v ->
  exists s' c' v',
    update uniform self c = Ok (s', c') /\
    getitem (state s') i j = Ok v' /\
    (v' = v \/
     (v = SUSCEPTIBLE /\ v' = INFECTED) \/
     (v = INFECTED /\ (v' = RECOVERED \/ v' = DEAD))).
Proof.
  intros Hs Hi Hj Hv.
  destruct (update_cells self c Hs) as [ns [c' [Hrun [_ Hcells]]]].
  destruct (Hcells i j v Hi Hj Hv) as [v' [k [_ [Hnew [HI [HS HT]]]]]].
  exists (set_day (set_state self ns) (day self + 1)), c', v'.
  split; [exact Hrun|split; [exact Hnew|]].
  destruct (Z.eq_dec v INFECTED) as [Ei|Ei].
  - rewrite (HI Ei). subst v.
    destruct (Qltb (uniform k) (recovery_probability self));
      [|destruct (Qltb (uniform (S k)) (death_probability self))]; tauto.
  - destruct (Z.eq_dec v SUSCEPTIBLE) as [Es|Es].
    + destruct (HS Es) as [n [_ [_ ->]]]. subst v.
      destruct (float_gtb (float_mul n (infection_probability self)) (uniform k));
        tauto.
    + left. exact (HT Ei Es).
Qed.

(** X5.  [update()] never raises the number of Susceptible cells and never
    lowers the number of Recovered cells or the number of Dead cells. *)
Theorem update_compartments_monotone (self : Simulation) (c : nat) :
  shaped (width self) (height self) (state self) ->
  exists s' c',
    update uniform self c = Ok (s', c') /\
    cells_with (state s') SUSCEPTIBLE <= cells_with (state self) SUSCEPTIBLE /\
    cells_with (state self) RECOVERED <= cells_with (state s') RECOVERED /\
    cells_with (state self) DEAD <= cells_with (state s') DEAD.
Proof.
  intros Hs.
  destruct (update_cells self c Hs) as [ns [c' [Hrun [Hs' Hcells]]]].
  exists (set_day (set_state self ns) (day self + 1)), c'.
  split; [exact Hrun|]. simpl.
  assert (Hrel : forall i j v v', 0 <= i < width self -> 0 <= j < height self ->
            getitem (state self) i j = Ok v -> getitem ns i j = Ok v' ->
            (v' = SUSCEPTIBLE -> v = SUSCEPTIBLE) /\
            (v = RECOVERED -> v' = RECOVERED) /\ (v = DEAD -> v' = DEAD)).
  { intros i j v v' Hi Hj Hv Hv'.
    destruct (Hcells i j v Hi Hj Hv) as [v2 [k [_ [Hnew [HI [HS HT]]]]]].
    rewrite Hnew in Hv'. inversion Hv'; subst v2. clear Hv'.
    destruct (Z.eq_dec v INFECTED) as [Ei|Ei].
    - rewrite (HI Ei). subst v.
      destruct (Qltb (uniform k) (recovery_probability self));
        [|destruct (Qltb (uniform (S k)) (death_probability self))];
        repeat split; intros; discriminate.
    - destruct (Z.eq_dec v SUSCEPTIBLE) as [Es|Es].
      + subst v. repeat split; intros; try reflexivity; discriminate.
      + rewrite (HT Ei Es). repeat split; intros; assumption. }
  split; [|split].
  - apply cells_with_le. apply (grid_Forall2 _ _ _ _ _ Hs Hs').
    intros i j v v' Hi Hj Hv Hv'. apply (Hrel i j v v' Hi Hj Hv Hv').
  - apply cells_with_le. apply (grid_Forall2 _ _ _ _ _ Hs' Hs).
    intros i j v' v Hi Hj Hv' Hv. apply (Hrel i j v v' Hi Hj Hv Hv').
  - apply cells_with_le. apply (grid_Forall2 _ _ _ _ _ Hs' Hs).
    intros i j v' v Hi Hj Hv' Hv. apply (Hrel i j v v' Hi Hj Hv Hv').
Qed.

(** X6.  When no cell is Infected, [update()] leaves the grid as it is: it
    only adds 1 to the day (for draws that are at least 0). *)
Theorem update_without_infected (self : Simulation) (c : nat) :
  shaped (width self) (height self) (state self) ->
  (forall i j, 0 <= i < width self -> 0 <= j < height self ->
               getitem (state self) i j <> Ok INFECTED) ->
  (forall n, (0 <= uniform n)%Q) ->
  exists c', update uniform self c = Ok (set_day self (day self + 1), c').
Proof.
  intros Hs Hnone Hdraws.
  destruct (update_cells self c Hs) as [ns [c' [Hrun [Hs' Hcells]]]].
  exists c'. rewrite Hrun. f_equal. f_equal.
  assert (E : ns = state self); [|rewrite E, set_state_self; reflexivity].
  apply (grid_ext _ _ _ _ Hs Hs'). intros i j Hi Hj.
  destruct (getitem_total _ _ (state self) i j Hs Hi Hj) as [v Hv].
  destruct (Hcells i j v Hi Hj Hv) as [v' [k [_ [Hnew [_ [HS HT]]]]]].
  rewrite Hnew, Hv. f_equal.
  destruct (Z.eq_dec v INFECTED) as [Ei|Ei];
    [exfalso; apply (Hnone i j Hi Hj); rewrite Hv, Ei; reflexivity|].
  destruct (Z.eq_dec v SUSCEPTIBLE) as [Es|Es]; [|exact (HT Ei Es)].
  destruct (HS Es) as [n [Hn [_ ->]]]. subst v.
  assert (Hz : num_infected_around self (state self) i j = Ok 0).
  { apply num_infected_around_zero; [exact Hs|].
    intros i' j' Hi' Hj' _. apply Hnone; lia. }
  rewrite Hn in Hz. inversion Hz; subst n.
  rewrite float_mul_0, (float_gtb_zero _ _ (Hdraws k)). reflexivity.
Qed.

(** X7.  A Susceptible cell with [n] Infected neighbours is Infected after
    [update()] exactly when its draw is below the float product
    [n * infection_probability], the float nearest to the exact product,
    and Susceptible otherwise; a product that reaches 1 infects for every
    draw below 1.  The rounding decides: with five Infected neighbours,
    infection probability the float 0.1 and every draw 0.5, the cell stays
    Susceptible, since the float product is 0.5, while the exact product is
    above 0.5. *)
Theorem susceptible_rule :
  (forall (self : Simulation) (c : nat) (i j : Z),
     shaped (width self) (height self) (state self) ->
     0 <= i < width self -> 0 <= j < height self ->
     getitem (state self) i j = Ok SUSCEPTIBLE ->
     exists s' c' n k v',
       update uniform self c = Ok (s', c') /\
       num_infected_around self (state self) i j = Ok n /\
       (c <= k)%nat /\
       getitem (state s') i j = Ok v' /\
       (float_gtb (float_mul n (infection_probability self)) (uniform k) = true ->
        v' = INFECTED) /\
       (float_gtb (float_mul n (infection_probability self)) (uniform k) = false ->
        v' = SUSCEPTIBLE) /\
       (float_geb (float_mul n (infection_probability self)) 1 = true ->
        (forall m, (uniform m < 1)%Q) -> v' = INFECTED)) /\
  (num_infected_around crowded (state crowded) 0 1 = Ok 5 /\
   (1 # 2 < inject_Z 5 * infection_probability crowded)%Q /\
   float_gtb (float_mul 5 (infection_probability crowded)) (1 # 2) = false /\
   update (always_Q (1 # 2)) crowded 0%nat = Ok (set_day crowded 1, 11%nat) /\
   getitem (state crowded) 0 1 = Ok SUSCEPTIBLE).
Proof.
  split.
  - intros self c i j Hs Hi Hj Hv.
    destruct (update_cells self c Hs) as [ns [c' [Hrun [_ Hcells]]]].
    destruct (Hcells i j _ Hi Hj Hv) as [v' [k [Hk [Hnew [_ [HS _]]]]]].
    destruct (HS eq_refl) as [n [Hn [_ Hv']]].
    exists (set_day (set_state self ns) (day self + 1)), c', n, k, v'.
    split; [exact Hrun|split; [exact Hn|split; [exact Hk|split; [exact Hnew|]]]].
    destruct (float_gtb (float_mul n (infection_probability self)) (uniform k))
      eqn:E; subst v'.
    + split; [reflexivity|]. split; [discriminate|reflexivity].
    + split; [discriminate|]. split; [reflexivity|].
      intros Hone Hlt. rewrite (float_gtb_geb _ _ 1 Hone (Hlt k)) in E.
      discriminate.
  - repeat split; reflexivity.
Qed.

End UpdateFurther.

(** ** More on seeding *)

Lemma length_filter_list_set (p : Z -> bool) (l : list Z) (n : nat) (old x : Z) :
  nth_error l n = Some old ->
  (length (filter p (list_set l n x)) + (if p old then 1 else 0) =
   length (filter p l) + (if p x then 1 else 0))%nat.
Proof.
  revert n. induction l as [|y l IH]; intros [|n] Hn; simpl in Hn; try discriminate.
  - inversion Hn; subst y. simpl. destruct (p old), (p x); simpl; lia.
  - simpl. specialize (IH n Hn). destruct (p y); simpl; lia.
Qed.

Lemma length_filter_concat_list_set (p : Z -> bool) (g : grid) (a : nat)
      (row row' : list Z) :
  nth_error g a = Some row ->
  (length (filter p (concat (list_set g a row'))) + length (filter p row) =
   length (filter p (concat g)) + length (filter p row'))%nat.
Proof.
  revert a. induction g as [|r g IH]; intros [|a] Ha; simpl in Ha; try discriminate.
  - inversion Ha; subst r. simpl. rewrite !filter_app, !length_app. lia.
  - simpl. rewrite !filter_app, !length_app. specialize (IH a Ha). lia.
Qed.

Lemma cells_with_setitem (w h : Z) (g g' : grid) (i j old x u : Z) :
  shaped w h g -> 0 <= i < w -> 0 <= j < h ->
  getitem g i j = Ok old -> setitem g i j x = Ok g' ->
  cells_with g' u + (if old =? u then 1 else 0) =
  cells_with g u + (if x =? u then 1 else 0).
Proof.
  intros Hs Hi Hj Hget Hset.
  destruct (getitem_inb w h g i j Hs Hi Hj) as [row [v [Hrow [Hcell Hg]]]].
  rewrite Hg in Hget. inversion Hget; subst v. clear Hget.
  pose proof Hs as [Hlen Hrows]. rewrite Forall_forall in Hrows.
  pose proof (Hrows row (nth_error_In _ _ Hrow)) as Hrl.
  unfold setitem in Hset. rewrite index_inb in Hset by lia.
  rewrite Hrow in Hset. rewrite index_inb in Hset by lia.
  inversion Hset; subst g'. clear Hset.
  unfold cells_with.
  pose proof (length_filter_concat_list_set (fun c => c =? u) g (Z.to_nat i) row
                (list_set row (Z.to_nat j) x) Hrow) as H1.
  pose proof (length_filter_list_set (fun c => c =? u) row (Z.to_nat j) old x Hcell)
    as H2.
  cbv beta in H2. destruct (old =? u), (x =? u); lia.
Qed.

Lemma cells_with_pos (w h : Z) (g : grid) (i j u : Z) :
  shaped w h g -> 0 <= i < w -> 0 <= j < h -> getitem g i j = Ok u ->
  1 <= cells_with g u.
Proof.
  intros Hs Hi Hj Hget.
  destruct (getitem_In w h g i j u Hs Hi Hj Hget) as [row [Hrow Hin]].
  assert (Hc : In u (filter (fun c => c =? u) (concat g))).
  { apply filter_In. split; [|apply Z.eqb_refl].
    apply in_concat. exists row. split; assumption. }
  unfold cells_with.
  destruct (filter (fun c => c =? u) (concat g)); [destruct Hc|simpl; lia].
Qed.

Section SeedingFurther.

Variable integer : nat -> Z.

Lemma infect_randomly_edge_cases (s : Simulation) (num : Z) (c : nat) :
  (num <= 0 -> infect_randomly integer s num c = Ok (s, c)) /\
  (1 <= num -> width s <= 0 \/ height s <= 0 ->
   infect_randomly integer s num c = Raise ValueError).
Proof.
  split.
  - intros Hnum. rewrite infect_randomly_unfold.
    rewrite range_empty by lia. reflexivity.
  - intros Hnum Hdim. rewrite infect_randomly_unfold. unfold range.
    destruct (Z.to_nat (num - 0)) as [|n] eqn:E; [lia|].
    cbn [seq map for_each]. unfold bind at 1.
    assert (Hb : forall x, infect_body integer x s c = Raise ValueError);
      [|rewrite Hb; reflexivity].
    intros x. unfold infect_body, bind, randint.
    destruct (width s <=? 0) eqn:Ew; [reflexivity|].
    apply Z.leb_gt in Ew.
    replace (height s <=? 0) with true; [reflexivity|].
    symmetry. apply Z.leb_le. lia.
Qed.

(** X8.  [infect_randomly(num)] with [num <= 0] draws nothing and leaves the
    engine as it is; with [num >= 1] on a grid whose width or height is not
    positive it raises [ValueError]. *)
Theorem infect_randomly_edges (s : Simulation) (num : Z) (c : nat) :
  (num <= 0 -> infect_randomly integer s num c = Ok (s, c)) /\
  (1 <= num -> width s <= 0 \/ height s <= 0 ->
   infect_randomly integer s num c = Raise ValueError).
Proof. exact (infect_randomly_edge_cases s num c). Qed.

Lemma infect_randomly_counts (s : Simulation) (num : Z) (c : nat) :
  shaped (width s) (height s) (state s) -> 0 < width s -> 0 < height s ->
  exists g',
    infect_randomly integer s num c =
      Ok (set_state s g', (c + 2 * Z.to_nat num)%nat) /\
    cells_with (state s) INFECTED <= cells_with g' INFECTED /\
    cells_with g' INFECTED <= cells_with (state s) INFECTED + Z.max 0 num /\
    (1 <= num -> 1 <= cells_with g' INFECTED).
Proof.
  intros Hs Hw Hh. rewrite infect_randomly_unfold.
  destruct (for_each_inv
    (fun done s1 c1 =>
       exists g1, s1 = set_state s g1 /\
         shaped (width s) (height s) g1 /\
         c1 = (c + 2 * length done)%nat /\
         cells_with (state s) INFECTED <= cells_with g1 INFECTED /\
         cells_with g1 INFECTED <=
           cells_with (state s) INFECTED + Z.of_nat (length done) /\
         (done <> [] -> 1 <= cells_with g1 INFECTED))
    (range 0 num) (infect_body integer) s c)
    as [s' [c' [Hrun [g' [-> [Hs' [-> [Hlo [Hhi Hone]]]]]]]]].
  - exists (state s). rewrite set_state_self.
    split; [reflexivity|split; [exact Hs|split; [simpl; lia|]]].
    split; [lia|split; [simpl; lia|]]. intros H. contradiction.
  - intros done x s1 c1 [g1 [-> [Hs1 [-> [Hlo [Hhi _]]]]]] _.
    set (c1 := (c + 2 * length done)%nat).
    pose proof (Z.mod_pos_bound (integer c1) (width s) Hw) as Hi.
    pose proof (Z.mod_pos_bound (integer (S c1)) (height s) Hh) as Hj.
    destruct (setitem_inb _ _ g1 _ _ INFECTED Hs1 Hi Hj)
      as [g2 [Hset [Hs2 [Hget _]]]].
    destruct (getitem_total _ _ g1 _ _ Hs1 Hi Hj) as [old Hold].
    pose proof (cells_with_setitem _ _ g1 g2 _ _ old INFECTED INFECTED
                  Hs1 Hi Hj Hold Hset) as Hcount.
    rewrite Z.eqb_refl in Hcount.
    pose proof (cells_with_pos _ _ g2 _ _ INFECTED Hs2 Hi Hj Hget) as Hpos.
    exists (set_state s g2), (S (S c1)). split.
    + rewrite <- (set_state_set_state s g1 g2).
      apply infect_body_ok; simpl; assumption.
    + exists g2. split; [reflexivity|split; [exact Hs2|]].
      rewrite length_app. simpl.
      split; [subst c1; lia|].
      destruct (old =? INFECTED); (split; [lia|split; [lia|intros _; exact Hpos]]).
  - exists g'. rewrite length_range, Z.sub_0_r in *.
    split; [rewrite Hrun; reflexivity|split; [exact Hlo|split; [lia|]]].
    intros Hnum. apply Hone. unfold range.
    destruct (Z.to_nat (num - 0)) eqn:E; [lia|discriminate].
Qed.

(** X9.  On a grid with positive width and height, [infect_randomly(num)]
    consumes exactly two draws per iteration, never lowers the number of
    Infected cells and raises it by at most [num]; with [num >= 1] at least
    one cell is Infected afterwards. *)
Theorem infect_randomly_count (s : Simulation) (num : Z) (c : nat) :
  shaped (width s) (height s) (state s) -> 0 < width s -> 0 < height s ->
  exists g',
    infect_randomly integer s num c =
      Ok (set_state s g', (c + 2 * Z.to_nat num)%nat) /\
    cells_with (state s) INFECTED <= cells_with g' INFECTED /\
    cells_with g' INFECTED <= cells_with (state s) INFECTED + Z.max 0 num /\
    (1 <= num -> 1 <= cells_with g' INFECTED).
Proof. exact (infect_randomly_counts s num c). Qed.

End SeedingFurther.

(** ** Invariants of the engine *)

(** The parameters fixed by the constructor. *)
Lemma same_parameters_set_state (s : Simulation) (g : grid) :
  width (set_state s g) = width s /\ height (set_state s g) = height s /\
  recovery_probability (set_state s g) = recovery_probability s /\
  infection_probability (set_state s g) = infection_probability s /\
  death_probability (set_state s g) = death_probability s.
Proof. repeat split. Qed.

Lemma length_concat_shaped (w h : Z) (g : grid) :
  shaped w h g -> length (concat g) = (Z.to_nat w * Z.to_nat h)%nat.
Proof.
  intros [Hlen Hrows]. rewrite <- Hlen. clear Hlen.
  induction Hrows as [|row g Hrow _ IH]; simpl; [reflexivity|].
  rewrite length_app, IH, Hrow. reflexivity.
Qed.

Lemma cells_with_empty (w h : Z) (g : grid) (v : Z) :
  shaped w h g -> 0 <= w -> 0 <= h -> w * h = 0 -> cells_with g v = 0.
Proof.
  intros Hs Hw Hh Hz. unfold cells_with.
  pose proof (length_concat_shaped w h g Hs) as Hlen.
  destruct (concat g) as [|x l]; [reflexivity|].
  simpl in Hlen. exfalso. nia.
Qed.

(** X10.  When width * height is 0, [get_percentage_status] raises
    [ZeroDivisionError] if [np.count_nonzero] returns a Python [int]; if it
    returns a numpy scalar the method raises nothing, and on a grid of the
    recorded shape, which has no cells, the four values it returns are NaN.
    On any other state it raises nothing, with either kind of count, and
    returns four entries, keyed susceptible, infected, recovered and dead in
    that order. *)
Theorem percentage_status_zero_division (s : Simulation) :
  (width s * height s = 0 ->
   get_percentage_status (numpy := numpy_int) s = Raise ZeroDivisionError) /\
  (width s * height s = 0 ->
   shaped (width s) (height s) (state s) -> 0 <= width s -> 0 <= height s ->
   get_percentage_status (numpy := numpy_scalar) s =
   Ok ([ ("susceptible"%string, S754_nan); ("infected"%string, S754_nan);
         ("recovered"%string, S754_nan); ("dead"%string, S754_nan) ], s)) /\
  (forall numpy : Numpy,
     width s * height s <> 0 ->
     exists a b c d,
       get_percentage_status s =
       Ok ([ ("susceptible"%string, a); ("infected"%string, b);
             ("recovered"%string, c); ("dead"%string, d) ], s)).
Proof.
  split; [|split].
  - intros Hz. unfold get_percentage_status. cbv zeta.
    cbn [forR STATUSES bindR]. unfold divide. rewrite Hz. reflexivity.
  - intros Hz Hs Hw Hh. unfold get_percentage_status. cbv zeta.
    cbn [forR STATUSES bindR]. unfold divide.
    cbn [count_nonzero_returns_int numpy_scalar andb bindR app].
    rewrite !count_nonzero_cells_with.
    rewrite !(cells_with_empty _ _ _ _ Hs Hw Hh Hz), Hz. reflexivity.
  - intros numpy Hnz. rewrite (get_percentage_status_value s Hnz).
    do 4 eexists. reflexivity.
Qed.

Section EngineFurther.

Variable uniform : nat -> Q.
Variable integer : nat -> Z.

Lemma update_parameters (s : Simulation) (c : nat) (s' : Simulation) (c' : nat) :
  update uniform s c = Ok (s', c') ->
  width s' = width s /\ height s' = height s /\
  recovery_probability s' = recovery_probability s /\
  infection_probability s' = infection_probability s /\
  death_probability s' = death_probability s.
Proof.
  unfold update. cbv zeta. unfold bind at 1.
  match goal with |- context [for_each ?xs ?f ?a c] =>
    destruct (for_each xs f a c) as [[ns c1]|e] end; [|discriminate].
  unfold ret. intros H. inversion H; subst. repeat split.
Qed.

Lemma infect_randomly_parameters (s : Simulation) (num : Z) (c : nat)
      (s' : Simulation) (c' : nat) :
  infect_randomly integer s num c = Ok (s', c') ->
  width s' = width s /\ height s' = height s /\
  recovery_probability s' = recovery_probability s /\
  infection_probability s' = infection_probability s /\
  death_probability s' = death_probability s.
Proof.
  intros Hrun. rewrite infect_randomly_unfold in Hrun.
  eapply (for_each_preserves (fun s1 =>
            width s1 = width s /\ height s1 = height s /\
            recovery_probability s1 = recovery_probability s /\
            infection_probability s1 = infection_probability s /\
            death_probability s1 = death_probability s));
    [|exact Hrun|repeat split].
  intros x s1 c1 s2 c2 Hbody Hsame.
  apply infect_body_inv in Hbody as [_ [_ [_ [g' [_ ->]]]]]. exact Hsame.
Qed.

(** X11.  [update()] and [infect_randomly] never change the width, the
    height or any of the three probabilities of the engine. *)
Theorem parameters_immutable :
  (forall s c s' c',
     update uniform s c = Ok (s', c') ->
     width s' = width s /\ height s' = height s /\
     recovery_probability s' = recovery_probability s /\
     infection_probability s' = infection_probability s /\
     death_probability s' = death_probability s) /\
  (forall s num c s' c',
     infect_randomly integer s num c = Ok (s', c') ->
     width s' = width s /\ height s' = height s /\
     recovery_probability s' = recovery_probability s /\
     infection_probability s' = infection_probability s /\
     death_probability s' = death_probability s).
Proof.
  split; [exact update_parameters|exact infect_randomly_parameters].
Qed.

Lemma reachable_dimensions (s : Simulation) :
  reachable uniform integer s -> 0 <= width s /\ 0 <= height s /\ 0 <= day s.
Proof.
  induction 1 as [w h r i d s Hinit | s num c s' c' _ IH Hrun | s c s' c' _ IH Hrun].
  - apply init_valid in Hinit as [Hw [Hh [-> _]]]. simpl. lia.
  - pose proof (infect_randomly_parameters _ _ _ _ _ Hrun) as [Ew [Eh _]].
    pose proof (infect_randomly_day integer _ _ _ _ _ Hrun) as Ed.
    rewrite Ew, Eh, Ed. exact IH.
  - pose proof (update_parameters _ _ _ _ Hrun) as [Ew [Eh _]].
    pose proof (update_day uniform _ _ _ _ Hrun) as Ed.
    rewrite Ew, Eh, Ed. lia.
Qed.

(** X12.  Every engine state that the constructor, [infect_randomly] and
    [update()] can produce has a grid of [width] rows of [height] cells,
    each holding one of the four status codes, with width, height and day
    at least 0. *)
Theorem reachable_invariant (s : Simulation) :
  reachable uniform integer s ->
  shaped (width s) (height s) (state s) /\
  Forall (Forall status_ok) (state s) /\
  0 <= width s /\ 0 <= height s /\ 0 <= day s.
Proof.
  intros Hreach.
  destruct (reachable_valid uniform integer s Hreach) as [Hs Hall].
  destruct (reachable_dimensions s Hreach) as [Hw [Hh Hd]].
  split; [exact Hs|split; [exact Hall|split; [exact Hw|split; [exact Hh|exact Hd]]]].
Qed.

End EngineFurther.

(** * Properties of the views *)

(** ** The snapshot days of [plot_simulation] *)

Lemma nth_error_range (a b : Z) (n : nat) :
  nth_error (range a b) n =
  if (n <? Z.to_nat (b - a))%nat then Some (a + Z.of_nat n) else None.
Proof.
  unfold range. rewrite nth_error_map, nth_error_seq.
  destruct (n <? Z.to_nat (b - a))%nat; reflexivity.
Qed.

Lemma plot_pairs_eq (duration : Z) :
  combine plot_axes (plot_days duration) =
  map (fun k => (k, duration * k / 14)) (range 0 15).
Proof. reflexivity. Qed.

Lemma plot_pairs_nth (duration : Z) (n : nat) (p : Z * Z) :
  nth_error (combine plot_axes (plot_days duration)) n = Some p ->
  (n < 15)%nat /\ p = (Z.of_nat n, duration * Z.of_nat n / 14).
Proof.
  rewrite plot_pairs_eq, nth_error_map, nth_error_range.
  change (Z.to_nat (15 - 0)) with 15%nat.
  destruct (Nat.ltb_spec n 15) as [Hlt|Hge]; simpl; [|discriminate].
  intros H. inversion H. split; [exact Hlt|reflexivity].
Qed.

Lemma plot_day_bounds (duration j k : Z) :
  0 <= duration -> 0 <= j <= k -> k <= 14 ->
  0 <= duration * j / 14 <= duration * k / 14 /\ duration * k / 14 <= duration.
Proof.
  intros Hd Hjk Hk. split; [split|].
  - apply Z.div_pos; nia.
  - apply Z.div_le_mono; nia.
  - apply Z.div_le_upper_bound; nia.
Qed.

Lemma plot_days_nth (duration : Z) (n : nat) :
  nth_error (plot_days duration) n =
  if (n <? 15)%nat then Some (duration * Z.of_nat n / 14) else None.
Proof.
  unfold plot_days. cbv zeta. rewrite nth_error_map, nth_error_range.
  change (Z.to_nat (5 * 3 - 0)) with 15%nat. change (5 * 3 - 1) with 14.
  destruct (n <? 15)%nat; reflexivity.
Qed.

(** X14.  [plot_simulation] takes its snapshots at 15 days, the first day 0
    and the last [duration]; for [duration >= 0] they never decrease and
    all lie between 0 and [duration]. *)
Theorem plot_days_spread (duration : Z) :
  length (plot_days duration) = 15%nat /\
  nth_error (plot_days duration) 0 = Some 0 /\
  nth_error (plot_days duration) 14 = Some duration /\
  (0 <= duration ->
   forall i j di dj,
     (i <= j)%nat ->
     nth_error (plot_days duration) i = Some di ->
     nth_error (plot_days duration) j = Some dj ->
     0 <= di <= dj /\ dj <= duration).
Proof.
  split; [reflexivity|]. split; [|split].
  - rewrite plot_days_nth. cbn [Nat.ltb Nat.leb Z.of_nat].
    rewrite Z.mul_0_r. reflexivity.
  - rewrite plot_days_nth. cbn [Nat.ltb Nat.leb]. f_equal.
    change (Z.of_nat 14) with 14. apply Z.div_mul. lia.
  - intros Hd i j di dj Hij Hi Hj.
    rewrite plot_days_nth in Hi, Hj.
    destruct (Nat.ltb_spec i 15) as [Hi15|]; [|discriminate].
    destruct (Nat.ltb_spec j 15) as [Hj15|]; [|discriminate].
    inversion Hi; inversion Hj; subst.
    apply plot_day_bounds; lia.
Qed.

(** ** Driving the engine from a view *)

(** [imshow] accepts the colour view of a grid that has a cell and rejects
    that of a grid without cells. *)
Lemma imshow_cells (w h : Z) (g : grid) :
  shaped w h g -> 1 <= w -> 1 <= h ->
  imshow (map (map status_colour) g) = Returns (map (map status_colour) g).
Proof.
  intros Hs Hw Hh. unfold imshow. rewrite <- concat_map.
  pose proof (length_concat_shaped w h g Hs) as Hlen.
  destruct (concat g) as [|x l]; [|reflexivity].
  simpl in Hlen. exfalso. nia.
Qed.

Lemma imshow_no_cells (w h : Z) (g : grid) :
  shaped w h g -> 0 <= w -> 0 <= h -> w = 0 \/ h = 0 ->
  imshow (map (map status_colour) g) = Throws (EngineError ValueError).
Proof.
  intros Hs Hw Hh Hz. unfold imshow. rewrite <- concat_map.
  pose proof (length_concat_shaped w h g Hs) as Hlen.
  destruct (concat g) as [|x l]; [reflexivity|].
  simpl in Hlen. exfalso. destruct Hz as [Hz|Hz]; rewrite Hz in Hlen; simpl in Hlen; lia.
Qed.

Lemma Forall2_nth_error {A B : Type} (R : A -> B -> Prop) (l : list A)
      (l' : list B) (n : nat) (x : A) :
  Forall2 R l l' -> nth_error l n = Some x ->
  exists y, nth_error l' n = Some y /\ R x y.
Proof.
  intros H. revert n. induction H as [|a b l l' Hab _ IH]; intros [|n] Hn;
    simpl in Hn; try discriminate.
  - inversion Hn; subst. exists b. split; [reflexivity|exact Hab].
  - apply IH. exact Hn.
Qed.

Lemma last_nonempty {A : Type} (x : A) (l : list A) (d1 d2 : A) :
  last (x :: l) d1 = last (x :: l) d2.
Proof.
  revert x. induction l as [|y l IH]; intros x; [reflexivity|].
  change (last (y :: l) d1 = last (y :: l) d2). apply IH.
Qed.

Lemma Forall2_length_eq {A B : Type} (R : A -> B -> Prop) (l : list A)
      (l' : list B) :
  Forall2 R l l' -> length l' = length l.
Proof. induction 1; simpl; congruence. Qed.

Section ViewsProperties.

Variable uniform : nat -> Q.

Lemma run_updates_add (a b : nat) (s : Simulation) (c : nat)
      (s1 : Simulation) (c1 : nat) :
  run_updates uniform a s c = Ok (s1, c1) ->
  run_updates uniform (a + b) s c = run_updates uniform b s1 c1.
Proof.
  revert s c. induction a as [|a IH]; intros s c Ha; simpl in Ha.
  - unfold ret in Ha. inversion Ha; subst. reflexivity.
  - cbn [Nat.add run_updates]. unfold bind in *.
    destruct (update uniform s c) as [[s2 c2]|e]; [|discriminate].
    apply IH. exact Ha.
Qed.

Lemma run_updates_state (k : nat) (s : Simulation) (c : nat)
      (s' : Simulation) (c' : nat) :
  valid s -> run_updates uniform k s c = Ok (s', c') ->
  valid s' /\ day s' = day s + Z.of_nat k /\
  width s' = width s /\ height s' = height s.
Proof.
  revert s c. induction k as [|k IH]; intros s c Hv Hrun; simpl in Hrun.
  - unfold ret in Hrun. inversion Hrun; subst.
    split; [exact Hv|]. simpl. repeat split; lia.
  - unfold bind in Hrun.
    destruct (update uniform s c) as [[s1 c1]|e] eqn:Hup; [|discriminate].
    pose proof (update_valid uniform s c s1 c1 Hv Hup) as Hv1.
    pose proof (update_day uniform s c s1 c1 Hup) as Hd1.
    pose proof (update_parameters uniform s c s1 c1 Hup) as [Hw1 [Hh1 _]].
    destruct (IH s1 c1 Hv1 Hrun) as [Hv' [Hd' [Hw' Hh']]].
    split; [exact Hv'|]. repeat split; lia.
Qed.

Lemma advance_run (n : nat) :
  forall (fuel : nat) (s : Simulation) (target : Z) (c : nat),
    valid s -> n = Z.to_nat (target - day s) -> (n <= fuel)%nat ->
    exists s' c',
      run_updates uniform n s c = Ok (s', c') /\
      advance uniform fuel s target c = Returns (s', c').
Proof.
  induction n as [|n IH]; intros fuel s target c Hv Hn Hfuel.
  - exists s, c. split; [reflexivity|].
    assert (E : (day s <? target) = false) by (apply Z.ltb_ge; lia).
    destruct fuel; simpl; rewrite E; reflexivity.
  - assert (E : (day s <? target) = true) by (apply Z.ltb_lt; lia).
    destruct fuel as [|fuel]; [lia|].
    destruct (update_spec uniform s c (proj1 Hv)) as [ns [c1 [Hup _]]].
    pose proof (update_valid uniform s c _ _ Hv Hup) as Hv1.
    destruct (IH fuel _ target c1 Hv1) as [s' [c' [Hrun Hadv]]];
      [simpl; lia|lia|].
    exists s', c'. split.
    + cbn [run_updates]. rewrite (bind_ok _ _ _ _ _ Hup). exact Hrun.
    + cbn [advance]. rewrite E. unfold bindV, call. rewrite Hup. exact Hadv.
Qed.

(** The panel that [plot_simulation] draws for the pair [(ax, d)] when the
    simulation started from [s0] with the stream at [c0]. *)
Lemma plot_loop (fuel : nat) (s0 : Simulation) (c0 : nat) :
  valid s0 -> 1 <= width s0 -> 1 <= height s0 ->
  array_too_big [width s0; height s0; 3] = false ->
  forall (pairs : list (Z * Z)) (fig : list panel) (n1 : nat)
         (s1 : Simulation) (c1 : nat),
    run_updates uniform n1 s0 c0 = Ok (s1, c1) ->
    (forall p, In p pairs ->
       (n1 <= Z.to_nat (snd p - day s0) <= fuel)%nat) ->
    (forall i j p q, (i <= j)%nat ->
       nth_error pairs i = Some p -> nth_error pairs j = Some q ->
       snd p <= snd q) ->
    exists panels s' c',
      forV pairs (plot_panel uniform fuel) (fig, s1) c1 =
        Returns ((fig ++ panels, s'), c') /\
      run_updates uniform (Z.to_nat (last (map snd pairs) (day s0 + Z.of_nat n1)
                                     - day s0)) s0 c0 = Ok (s', c') /\
      Forall2 (fun p q =>
                 exists sk ck,
                   run_updates uniform (Z.to_nat (snd p - day s0)) s0 c0 =
                     Ok (sk, ck) /\
                   q = mkPanel (fst p) (map (map status_colour) (state sk))
                         ("Day " ++ py_str (snd p)))
              pairs panels.
Proof.
  intros Hv0 Hw0 Hh0 Hfit.
  induction pairs as [|[ax d] pairs IH]; intros fig n1 s1 c1 Hrun1 Hbound Hsorted.
  - exists [], s1, c1. split; [simpl; rewrite app_nil_r; reflexivity|].
    split; [|constructor]. simpl.
    replace (Z.to_nat (day s0 + Z.of_nat n1 - day s0)) with n1 by lia. exact Hrun1.
  - destruct (run_updates_state n1 s0 c0 s1 c1 Hv0 Hrun1) as [Hv1 [Hd1 _]].
    pose proof (Hbound (ax, d) (or_introl eq_refl)) as Hb. simpl in Hb.
    set (nd := Z.to_nat (d - day s0)) in *.
    destruct (advance_run (nd - n1) fuel s1 d c1 Hv1) as [s2 [c2 [Hrun2 Hadv]]];
      [lia|lia|].
    assert (Hrund : run_updates uniform nd s0 c0 = Ok (s2, c2)).
    { replace nd with (n1 + (nd - n1))%nat by lia.
      rewrite (run_updates_add n1 (nd - n1) s0 c0 s1 c1 Hrun1). exact Hrun2. }
    destruct (run_updates_state nd s0 c0 s2 c2 Hv0 Hrund) as [Hv2 [Hd2 [Hw2 Hh2]]].
    assert (Hrgb : get_rgb_matrix s2 = Returns (map (map status_colour) (state s2))).
    { apply get_rgb_matrix_spec; [exact (proj1 Hv2)|lia|lia|].
      rewrite Hw2, Hh2. exact Hfit. }
    assert (Him : imshow (map (map status_colour) (state s2)) =
                  Returns (map (map status_colour) (state s2))).
    { apply (imshow_cells (width s2) (height s2)); [exact (proj1 Hv2)|lia|lia]. }
    destruct (IH (fig ++ [mkPanel ax (map (map status_colour) (state s2))
                            ("Day " ++ py_str d)]) nd s2 c2 Hrund)
      as [panels [s' [c' [Hloop [Hlast Hall]]]]].
    + intros p Hp. split; [|apply (Hbound p); right; exact Hp].
      apply In_nth_error in Hp as [j Hj].
      assert (Hle : d <= snd p).
      { apply (Hsorted O (S j) (ax, d) p); [lia|reflexivity|exact Hj]. }
      subst nd. lia.
    + intros i j p q Hij Hi Hj.
      apply (Hsorted (S i) (S j) p q); [lia|exact Hi|exact Hj].
    + exists (mkPanel ax (map (map status_colour) (state s2)) ("Day " ++ py_str d)
                :: panels), s', c'.
      split; [|split].
      * cbn [forV]. unfold bindV at 1. unfold plot_panel at 1.
        unfold bindV at 1. rewrite Hadv. unfold bindV at 1. unfold pure at 1.
        rewrite Hrgb. unfold bindV at 1. unfold pure at 1. rewrite Him.
        unfold retV at 1. rewrite Hloop.
        rewrite <- app_assoc. reflexivity.
      * destruct pairs as [|p pairs'].
        -- simpl. simpl in Hlast.
           replace (Z.to_nat (day s0 + Z.of_nat nd - day s0)) with nd in Hlast by lia.
           exact Hlast.
        -- change (last (map snd ((ax, d) :: p :: pairs')) (day s0 + Z.of_nat n1))
             with (last (map snd (p :: pairs')) (day s0 + Z.of_nat n1)).
           cbn [map] in *.
           rewrite (last_nonempty (snd p) (map snd pairs') _ (day s0 + Z.of_nat nd)).
           exact Hlast.
      * constructor; [|exact Hall]. exists s2, c2. split; [exact Hrund|reflexivity].
Qed.

Lemma plot_simulation_spec (fuel : nat) (s : Simulation) (duration : Z)
        (c : nat) :
  valid s -> 1 <= width s -> 1 <= height s ->
  24 * (width s * height s) <= NPY_MAX_INTP -> 0 <= duration ->
  (Z.to_nat (duration - day s) <= fuel)%nat ->
  exists panels s' c',
    plot_simulation uniform fuel s duration c = Returns ((panels, s'), c') /\
    run_updates uniform (Z.to_nat (duration - day s)) s c = Ok (s', c') /\
    day s' = Z.max (day s) duration /\
    length panels = 15%nat /\
    forall k, 0 <= k < 15 ->
      exists sk ck,
        run_updates uniform (Z.to_nat (duration * k / 14 - day s)) s c =
          Ok (sk, ck) /\
        day sk = Z.max (day s) (duration * k / 14) /\
        nth_error panels (Z.to_nat k) =
          Some (mkPanel k (map (map status_colour) (state sk))
                  ("Day " ++ py_str (duration * k / 14))).
Proof.
  intros Hv Hw Hh Hfit Hd Hfuel.
  destruct (plot_loop fuel s c Hv Hw Hh (array_fits_3 _ _ Hw Hh Hfit)
              (combine plot_axes (plot_days duration))
              [] O s c eq_refl) as [panels [s' [c' [Hloop [Hlast Hall]]]]].
  - intros p Hp. apply In_nth_error in Hp as [n Hn].
    apply plot_pairs_nth in Hn as [Hn ->]. simpl.
    pose proof (plot_day_bounds duration 0 (Z.of_nat n) Hd) as Hb.
    split; [lia|]. lia.
  - intros i j p q Hij Hi Hj.
    apply plot_pairs_nth in Hi as [Hi ->]. apply plot_pairs_nth in Hj as [Hj ->].
    simpl. apply (plot_day_bounds duration (Z.of_nat i) (Z.of_nat j)); lia.
  - exists panels, s', c'.
    assert (Elast : last (map snd (combine plot_axes (plot_days duration)))
                      (day s + Z.of_nat 0) = duration).
    { rewrite plot_pairs_eq. cbn [range Z.sub Z.to_nat Pos.to_nat Pos.iter_op
                                   Nat.add seq map last snd Z.of_nat Z.add].
      cbn. apply Z.div_mul. lia. }
    rewrite Elast in Hlast.
    split; [exact Hloop|split; [exact Hlast|]].
    destruct (run_updates_state _ s c s' c' Hv Hlast) as [_ [Hday _]].
    split; [lia|]. split.
    + rewrite (Forall2_length_eq _ _ _ Hall). reflexivity.
    + intros k Hk.
      assert (Hn : nth_error (combine plot_axes (plot_days duration)) (Z.to_nat k)
                   = Some (k, duration * k / 14)).
      { rewrite plot_pairs_eq, nth_error_map, nth_error_range.
        change (Z.to_nat (15 - 0)) with 15%nat.
        destruct (Nat.ltb_spec (Z.to_nat k) 15) as [_|Hge]; [|lia].
        simpl. rewrite Z2Nat.id by lia. reflexivity. }
      destruct (Forall2_nth_error _ _ _ _ _ Hall Hn) as [q [Hq [sk [ck [Hrun ->]]]]].
      simpl in Hrun. exists sk, ck. split; [exact Hrun|].
      destruct (run_updates_state _ s c sk ck Hv Hrun) as [_ [Hdk _]].
      split; [lia|exact Hq].
Qed.


End ViewsProperties.

(** ** The animation *)

Lemma LineAnimation_update_spec {numpy : Numpy} (la : LineAnimation)
      (s : Simulation) (framenum : Z) (ys yi yr yd : list float) :
  series_of la ys yi yr yd -> width s * height s <> 0 ->
  exists la',
    LineAnimation_update la s framenum =
      Returns (map (fun kv => LineArtist (snd kv)) (line_mpl la'), la') /\
    line_duration la' = line_duration la /\
    xdata la' = xdata la ++ [Z.of_nat (length (xdata la))] /\
    series_of la' (ys ++ [percent_of SUSCEPTIBLE s]) (yi ++ [percent_of INFECTED s])
              (yr ++ [percent_of RECOVERED s]) (yd ++ [percent_of DEAD s]).
Proof.
  intros [Hy Hl] Hnz.
  set (xs' := xdata la ++ [Z.of_nat (length (xdata la))]).
  exists (mkLineAnimation (line_duration la) xs'
    [ ("susceptible"%string, ys ++ [percent_of SUSCEPTIBLE s]);
      ("infected"%string, yi ++ [percent_of INFECTED s]);
      ("recovered"%string, yr ++ [percent_of RECOVERED s]);
      ("dead"%string, yd ++ [percent_of DEAD s]) ]
    [ ("susceptible"%string,
       mkLine "green"%string "susceptible"%string xs'
         (ys ++ [percent_of SUSCEPTIBLE s]));
      ("infected"%string,
       mkLine "red"%string "infected"%string xs' (yi ++ [percent_of INFECTED s]));
      ("recovered"%string,
       mkLine "blue"%string "recovered"%string xs'
         (yr ++ [percent_of RECOVERED s]));
      ("dead"%string,
       mkLine "black"%string "dead"%string xs' (yd ++ [percent_of DEAD s])) ]).
  split; [|split; [reflexivity|split; [reflexivity|split; reflexivity]]].
  unfold LineAnimation_update.
  rewrite (get_percentage_status_value s Hnz). cbn [of_result bindO].
  rewrite Hy, Hl. reflexivity.
Qed.

(** X16.  A freshly built [LineAnimation] holds four empty series.
    [LineAnimation.update] on an engine with a non-empty grid (of fewer
    than [2 ^ 53 / 100] cells) raises nothing, with either kind of count;
    whatever the frame number is, it appends [len(xdata)] to [xdata] and,
    to the series of each status, the float that [get_percentage_status]
    returns for it (the IEEE 754 quotient of 100 * count by
    width * height), hands each line its series against the new [xdata],
    and returns the four lines. *)
Theorem LineAnimation_update_appends :
  (forall d, series_of (LineAnimation_init d) [] [] [] [] /\
             xdata (LineAnimation_init d) = []) /\
  (forall (numpy : Numpy) la s framenum ys yi yr yd,
     series_of la ys yi yr yd ->
     shaped (width s) (height s) (state s) ->
     0 < width s -> 0 < height s -> 100 * (width s * height s) < 2 ^ 53 ->
     exists la',
       LineAnimation_update la s framenum =
         Returns (map (fun kv => LineArtist (snd kv)) (line_mpl la'), la') /\
       line_duration la' = line_duration la /\
       xdata la' = xdata la ++ [Z.of_nat (length (xdata la))] /\
       series_of la' (ys ++ [percent_of SUSCEPTIBLE s])
                 (yi ++ [percent_of INFECTED s])
                 (yr ++ [percent_of RECOVERED s]) (yd ++ [percent_of DEAD s])).
Proof.
  split.
  - intros d. split; [split|]; reflexivity.
  - intros numpy la s framenum ys yi yr yd Hser _ Hw Hh _.
    apply LineAnimation_update_spec; [exact Hser|].
    apply Z.neq_mul_0. split; apply Z.neq_sym, Z.lt_neq; assumption.
Qed.

Lemma range_snoc (n : nat) :
  range 0 (Z.of_nat n + 1) = range 0 (Z.of_nat n) ++ [Z.of_nat n].
Proof.
  unfold range. rewrite !Z.sub_0_r.
  replace (Z.to_nat (Z.of_nat n + 1)) with (S n) by lia.
  rewrite Nat2Z.id, seq_S, map_app. reflexivity.
Qed.

Lemma Animation_init_spec (s : Simulation) (d : Z) :
  shaped (width s) (height s) (state s) -> 1 <= width s -> 1 <= height s ->
  array_too_big [width s; height s; 3] = false ->
  Animation_init s d =
  Returns (mkAnimation s d (mkGridAnimation (map (map status_colour) (state s)))
             (LineAnimation_init d)).
Proof.
  intros Hs Hw Hh Hfit. unfold Animation_init, GridAnimation_init.
  rewrite (get_rgb_matrix_spec s Hs) by (assumption || lia). cbn [bindO].
  rewrite (imshow_cells _ _ _ Hs Hw Hh). reflexivity.
Qed.

(** A grid without cells cannot be drawn: [np.zeros] or [imshow] raises. *)
Lemma draw_no_cells {A : Type} (s : Simulation) (k : rgb_array -> outcome A) :
  shaped (width s) (height s) (state s) -> 0 <= width s -> 0 <= height s ->
  width s * height s = 0 ->
  (rgb_matrix <~ get_rgb_matrix s ;; image <~ imshow rgb_matrix ;; k image) =
  Throws (EngineError ValueError).
Proof.
  intros Hs Hw Hh Hz.
  destruct (array_too_big [width s; height s; 3]) eqn:Hb.
  - rewrite (get_rgb_matrix_too_big s Hb). reflexivity.
  - rewrite (get_rgb_matrix_spec s Hs Hw Hh Hb). cbn [bindO].
    rewrite (imshow_no_cells _ _ _ Hs Hw Hh) by lia. reflexivity.
Qed.

Section AnimationProperties.

Context {numpy : Numpy}.
Variable uniform : nat -> Q.

Lemma Animation_update_step (self : Animation) (framenumber : Z) (c : nat)
      (ys yi yr yd : list float) :
  valid (simulation self) ->
  0 < width (simulation self) -> 0 < height (simulation self) ->
  array_too_big [width (simulation self); height (simulation self); 3] = false ->
  series_of (lineanimation self) ys yi yr yd ->
  exists s' c' la',
    update uniform (simulation self) c = Ok (s', c') /\
    Animation_update uniform self framenumber c =
      Returns ((ImageArtist (map (map status_colour) (state s'))
                  :: map (fun kv => LineArtist (snd kv)) (line_mpl la'),
                mkAnimation s' (duration self)
                  (mkGridAnimation (map (map status_colour) (state s'))) la'),
               c') /\
    xdata la' = xdata (lineanimation self)
                  ++ [Z.of_nat (length (xdata (lineanimation self)))] /\
    series_of la' (ys ++ [percent_of SUSCEPTIBLE s'])
              (yi ++ [percent_of INFECTED s'])
              (yr ++ [percent_of RECOVERED s']) (yd ++ [percent_of DEAD s']).
Proof.
  intros Hv Hw Hh Hfit Hser.
  destruct (update_spec uniform (simulation self) c (proj1 Hv))
    as [ns [c' [Hup _]]].
  pose proof (update_valid uniform _ c _ _ Hv Hup) as [Hs' _].
  pose proof (update_parameters uniform _ c _ _ Hup) as [Ew [Eh _]].
  set (s' := set_day (set_state (simulation self) ns) (day (simulation self) + 1))
    in *.
  assert (Hnz : width s' * height s' <> 0) by (rewrite Ew, Eh; nia).
  destruct (LineAnimation_update_spec (lineanimation self) s' framenumber
              ys yi yr yd Hser Hnz) as [la' [Hla [_ [Hx Hser']]]].
  exists s', c', la'. split; [exact Hup|split; [|split; [exact Hx|exact Hser']]].
  unfold Animation_update. unfold bindV at 1. unfold call. rewrite Hup.
  unfold bindV at 1. unfold pure at 1. unfold GridAnimation_update, set_array.
  rewrite (get_rgb_matrix_spec s' Hs')
    by (rewrite ?Ew, ?Eh; (exact Hfit || lia)).
  cbn [bindO]. rewrite (imshow_cells _ _ _ Hs') by (rewrite ?Ew, ?Eh; lia).
  cbn [bindO]. unfold bindV at 1. unfold pure at 1. rewrite Hla.
  reflexivity.
Qed.

Lemma run_frames_inv (s0 : Simulation) (c0 : nat) :
  valid s0 -> 0 < width s0 -> 0 < height s0 ->
  array_too_big [width s0; height s0; 3] = false ->
  forall (frames : list Z) (self : Animation) (n1 c1 : nat)
         (hist : list Simulation),
    run_updates uniform n1 s0 c0 = Ok (simulation self, c1) ->
    image (gridanimation self) =
      map (map status_colour) (state (simulation self)) ->
    xdata (lineanimation self) = range 0 (Z.of_nat n1) ->
    length hist = n1 ->
    (forall k sk, nth_error hist k = Some sk ->
                  exists ck, run_updates uniform (S k) s0 c0 = Ok (sk, ck)) ->
    series_of (lineanimation self)
      (map (percent_of SUSCEPTIBLE) hist) (map (percent_of INFECTED) hist)
      (map (percent_of RECOVERED) hist) (map (percent_of DEAD) hist) ->
    exists self' c' hist',
      run_frames uniform frames self c1 = Returns (self', c') /\
      duration self' = duration self /\
      run_updates uniform (n1 + length frames) s0 c0 = Ok (simulation self', c') /\
      image (gridanimation self') =
        map (map status_colour) (state (simulation self')) /\
      xdata (lineanimation self') = range 0 (Z.of_nat (n1 + length frames)) /\
      length hist' = (n1 + length frames)%nat /\
      (forall k sk, nth_error hist' k = Some sk ->
                    exists ck, run_updates uniform (S k) s0 c0 = Ok (sk, ck)) /\
      series_of (lineanimation self')
        (map (percent_of SUSCEPTIBLE) hist') (map (percent_of INFECTED) hist')
        (map (percent_of RECOVERED) hist') (map (percent_of DEAD) hist').
Proof.
  intros Hv0 Hw0 Hh0 Hfit.
  induction frames as [|f frames IH]; intros self n1 c1 hist Hrun Himg Hx Hlen Hhist Hser.
  - exists self, c1, hist. rewrite Nat.add_0_r.
    split; [reflexivity|]. repeat split; try assumption; apply Hser.
  - destruct (run_updates_state uniform n1 s0 c0 _ c1 Hv0 Hrun) as [Hv1 [_ [Ew Eh]]].
    destruct (Animation_update_step self f c1
                (map (percent_of SUSCEPTIBLE) hist) (map (percent_of INFECTED) hist)
                (map (percent_of RECOVERED) hist) (map (percent_of DEAD) hist) Hv1)
      as [s2 [c2 [la2 [Hup [Hstep [Hx2 Hser2]]]]]];
      [lia|lia|rewrite Ew, Eh; exact Hfit|exact Hser|].
    assert (Hrun2 : run_updates uniform (S n1) s0 c0 = Ok (s2, c2)).
    { replace (S n1) with (n1 + 1)%nat by lia.
      rewrite (run_updates_add uniform n1 1 s0 c0 _ c1 Hrun).
      cbn [run_updates]. rewrite (bind_ok _ _ _ _ _ Hup). reflexivity. }
    destruct (IH (mkAnimation s2 (duration self)
                    (mkGridAnimation (map (map status_colour) (state s2))) la2)
                 (S n1) c2 (hist ++ [s2]))
      as [self' [c' [hist' [Hframes [Hdur [Hrun' [Himg' [Hx' [Hlen' [Hhist' Hser']]]]]]]]]].
    + exact Hrun2.
    + reflexivity.
    + cbn [lineanimation]. rewrite Hx2, Hx, length_range, Z.sub_0_r, Nat2Z.id.
      rewrite Nat2Z.inj_succ, <- Z.add_1_r. symmetry. apply range_snoc.
    + rewrite length_app. simpl. lia.
    + intros k sk Hk.
      destruct (Nat.lt_ge_cases k (length hist)) as [Hlt|Hge].
      * rewrite nth_error_app1 in Hk by exact Hlt. exact (Hhist k sk Hk).
      * rewrite nth_error_app2 in Hk by exact Hge.
        destruct (k - length hist)%nat as [|m] eqn:E; simpl in Hk;
          [|destruct m; discriminate].
        inversion Hk; subst sk. exists c2.
        replace k with n1 by lia. exact Hrun2.
    + cbn [lineanimation]. rewrite !map_app. exact Hser2.
    + exists self', c', hist'.
      replace (n1 + length (f :: frames))%nat with (S n1 + length frames)%nat
        by (simpl; lia).
      split; [|repeat split; try assumption; apply Hser'].
      unfold run_frames. cbn [forV]. unfold bindV at 1. unfold bindV at 1.
      rewrite Hstep. unfold retV at 1. exact Hframes.
Qed.

(** X17.  An [Animation] built on a well-formed engine with a non-empty
    grid (of fewer than [2 ^ 53 / 100] cells, so that the counts are exact
    as floats and the colour array passes the size check of [np.zeros])
    raises nothing in any number of calls of [Animation.update], whatever
    the frame numbers are and with either kind of count.  After [n] calls the
    engine has made exactly [n] updates, the image shows the colour view of
    the engine as it is now, [xdata] is [0, ..., n-1], and point [k] of each
    series is the float that [get_percentage_status] returns for its status
    after [k + 1] updates. *)
Theorem animation_frames (s0 : Simulation) (d : Z) (frames : list Z) (c : nat) :
  valid s0 -> 0 < width s0 -> 0 < height s0 ->
  100 * (width s0 * height s0) < 2 ^ 53 ->
  exists self0 self c' hist,
    Animation_init s0 d = Returns self0 /\
    run_frames uniform frames self0 c = Returns (self, c') /\
    run_updates uniform (length frames) s0 c = Ok (simulation self, c') /\
    image (gridanimation self) =
      map (map status_colour) (state (simulation self)) /\
    xdata (lineanimation self) = range 0 (Z.of_nat (length frames)) /\
    length hist = length frames /\
    (forall k sk, nth_error hist k = Some sk ->
                  exists ck, run_updates uniform (S k) s0 c = Ok (sk, ck)) /\
    series_of (lineanimation self)
      (map (percent_of SUSCEPTIBLE) hist) (map (percent_of INFECTED) hist)
      (map (percent_of RECOVERED) hist) (map (percent_of DEAD) hist).
Proof.
  intros Hv Hw Hh Hbound.
  assert (Hfit : array_too_big [width s0; height s0; 3] = false).
  { apply array_fits_3; [lia|lia|].
    assert (0 <= width s0 * height s0) by (apply Z.mul_nonneg_nonneg; lia).
    unfold NPY_MAX_INTP. lia. }
  eexists.
  destruct (run_frames_inv s0 c Hv Hw Hh Hfit frames
              (mkAnimation s0 d (mkGridAnimation (map (map status_colour) (state s0)))
                 (LineAnimation_init d)) O c [])
    as [self [c' [hist [Hframes [_ [Hrun [Himg [Hx [Hlen [Hhist Hser]]]]]]]]]].
  - reflexivity.
  - reflexivity.
  - reflexivity.
  - reflexivity.
  - intros k sk Hk. destruct k; discriminate.
  - split; reflexivity.
  - exists self, c', hist.
    split; [apply Animation_init_spec; [exact (proj1 Hv)|lia|lia|exact Hfit]|].
    split; [exact Hframes|]. simpl in Hrun, Hx, Hlen.
    repeat split; try assumption; apply Hser.
Qed.

End AnimationProperties.

(** ** A plot of an engine that is already past the last day *)

Section PlotPast.

Variable uniform : nat -> Q.

Lemma advance_past (fuel : nat) (s : Simulation) (target : Z) (c : nat) :
  target <= day s -> advance uniform fuel s target c = Returns (s, c).
Proof.
  intros Hle.
  assert (E : (day s <? target) = false) by (apply Z.ltb_ge; lia).
  destruct fuel; simpl; rewrite E; reflexivity.
Qed.



(** X18.  A well-formed engine whose grid has no cells cannot be drawn:
    building the [Animation] raises [ValueError], and so does
    [plot_simulation] at its first panel when the day of the engine is at
    least 0.  The exception comes from [imshow], or from [np.zeros] when
    the colour array fails its size check. *)
Theorem empty_grid_not_drawn (fuel : nat) (s : Simulation) (duration : Z)
        (c : nat) :
  valid s -> 0 <= width s -> 0 <= height s -> width s * height s = 0 ->
  Animation_init s duration = Throws (EngineError ValueError) /\
  (0 <= day s ->
   plot_simulation uniform fuel s duration c = Throws (EngineError ValueError)).
Proof.
  intros [Hs _] Hw Hh Hz. split.
  - unfold Animation_init, GridAnimation_init.
    rewrite (draw_no_cells s _ Hs Hw Hh Hz). reflexivity.
  - intros Hday. unfold plot_simulation. cbv zeta.
    rewrite plot_pairs_eq. change (range 0 15) with (0 :: range 1 15).
    cbn [map forV]. unfold bindV at 1. unfold plot_panel at 1.
    unfold bindV at 1. rewrite advance_past.
    + unfold bindV at 1. unfold pure at 1.
      destruct (array_too_big [width s; height s; 3]) eqn:Hb.
      * rewrite (get_rgb_matrix_too_big s Hb). reflexivity.
      * rewrite (get_rgb_matrix_spec s Hs Hw Hh Hb).
        unfold bindV at 1. unfold pure at 1.
        rewrite (imshow_no_cells _ _ _ Hs Hw Hh) by lia. reflexivity.
    + rewrite Z.mul_0_r. change (0 / 14) with 0. exact Hday.
Qed.

End PlotPast.

(** ** The drivers *)

Lemma init_ok (w h : Z) (r p d : Q) :
  0 <= w -> 0 <= h -> array_too_big [w; h] = false ->
  init w h r p d =
  Ok (mkSimulation 0 w h r p d
        (repeat (repeat SUSCEPTIBLE (Z.to_nat h)) (Z.to_nat w))).
Proof.
  intros Hw Hh Hfit. unfold init. rewrite (np_zeros_ok w h Hw Hh Hfit).
  cbn [bindR]. rewrite fill_zeros. reflexivity.
Qed.

Lemma init_rejected (w h : Z) (r p d : Q) :
  w < 0 \/ h < 0 \/ array_too_big [w; h] = true ->
  init w h r p d = Raise ValueError.
Proof.
  intros H. unfold init. rewrite (np_zeros_raises w h H). reflexivity.
Qed.

Lemma fresh_all_susceptible (w h : nat) :
  Forall (Forall (fun v => v = SUSCEPTIBLE)) (repeat (repeat SUSCEPTIBLE h) w).
Proof.
  apply Forall_forall. intros row Hrow. apply repeat_spec in Hrow. subst row.
  apply Forall_forall. intros v Hv. apply repeat_spec in Hv. exact Hv.
Qed.

Lemma cells_with_absent (g : grid) (u : Z) :
  Forall (Forall (fun v => v <> u)) g -> cells_with g u = 0.
Proof.
  intros H. unfold cells_with.
  rewrite filter_nil_all; [reflexivity|].
  intros x Hx. apply in_concat in Hx as [row [Hrow Hin]].
  rewrite Forall_forall in H. specialize (H row Hrow).
  rewrite Forall_forall in H. apply Z.eqb_neq. exact (H x Hin).
Qed.

Section DriverProperties.

Variable uniform : nat -> Q.
Variable integer : nat -> Z.

Lemma seed_engine_spec (w h : Z) (r p d : Q) (cases : Z) (c : nat) :
  1 <= w -> 1 <= h -> 8 * (w * h) <= NPY_MAX_INTP ->
  exists g',
    seed_engine integer w h r p d cases c =
      Ok (mkSimulation 0 w h r p d g', (c + 2 * Z.to_nat cases)%nat) /\
    valid (mkSimulation 0 w h r p d g') /\
    Forall (Forall (fun v => v = SUSCEPTIBLE \/ v = INFECTED)) g' /\
    cells_with g' INFECTED <= Z.max 0 cases /\
    (1 <= cases -> 1 <= cells_with g' INFECTED).
Proof.
  intros Hw Hh Hbound.
  set (s0 := mkSimulation 0 w h r p d
               (repeat (repeat SUSCEPTIBLE (Z.to_nat h)) (Z.to_nat w))).
  assert (Hinit : init w h r p d = Ok s0)
    by (apply init_ok; [lia|lia|apply array_fits_2; assumption]).
  destruct (init_valid _ _ _ _ _ _ Hinit) as [_ [_ [_ Hv0]]].
  pose proof (fresh_all_susceptible (Z.to_nat w) (Z.to_nat h)) as Hfresh.
  destruct (infect_randomly_spec integer s0 cases c (proj1 Hv0))
    as [g' [Hrun [Hs' Hcells]]]; [simpl; lia|simpl; lia|].
  destruct (infect_randomly_counts integer s0 cases c (proj1 Hv0))
    as [g2 [Hrun2 [_ [Hhi Hone]]]]; [simpl; lia|simpl; lia|].
  rewrite Hrun in Hrun2. inversion Hrun2; subst g2. clear Hrun2.
  exists g'. split; [|split; [|split; [|split]]].
  - unfold seed_engine, bind, lift. rewrite Hinit. exact Hrun.
  - apply (infect_randomly_valid integer s0 cases c _ _ Hv0 Hrun).
  - apply (Forall_cells _ _ _ g' Hs'). intros i j v Hi Hj Hget.
    destruct (Hcells i j Hi Hj) as [[_ Hinf]|[_ Hsame]].
    + rewrite Hinf in Hget. inversion Hget. right. reflexivity.
    + rewrite Hsame in Hget. left.
      exact (cells_Forall _ _ _ _ i j v (proj1 Hv0) Hfresh Hi Hj Hget).
  - assert (E : cells_with (state s0) INFECTED = 0); [|lia].
    apply cells_with_absent. simpl.
    eapply Forall_impl; [|exact Hfresh].
    intros row Hrow. eapply Forall_impl; [|exact Hrow].
    intros v ->. discriminate.
  - exact Hone.
Qed.

(** X20.  The set-up of the drivers (construct, then seed [cases] cells):
    a negative width or height raises [ValueError], and so do a shape that
    fails the size check of [np.zeros] and a grid without cells when
    [cases >= 1]; with [cases <= 0] and a shape that passes the check the
    fresh, fully Susceptible engine is returned and nothing is drawn; with
    width and height at least 1 and at most [NPY_MAX_INTP] bytes of cells
    it raises nothing and returns an engine at day 0 whose cells are
    Susceptible or Infected, at most [cases] of them Infected and at least
    one when [cases >= 1]. *)
Theorem seed_engine_outcomes (w h : Z) (r p d : Q) (cases : Z) (c : nat) :
  (w < 0 \/ h < 0 \/ array_too_big [w; h] = true ->
   seed_engine integer w h r p d cases c = Raise ValueError) /\
  (0 <= w -> 0 <= h -> w = 0 \/ h = 0 -> 1 <= cases ->
   seed_engine integer w h r p d cases c = Raise ValueError) /\
  (0 <= w -> 0 <= h -> array_too_big [w; h] = false -> cases <= 0 ->
   seed_engine integer w h r p d cases c =
   Ok (mkSimulation 0 w h r p d
         (repeat (repeat SUSCEPTIBLE (Z.to_nat h)) (Z.to_nat w)), c)) /\
  (1 <= w -> 1 <= h -> 8 * (w * h) <= NPY_MAX_INTP ->
   exists g',
     seed_engine integer w h r p d cases c =
       Ok (mkSimulation 0 w h r p d g', (c + 2 * Z.to_nat cases)%nat) /\
     valid (mkSimulation 0 w h r p d g') /\
     Forall (Forall (fun v => v = SUSCEPTIBLE \/ v = INFECTED)) g' /\
     cells_with g' INFECTED <= Z.max 0 cases /\
     (1 <= cases -> 1 <= cells_with g' INFECTED)).
Proof.
  split; [|split; [|split]].
  - intros Hrej. unfold seed_engine, bind, lift.
    rewrite (init_rejected w h r p d Hrej). reflexivity.
  - intros Hw Hh Hzero Hcases. unfold seed_engine, bind, lift.
    destruct (array_too_big [w; h]) eqn:Hfit.
    + rewrite (init_rejected w h r p d); [reflexivity|].
      right. right. exact Hfit.
    + rewrite (init_ok w h r p d Hw Hh Hfit).
      apply (proj2 (infect_randomly_edge_cases integer _ cases c) Hcases).
      simpl. lia.
  - intros Hw Hh Hfit Hcases. unfold seed_engine, bind, lift.
    rewrite (init_ok w h r p d Hw Hh Hfit).
    apply (proj1 (infect_randomly_edge_cases integer _ cases c) Hcases).
  - apply seed_engine_spec.
Qed.

(** X21.  The [--plot] run of [runsim.py] and [figure1.py]: with width and
    height at least 1, a colour array that passes the size check of
    [np.zeros] and [duration >= 0], seeding and plotting raise nothing, for
    all draws.  The figure has 15 panels, the first showing the seeded grid
    under "Day 0" and the last the final grid under "Day duration"; the
    engine has made exactly [duration] updates and is at day [duration]. *)
Theorem seed_and_plot_runs (fuel : nat) (w h : Z) (r p d : Q)
        (cases duration : Z) (c : nat) :
  1 <= w -> 1 <= h -> 24 * (w * h) <= NPY_MAX_INTP ->
  0 <= duration -> (Z.to_nat duration <= fuel)%nat ->
  exists s1 c1 panels s' c',
    seed_engine integer w h r p d cases c = Ok (s1, c1) /\
    seed_and_plot uniform integer fuel w h r p d cases duration c =
      Returns ((panels, s'), c') /\
    run_updates uniform (Z.to_nat duration) s1 c1 = Ok (s', c') /\
    day s' = duration /\
    length panels = 15%nat /\
    nth_error panels 0 =
      Some (mkPanel 0 (map (map status_colour) (state s1)) "Day 0") /\
    nth_error panels 14 =
      Some (mkPanel 14 (map (map status_colour) (state s'))
              ("Day " ++ py_str duration)).
Proof.
  intros Hw Hh Hbound Hd Hfuel.
  assert (Hcells : 0 <= w * h) by (apply Z.mul_nonneg_nonneg; lia).
  destruct (seed_engine_spec w h r p d cases c Hw Hh) as [g' [Hseed [Hv _]]];
    [lia|].
  set (s1 := mkSimulation 0 w h r p d g') in *.
  destruct (plot_simulation_spec uniform fuel s1 duration
              (c + 2 * Z.to_nat cases)%nat Hv)
    as [panels [s' [c' [Hplot [Hrun [Hday [Hlen Hpanels]]]]]]];
    [simpl; lia|simpl; lia|exact Hbound|exact Hd
    |simpl; rewrite Z.sub_0_r; exact Hfuel|].
  simpl in Hrun, Hday. rewrite Z.sub_0_r in Hrun.
  exists s1, (c + 2 * Z.to_nat cases)%nat, panels, s', c'.
  split; [exact Hseed|]. split.
  { unfold seed_and_plot, bindV, call. rewrite Hseed. exact Hplot. }
  split; [exact Hrun|]. split; [lia|]. split; [exact Hlen|]. split.
  - destruct (Hpanels 0) as [sk [ck [Hk [_ Hn]]]]; [lia|].
    rewrite Z.mul_0_r in Hk, Hn. simpl in Hk. unfold ret in Hk.
    inversion Hk; subst sk. exact Hn.
  - destruct (Hpanels 14) as [sk [ck [Hk [_ Hn]]]]; [lia|].
    assert (E : duration * 14 / 14 = duration) by (apply Z.div_mul; lia).
    rewrite E in Hk, Hn. simpl in Hk. rewrite Z.sub_0_r in Hk.
    rewrite Hrun in Hk. inversion Hk; subst sk. exact Hn.
Qed.

End DriverProperties.

(** * Instances of the further properties *)

Lemma valid_graveyard : valid graveyard.
Proof.
  split; [exact shaped_graveyard|].
  repeat constructor; unfold status_ok; tauto.
Defined.

Lemma shaped_corner2x2 (r p d : Q) :
  shaped (width (corner2x2 r p d)) (height (corner2x2 r p d))
         (state (corner2x2 r p d)).
Proof. split; [reflexivity|repeat constructor]. Defined.


Lemma valid_fresh2x1 : valid fresh2x1.
Proof.
  split; [exact shaped_fresh2x1|].
  repeat constructor; unfold status_ok; tauto.
Defined.

Lemma valid_empty_engine : valid empty_engine.
Proof. split; [split; [reflexivity|constructor]|constructor]. Defined.

Lemma rgb_matrix_colours_witness :
  get_rgb_matrix graveyard = Returns [[(0, 0, 0); (0, 0, 255)]].
Proof.
  exact (proj1 (rgb_matrix_colours graveyard shaped_graveyard
                  ltac:(simpl; lia) ltac:(simpl; lia)) eq_refl).
Defined.

Lemma rgb_matrix_injective_witness :
  state graveyard = state (set_day graveyard 9).
Proof.
  apply (rgb_matrix_injective graveyard (set_day graveyard 9)
           [[(0, 0, 0); (0, 0, 255)]]).
  - exact valid_graveyard.
  - exact valid_graveyard.
  - simpl; lia.
  - simpl; lia.
  - simpl; lia.
  - simpl; lia.
  - reflexivity.
  - reflexivity.
Defined.

Lemma num_infected_around_at_most_8_witness :
  exists n,
    num_infected_around (corner2x2 0 0 0) (state (corner2x2 0 0 0)) 1 1 = Ok n /\
    0 <= n <= 8.
Proof.
  apply (num_infected_around_at_most_8 (corner2x2 0 0 0)).
  exact (shaped_corner2x2 0 0 0).
Defined.

Lemma update_transitions_witness :
  exists s' c' v',
    update (always_Q 0) patient 0%nat = Ok (s', c') /\
    getitem (state s') 0 0 = Ok v' /\
    (v' = INFECTED \/
     (INFECTED = SUSCEPTIBLE /\ v' = INFECTED) \/
     (INFECTED = INFECTED /\ (v' = RECOVERED \/ v' = DEAD))).
Proof.
  apply (update_transitions (always_Q 0) patient 0%nat 0 0 INFECTED).
  - exact shaped_patient.
  - simpl; lia.
  - simpl; lia.
  - reflexivity.
Defined.

Lemma update_compartments_monotone_witness :
  exists s' c',
    update (always_Q 0) (corner2x2 (1 # 10) (1 # 5) (1 # 20)) 0%nat = Ok (s', c') /\
    cells_with (state s') SUSCEPTIBLE <= 3 /\
    0 <= cells_with (state s') RECOVERED /\
    0 <= cells_with (state s') DEAD.
Proof.
  exact (update_compartments_monotone (always_Q 0)
           (corner2x2 (1 # 10) (1 # 5) (1 # 20)) 0%nat
           (shaped_corner2x2 (1 # 10) (1 # 5) (1 # 20))).
Defined.

Lemma update_without_infected_witness :
  exists c',
    update (always_Q 0) graveyard 0%nat = Ok (set_day graveyard (day graveyard + 1), c').
Proof.
  apply (update_without_infected (always_Q 0) graveyard 0%nat).
  - exact shaped_graveyard.
  - simpl. intros i j Hi Hj.
    assert (Ei : i = 0) by lia. subst i.
    assert (Ej : j = 0 \/ j = 1) by lia.
    destruct Ej as [-> | ->]; discriminate.
  - exact always_zero_nonneg.
Defined.

Lemma shaped_crowded : shaped (width crowded) (height crowded) (state crowded).
Proof. split; [reflexivity|repeat constructor]. Defined.

Lemma susceptible_rule_witness :
  exists s' c' n k v',
    update (always_Q (1 # 2)) crowded 0%nat = Ok (s', c') /\
    num_infected_around crowded (state crowded) 0 1 = Ok n /\
    (0 <= k)%nat /\
    getitem (state s') 0 1 = Ok v' /\
    (float_gtb (float_mul n (infection_probability crowded))
               (always_Q (1 # 2) k) = true -> v' = INFECTED) /\
    (float_gtb (float_mul n (infection_probability crowded))
               (always_Q (1 # 2) k) = false -> v' = SUSCEPTIBLE) /\
    (float_geb (float_mul n (infection_probability crowded)) 1 = true ->
     (forall m, (always_Q (1 # 2) m < 1)%Q) -> v' = INFECTED).
Proof.
  apply (proj1 (susceptible_rule (always_Q (1 # 2))) crowded 0%nat 0 1).
  - exact shaped_crowded.
  - simpl; lia.
  - simpl; lia.
  - reflexivity.
Defined.

Lemma infect_randomly_edges_witness :
  infect_randomly (always_Z 0) graveyard 0 0%nat = Ok (graveyard, 0%nat) /\
  infect_randomly (always_Z 0) empty_engine 2 0%nat = Raise ValueError.
Proof.
  split.
  - apply (proj1 (infect_randomly_edges (always_Z 0) graveyard 0 0%nat)). lia.
  - apply (proj2 (infect_randomly_edges (always_Z 0) empty_engine 2 0%nat)).
    + lia.
    + left. simpl. lia.
Defined.

Lemma infect_randomly_count_witness :
  exists g',
    infect_randomly (always_Z 0) fresh2x1 3 0%nat =
      Ok (set_state fresh2x1 g', (0 + 2 * Z.to_nat 3)%nat) /\
    cells_with (state fresh2x1) INFECTED <= cells_with g' INFECTED /\
    cells_with g' INFECTED <= cells_with (state fresh2x1) INFECTED + Z.max 0 3 /\
    (1 <= 3 -> 1 <= cells_with g' INFECTED).
Proof.
  apply (infect_randomly_count (always_Z 0) fresh2x1 3 0%nat).
  - exact shaped_fresh2x1.
  - simpl; lia.
  - simpl; lia.
Defined.

Lemma percentage_status_zero_division_witness :
  get_percentage_status (numpy := numpy_int) empty_engine =
    Raise ZeroDivisionError /\
  get_percentage_status (numpy := numpy_scalar) empty_engine =
    Ok ([ ("susceptible"%string, S754_nan); ("infected"%string, S754_nan);
          ("recovered"%string, S754_nan); ("dead"%string, S754_nan) ],
        empty_engine) /\
  exists a b c d,
    get_percentage_status (numpy := numpy_scalar) fresh2x1 =
    Ok ([ ("susceptible"%string, a); ("infected"%string, b);
          ("recovered"%string, c); ("dead"%string, d) ], fresh2x1).
Proof.
  split; [|split].
  - apply (proj1 (percentage_status_zero_division empty_engine)). reflexivity.
  - apply (proj1 (proj2 (percentage_status_zero_division empty_engine))).
    + reflexivity.
    + exact (proj1 valid_empty_engine).
    + simpl; lia.
    + simpl; lia.
  - apply (proj2 (proj2 (percentage_status_zero_division fresh2x1)) numpy_scalar).
    simpl. lia.
Defined.

Lemma parameters_immutable_witness :
  width (mkSimulation 1 1 1 (1 # 10) (1 # 5) (1 # 20) [[RECOVERED]]) =
    width patient /\
  height (mkSimulation 1 1 1 (1 # 10) (1 # 5) (1 # 20) [[RECOVERED]]) =
    height patient /\
  recovery_probability (mkSimulation 1 1 1 (1 # 10) (1 # 5) (1 # 20) [[RECOVERED]]) =
    recovery_probability patient /\
  infection_probability (mkSimulation 1 1 1 (1 # 10) (1 # 5) (1 # 20) [[RECOVERED]]) =
    infection_probability patient /\
  death_probability (mkSimulation 1 1 1 (1 # 10) (1 # 5) (1 # 20) [[RECOVERED]]) =
    death_probability patient.
Proof.
  apply (proj1 (parameters_immutable (always_Q 0) (always_Z 0))
           patient 0%nat _ 1%nat).
  reflexivity.
Defined.

Lemma reachable_invariant_witness :
  shaped (width fresh2x1) (height fresh2x1) (state fresh2x1) /\
  Forall (Forall status_ok) (state fresh2x1) /\
  0 <= width fresh2x1 /\ 0 <= height fresh2x1 /\ 0 <= day fresh2x1.
Proof.
  exact (reachable_invariant (always_Q (1 # 2)) (always_Z 0) fresh2x1
           reachable_fresh2x1).
Defined.

Lemma plot_days_spread_witness : 0 <= 21 <= 57 /\ 57 <= 100.
Proof.
  apply (proj2 (proj2 (proj2 (plot_days_spread 100))) ltac:(lia) 3%nat 8%nat).
  - lia.
  - reflexivity.
  - reflexivity.
Defined.


Lemma LineAnimation_update_appends_witness :
  exists la',
    LineAnimation_update (numpy := numpy_scalar) (LineAnimation_init 100)
      fresh2x1 7 =
      Returns (map (fun kv => LineArtist (snd kv)) (line_mpl la'), la') /\
    line_duration la' = line_duration (LineAnimation_init 100) /\
    xdata la' = xdata (LineAnimation_init 100)
                  ++ [Z.of_nat (length (xdata (LineAnimation_init 100)))] /\
    series_of la' ([] ++ [percent_of SUSCEPTIBLE fresh2x1])
              ([] ++ [percent_of INFECTED fresh2x1])
              ([] ++ [percent_of RECOVERED fresh2x1])
              ([] ++ [percent_of DEAD fresh2x1]).
Proof.
  apply (proj2 LineAnimation_update_appends numpy_scalar
           (LineAnimation_init 100) fresh2x1 7).
  - exact (proj1 (proj1 LineAnimation_update_appends 100)).
  - exact shaped_fresh2x1.
  - simpl; lia.
  - simpl; lia.
  - simpl; lia.
Defined.

Lemma animation_frames_witness :
  exists self0 self c' hist,
    Animation_init fresh2x1 100 = Returns self0 /\
    run_frames (numpy := numpy_scalar) (always_Q (1 # 2)) [0; 1] self0 0%nat =
      Returns (self, c') /\
    run_updates (always_Q (1 # 2)) (length [0; 1]) fresh2x1 0%nat =
      Ok (simulation self, c') /\
    image (gridanimation self) =
      map (map status_colour) (state (simulation self)) /\
    xdata (lineanimation self) = range 0 (Z.of_nat (length [0; 1])) /\
    length hist = length [0; 1] /\
    (forall k sk, nth_error hist k = Some sk ->
       exists ck, run_updates (always_Q (1 # 2)) (S k) fresh2x1 0%nat = Ok (sk, ck)) /\
    series_of (lineanimation self)
      (map (percent_of SUSCEPTIBLE) hist) (map (percent_of INFECTED) hist)
      (map (percent_of RECOVERED) hist) (map (percent_of DEAD) hist).
Proof.
  apply (animation_frames (numpy := numpy_scalar) (always_Q (1 # 2))
           fresh2x1 100 [0; 1] 0%nat).
  - exact valid_fresh2x1.
  - simpl; lia.
  - simpl; lia.
  - simpl; lia.
Defined.

Lemma empty_grid_not_drawn_witness :
  Animation_init empty_engine 100 = Throws (EngineError ValueError) /\
  plot_simulation (always_Q 0) 10%nat empty_engine 100 0%nat =
    Throws (EngineError ValueError).
Proof.
  pose proof (empty_grid_not_drawn (always_Q 0) 10%nat empty_engine 100 0%nat
                valid_empty_engine ltac:(simpl; lia) ltac:(simpl; lia) eq_refl)
    as [Hinit Hplot].
  split; [exact Hinit|]. apply Hplot. simpl; lia.
Defined.


Lemma seed_engine_outcomes_witness :
  seed_engine (always_Z 0) (-1) 10 (1 # 10) (1 # 5) (1 # 20) 3 0%nat =
    Raise ValueError /\
  exists g',
    seed_engine (always_Z 0) 10 10 (1 # 10) (1 # 5) (1 # 20) 3 0%nat =
      Ok (mkSimulation 0 10 10 (1 # 10) (1 # 5) (1 # 20) g',
          (0 + 2 * Z.to_nat 3)%nat) /\
    valid (mkSimulation 0 10 10 (1 # 10) (1 # 5) (1 # 20) g') /\
    Forall (Forall (fun v => v = SUSCEPTIBLE \/ v = INFECTED)) g' /\
    cells_with g' INFECTED <= Z.max 0 3 /\
    (1 <= 3 -> 1 <= cells_with g' INFECTED).
Proof.
  split.
  - apply (proj1 (seed_engine_outcomes (always_Z 0) (-1) 10
                    (1 # 10) (1 # 5) (1 # 20) 3 0%nat)).
    left; lia.
  - apply (proj2 (proj2 (proj2 (seed_engine_outcomes (always_Z 0) 10 10
                                  (1 # 10) (1 # 5) (1 # 20) 3 0%nat)))).
    + lia.
    + lia.
    + unfold NPY_MAX_INTP; lia.
Defined.

Lemma seed_and_plot_runs_witness :
  exists s1 c1 panels s' c',
    seed_engine (always_Z 0) 10 10 (1 # 10) (1 # 5) (1 # 20) 3 0%nat =
      Ok (s1, c1) /\
    seed_and_plot (always_Q (1 # 2)) (always_Z 0) 100 10 10
      (1 # 10) (1 # 5) (1 # 20) 3 100 0%nat = Returns ((panels, s'), c') /\
    run_updates (always_Q (1 # 2)) (Z.to_nat 100) s1 c1 = Ok (s', c') /\
    day s' = 100 /\
    length panels = 15%nat /\
    nth_error panels 0 =
      Some (mkPanel 0 (map (map status_colour) (state s1)) "Day 0") /\
    nth_error panels 14 =
      Some (mkPanel 14 (map (map status_colour) (state s'))
              ("Day " ++ py_str 100)).
Proof.
  apply (seed_and_plot_runs (always_Q (1 # 2)) (always_Z 0) 100 10 10
           (1 # 10) (1 # 5) (1 # 20) 3 100 0%nat).
  - lia.
  - lia.
  - unfold NPY_MAX_INTP; lia.
  - lia.
  - simpl; lia.
Defined.
